(** * A shallow embedding of src/benchmark.cc

    The measurement engine of the benchmark library: SI number formatting,
    range expansion, instance naming, the filter entry points and the
    per-thread [State] machine driven by [KeepRunning].

    C++ [double] is Rocq's primitive binary64 [float]; [int], [int32_t] and
    [int64_t] values are [Z]; [std::string] is [string]; [std::vector] is
    [list].  A failed [CHECK] aborts the process and is the result
    [CheckFailed]; behaviour the C++ standard leaves undefined is the result
    [Undefined]. *)

From Stdlib Require Import ZArith List Sorted String Ascii Bool Lia Floats DecimalString.
Import ListNotations.

Set Warnings "-inexact-float".

Declare Scope result_scope.
Delimit Scope result_scope with result.
Declare Scope machine_scope.
Delimit Scope machine_scope with machine.
Local Open Scope string_scope.
Local Open Scope Z_scope.
Local Open Scope result_scope.

(** ** Results of fallible code *)

Inductive result (A : Type) : Type :=
| Ok (a : A)
| CheckFailed
| Undefined.

Arguments Ok {A} a.
Arguments CheckFailed {A}.
Arguments Undefined {A}.

Definition bind {A B : Type} (r : result A) (k : A -> result B) : result B :=
  match r with
  | Ok a => k a
  | CheckFailed => CheckFailed
  | Undefined => Undefined
  end.

Notation "x <- c1 ;; c2" := (bind c1 (fun x => c2))
  (at level 61, c1 at next level, right associativity) : result_scope.

(** [CHECK(b)]: continue when [b] holds, abort otherwise. *)
Definition CHECK (b : bool) : result unit :=
  if b then Ok tt else CheckFailed.

(** ** Machine numbers *)

Definition double := float.

Definition INT32_MAX : Z := 2147483647.
Definition INT64_MIN : Z := - 2 ^ 63.
Definition INT64_MAX : Z := 2 ^ 63 - 1.

(** Conversion of an integer that fits 64 bits to [double] (round to nearest,
    as the hardware conversion does). *)
Definition double_of_Z (z : Z) : double :=
  match z with
  | Z0 => 0%float
  | Zpos _ => of_uint63 (Uint63.of_Z z)
  | Zneg _ =>
      if z =? INT64_MIN
      then (- (of_uint63 (Uint63.of_Z (2 ^ 62)) * 2))%float
      else (- of_uint63 (Uint63.of_Z (- z)))%float
  end.

(** [static_cast<int64_t>(d)]: truncation toward zero; a NaN, an infinity or
    a value outside the range of [int64_t] is undefined behaviour. *)
Definition int64_of_double (d : double) : result Z :=
  match Prim2SF d with
  | S754_zero _ => Ok 0
  | S754_finite s m e =>
      let a := if 0 <=? e then Z.shiftl (Zpos m) e else Z.shiftr (Zpos m) (- e) in
      let v := if s then - a else a in
      if (INT64_MIN <=? v) && (v <=? INT64_MAX) then Ok v else Undefined
  | S754_infinity _ | S754_nan => Undefined
  end.

(** [static_cast<int>(n)] of an unsigned size: the value modulo 2^32, read as
    a signed 32-bit integer. *)
Definition int_of_size (n : nat) : Z :=
  let m := Z.of_nat n mod 2 ^ 32 in
  if m <? 2 ^ 31 then m else m - 2 ^ 32.

(** ** Stream output: [ostream << int] and [ostream << double] *)

Definition show_int (z : Z) : string :=
  NilZero.string_of_int (Z.to_int z).

(** [w] decimal digits of [n], most significant first, padded with zeros. *)
Fixpoint digits_fixed (w : nat) (n : Z) : string :=
  match w with
  | O => ""
  | S w' => digits_fixed w' (n / 10) ++ String (ascii_of_nat (48 + Z.to_nat (n mod 10))) ""
  end.

(** Removal of the trailing zeros of a fraction, as [%g] does. *)
Fixpoint strip_zeros_rev (s : list ascii) : list ascii :=
  match s with
  | "0"%char :: s' => strip_zeros_rev s'
  | _ => s
  end.

Definition strip_trailing_zeros (s : string) : string :=
  string_of_list_ascii (rev (strip_zeros_rev (rev (list_ascii_of_string s)))).

Definition with_fraction (int_part frac : string) : string :=
  match strip_trailing_zeros frac with
  | "" => int_part
  | f => int_part ++ "." ++ f
  end.

(** Rounding of the rational [a / b] ([b > 0]) to the nearest integer, ties
    to even. *)
Definition round_half_even (a b : Z) : Z :=
  let q := a / b in
  let r := a mod b in
  match 2 * r ?= b with
  | Lt => q
  | Gt => q + 1
  | Eq => if Z.even q then q else q + 1
  end.

(** The decimal exponent of the positive rational [a / b]: the [x] with
    [10^x <= a/b < 10^(x+1)], searched downward from [x0] when [a/b < 10^(x0+1)]. *)
Fixpoint decimal_exponent_down (fuel : nat) (a b : Z) (x : Z) : Z :=
  match fuel with
  | O => x
  | S fuel' =>
      if 0 <=? x
      then (if b * 10 ^ x <=? a then x else decimal_exponent_down fuel' a b (x - 1))
      else (if b <=? a * 10 ^ (- x) then x else decimal_exponent_down fuel' a b (x - 1))
  end.

Definition decimal_exponent (a b : Z) : Z :=
  decimal_exponent_down 700 a b 309.

(** The positive rational [a / b] scaled by [10^k]. *)
Definition scale10 (a b k : Z) : Z * Z :=
  if 0 <=? k then (a * 10 ^ k, b) else (a, b * 10 ^ (- k)).

(** [printf("%.6g")] of the positive rational [a / b], which is what a stream
    with its default settings prints for a finite non-zero [double]. *)
Definition show_g6 (a b : Z) : string :=
  let x0 := decimal_exponent a b in
  let '(n0, d0) := scale10 a b (5 - x0) in
  let r0 := round_half_even n0 d0 in
  let '(x, r) := if 1000000 <=? r0 then (x0 + 1, 100000) else (x0, r0) in
  if (x <? -4) || (6 <=? x)
  then
    with_fraction (digits_fixed 1 (r / 100000)) (digits_fixed 5 (r mod 100000))
      ++ "e" ++ (if x <? 0 then "-" else "+")
      ++ (if Z.abs x <? 10 then "0" else "") ++ show_int (Z.abs x)
  else
    let p := 10 ^ (5 - x) in
    with_fraction (show_int (r / p)) (digits_fixed (Z.to_nat (5 - x)) (r mod p)).

(** [ostream << double].  The stream prints a NaN with its sign; [Prim2SF]
    gives no sign for a NaN, and every NaN is shown as "nan". *)
Definition show_double (d : double) : string :=
  match Prim2SF d with
  | S754_nan => "nan"
  | S754_infinity s => (if s then "-" else "") ++ "inf"
  | S754_zero s => (if s then "-" else "") ++ "0"
  | S754_finite s m e =>
      (if s then "-" else "")
        ++ (if 0 <=? e then show_g6 (Zpos m * 2 ^ e) 1 else show_g6 (Zpos m) (2 ^ (- e)))
  end.

(** ** SI number formatting *)

(** The unit tables are C character arrays: [arraysize] counts the
    terminating NUL, which is therefore their last element here. *)
Definition NUL : ascii := "000"%char.
(** kilo, Mega, Giga, Tera, Peta, Exa, Zetta, Yotta. *)
Definition kBigSIUnits : list ascii := (list_ascii_of_string "kMGTPEZY" ++ [NUL])%list.
(** Kibi, Mebi, Gibi, Tebi, Pebi, Exbi, Zebi, Yobi. *)
Definition kBigIECUnits : list ascii := (list_ascii_of_string "KMGTPEZY" ++ [NUL])%list.
(** milli, micro, nano, pico, femto, atto, zepto, yocto. *)
Definition kSmallSIUnits : list ascii := (list_ascii_of_string "munpfazy" ++ [NUL])%list.

Definition arraysize {A : Type} (a : list A) : nat := List.length a.
Definition kUnitsSize : Z := Z.of_nat (arraysize kBigSIUnits).

(** [std::max(a, b)]: [b] when [a < b], otherwise [a]. *)
Definition std_max (a b : double) : double :=
  if (a <? b)%float then b else a.

(** [pow(10.0, precision)] for an integer [precision]; the product is exact
    for [0 <= precision <= 22], and the callers of this file pass 0 and 1. *)
Definition pow10 (precision : Z) : double :=
  let p := Z.iter (Z.abs precision) (fun x => (x * 10)%float) 1%float in
  if precision <? 0 then (1 / p)%float else p.

(** The positive-power loop of [ToExponentAndMantissa]: [n] iterations are
    left, [i] is the loop index. *)
Fixpoint big_loop (n : nat) (i : Z) (scaled one_k big_threshold : double)
  : option (double * Z) :=
  match n with
  | O => None
  | S n' =>
      let scaled := (scaled / one_k)%float in
      if (scaled <=? big_threshold)%float
      then Some (scaled, i + 1)
      else big_loop n' (i + 1) scaled one_k big_threshold
  end.

(** The negative-power loop of [ToExponentAndMantissa]. *)
Fixpoint small_loop (n : nat) (i : Z) (scaled one_k small_threshold : double)
  : option (double * Z) :=
  match n with
  | O => None
  | S n' =>
      let scaled := (scaled * one_k)%float in
      if (small_threshold <=? scaled)%float
      then Some (scaled, - i - 1)
      else small_loop n' (i + 1) scaled one_k small_threshold
  end.

(** The pair is [( *mantissa, *exponent )]. *)
Definition ToExponentAndMantissa (val thresh : double) (precision : Z) (one_k : double)
  : string * Z :=
  let sign := if (val <? 0)%float then "-" else "" in
  let val := if (val <? 0)%float then (- val)%float else val in
  let adjusted_threshold := std_max thresh (1 / pow10 precision)%float in
  let big_threshold := (adjusted_threshold * one_k)%float in
  let small_threshold := adjusted_threshold in
  if (big_threshold <? val)%float then
    match big_loop (arraysize kBigSIUnits) 0 val one_k big_threshold with
    | Some (scaled, e) => (sign ++ show_double scaled, e)
    | None => (sign ++ show_double val, 0)
    end
  else if (val <? small_threshold)%float then
    match small_loop (arraysize kSmallSIUnits) 0 val one_k small_threshold with
    | Some (scaled, e) => (sign ++ show_double scaled, e)
    | None => (sign ++ show_double val, 0)
    end
  else (sign ++ show_double val, 0).

Definition ExponentToPrefix (exponent : Z) (iec : bool) : string :=
  if exponent =? 0 then ""
  else
    let index := if 0 <? exponent then exponent - 1 else - exponent - 1 in
    if kUnitsSize <=? index then ""
    else
      let array :=
        if 0 <? exponent then (if iec then kBigIECUnits else kBigSIUnits)
        else kSmallSIUnits in
      let c := nth (Z.to_nat index) array NUL in
      if iec then String c "i" else String c "".

Definition ToBinaryStringFullySpecified (value threshold : double) (precision : Z) : string :=
  let '(mantissa, exponent) := ToExponentAndMantissa value threshold precision 1024%float in
  mantissa ++ ExponentToPrefix exponent false.

(** Round down to the nearest SI prefix; returns the new value of [*str]. *)
Definition AppendHumanReadable (n : Z) (str : string) : string :=
  str ++ ("/" ++ ToBinaryStringFullySpecified (double_of_Z n) 1%float 0).

(** 1.1 means that figures up to 1.1k should be shown with the next unit
    down; 1 means one decimal place of precision. *)
Definition HumanReadableNumber (n : double) : string :=
  ToBinaryStringFullySpecified n 1.1%float 1.

(** ** Range expansion *)

(** For non-dense Range, intermediate values are powers of kRangeMultiplier. *)
Definition kRangeMultiplier : Z := 8.

(** The [for] loop of [AddRange]; [None] when [fuel] iterations do not reach
    its exit.  The guard [i < max / mult] keeps [i *= mult] within 32 bits. *)
Fixpoint AddRange_loop (fuel : nat) (dst : list Z) (lo hi mult i : Z) : option (list Z) :=
  match fuel with
  | O => None
  | S fuel' =>
      if i <? Z.quot INT32_MAX mult then
        if hi <=? i then Some dst
        else AddRange_loop fuel' (if lo <? i then dst ++ [i] else dst)%list lo hi mult (i * mult)
      else Some dst
  end.

(** [AddRange(dst, lo, hi, mult)] returns the new contents of [*dst]. A zero
    [mult] divides by zero. *)
Definition AddRange (fuel : nat) (dst : list Z) (lo hi mult : Z) : option (result (list Z)) :=
  if negb (0 <=? lo) then Some CheckFailed
  else if negb (lo <=? hi) then Some CheckFailed
  else if mult =? 0 then Some Undefined
  else
    match AddRange_loop fuel (dst ++ [lo])%list lo hi mult 1 with
    | None => None
    | Some dst' => Some (Ok (if negb (hi =? lo) then dst' ++ [hi] else dst')%list)
    end.

(** ** Command-line flags *)

Record Flags := {
  FLAGS_benchmark_filter : string;
  FLAGS_benchmark_min_iters : Z;
  FLAGS_benchmark_max_iters : Z;
  FLAGS_benchmark_min_time : double;
  FLAGS_benchmark_repetitions : Z
}.

(** The values given to [DEFINE_string], [DEFINE_int32] and [DEFINE_double]. *)
Definition default_flags : Flags := {|
  FLAGS_benchmark_filter := ".";
  FLAGS_benchmark_min_iters := 100;
  FLAGS_benchmark_max_iters := 1000000000;
  FLAGS_benchmark_min_time := 0.5%float;
  FLAGS_benchmark_repetitions := 1
|}.

(** ** Families and instances *)

(** A registered family; [function_] and [registration_index_] play no part
    in expansion and are left out. *)
Record Benchmark := {
  name_ : string;
  rangeX_ : list Z;
  rangeY_ : list Z;
  thread_counts_ : list Z
}.

(** [Benchmark::Instance]; [bm] stands for the pointer to the family. *)
Record Benchmark_Instance := {
  name : string;
  bm : Benchmark;
  rangeXset : bool;
  rangeX : Z;
  rangeYset : bool;
  rangeY : Z;
  threads : Z
}.

(** *** Registration

    The methods that fill the axes of a family; each returns the family as
    it is after the call. *)

Definition Arg (x : Z) (this : Benchmark) : Benchmark :=
  {| name_ := name_ this; rangeX_ := (rangeX_ this ++ [x])%list;
     rangeY_ := rangeY_ this; thread_counts_ := thread_counts_ this |}.

Definition Range (fuel : nat) (start limit : Z) (this : Benchmark)
  : option (result Benchmark) :=
  match AddRange fuel [] start limit kRangeMultiplier with
  | None => None
  | Some r =>
      Some (arglist <- r ;;
            Ok {| name_ := name_ this; rangeX_ := (rangeX_ this ++ arglist)%list;
                  rangeY_ := rangeY_ this; thread_counts_ := thread_counts_ this |})
  end.

Definition ArgPair (x y : Z) (this : Benchmark) : Benchmark :=
  {| name_ := name_ this; rangeX_ := (rangeX_ this ++ [x])%list;
     rangeY_ := (rangeY_ this ++ [y])%list; thread_counts_ := thread_counts_ this |}.

(** [resize] and [std::copy] leave exactly the two expansions. *)
Definition RangePair (fuel : nat) (lo1 hi1 lo2 hi2 : Z) (this : Benchmark)
  : option (result Benchmark) :=
  match AddRange fuel [] lo1 hi1 kRangeMultiplier with
  | None => None
  | Some r1 =>
      match r1 with
      | Ok arglist1 =>
          match AddRange fuel [] lo2 hi2 kRangeMultiplier with
          | None => None
          | Some r2 =>
              Some (arglist2 <- r2 ;;
                    Ok {| name_ := name_ this; rangeX_ := arglist1; rangeY_ := arglist2;
                          thread_counts_ := thread_counts_ this |})
          end
      | CheckFailed => Some CheckFailed
      | Undefined => Some Undefined
      end
  end.

Definition Threads (t : Z) (this : Benchmark) : result Benchmark :=
  _ <- CHECK (0 <? t) ;;
  Ok {| name_ := name_ this; rangeX_ := rangeX_ this; rangeY_ := rangeY_ this;
        thread_counts_ := (thread_counts_ this ++ [t])%list |}.

Definition ThreadRange (fuel : nat) (min_threads max_threads : Z) (this : Benchmark)
  : option (result Benchmark) :=
  if negb (0 <? min_threads) then Some CheckFailed
  else if negb (min_threads <=? max_threads) then Some CheckFailed
  else
    match AddRange fuel (thread_counts_ this) min_threads max_threads 2 with
    | None => None
    | Some r =>
        Some (counts <- r ;;
              Ok {| name_ := name_ this; rangeX_ := rangeX_ this; rangeY_ := rangeY_ this;
                    thread_counts_ := counts |})
    end.

Definition multithreaded (b : Benchmark_Instance) : bool :=
  negb (match thread_counts_ (bm b) with [] => true | _ => false end).

(** [v[i]] on a vector: an index outside the vector is undefined behaviour. *)
Definition vector_at {A : Type} (v : list A) (i : Z) : result A :=
  if i <? 0 then Undefined
  else match nth_error v (Z.to_nat i) with
       | Some a => Ok a
       | None => Undefined
       end.

(** [mapM] over the result type, left to right. *)
Fixpoint map_result {A B : Type} (f : A -> result B) (l : list A) : result (list B) :=
  match l with
  | [] => Ok []
  | a :: l' => b <- f a ;; bs <- map_result f l' ;; Ok (b :: bs)
  end.

Record BenchmarkContextData := {
  num_cpus : Z;
  mhz_per_cpu : double;
  cpu_scaling_enabled : bool;
  name_field_width : Z
}.

(** The abstract reporter, reduced to the answer of [ReportContext]; what a
    reporter prints is not modelled. *)
Record BenchmarkReporter := {
  ReportContext : BenchmarkContextData -> bool
}.

(** [ConsoleReporter::ReportContext] prints the header and returns true. *)
Definition ConsoleReporter : BenchmarkReporter :=
  {| ReportContext := fun _ => true |}.

Section Registry.

(** Constants declared in benchmark/benchmark.h; their values are left open. *)
Variables kNoRange kNumCpuMarker : Z.

(** sysinfo.h. *)
Variable NumCPUs : Z.
Variable CyclesPerSecond : double.
Variable CpuScalingEnabled : bool.

(** regex.h: [regcomp] with [REG_EXTENDED | REG_NOSUB] yields a compiled
    expression or fails; [regexec re s] is true when the C function returns
    0, that is when [s] matches. *)
Variable regex_t : Type.
Variable regcomp : string -> option regex_t.
Variable regexec : regex_t -> string -> bool.

(** One turn of the loop over thread counts in [CreateBenchmarkInstances]. *)
Definition CreateBenchmarkInstance (this : Benchmark) (rangeXindex rangeYindex : Z)
    (is_multithreaded : bool) (t : Z) : result Benchmark_Instance :=
  let num_threads := if t =? kNumCpuMarker then NumCPUs else t in
  let instance :=
    {| name := name_ this; bm := this;
       rangeXset := false; rangeX := kNoRange;
       rangeYset := false; rangeY := kNoRange;
       threads := num_threads |} in
  instance <-
    (if negb (rangeXindex =? kNoRange) then
       x <- vector_at (rangeX_ this) rangeXindex ;;
       Ok {| name := AppendHumanReadable x (name instance); bm := bm instance;
             rangeXset := true; rangeX := x;
             rangeYset := rangeYset instance; rangeY := rangeY instance;
             threads := threads instance |}
     else Ok instance) ;;
  instance <-
    (if negb (rangeYindex =? kNoRange) then
       y <- vector_at (rangeY_ this) rangeYindex ;;
       Ok {| name := AppendHumanReadable y (name instance); bm := bm instance;
             rangeXset := rangeXset instance; rangeX := rangeX instance;
             rangeYset := true; rangeY := y;
             threads := threads instance |}
     else Ok instance) ;;
  (* Add the number of threads used to the name *)
  Ok (if is_multithreaded
      then {| name := name instance ++ ("/threads:" ++ show_int (threads instance));
              bm := bm instance;
              rangeXset := rangeXset instance; rangeX := rangeX instance;
              rangeYset := rangeYset instance; rangeY := rangeY instance;
              threads := threads instance |}
      else instance).

Definition CreateBenchmarkInstances (this : Benchmark) (rangeXindex rangeYindex : Z)
    : result (list Benchmark_Instance) :=
  (* Special list of thread counts to use when none are specified *)
  let one_thread := [1] in
  let is_multithreaded := negb (match thread_counts_ this with [] => true | _ => false end) in
  let thread_counts := if is_multithreaded then thread_counts_ this else one_thread in
  map_result (CreateBenchmarkInstance this rangeXindex rangeYindex is_multithreaded)
             thread_counts.

(** The instances of one family that passed the filter, appended to
    [benchmarks]. *)
Definition FindBenchmarks_family (family : Benchmark)
    (benchmarks : list Benchmark_Instance) : result (list Benchmark_Instance) :=
  match rangeX_ family, rangeY_ family with
  | [], [] =>
      instances <- CreateBenchmarkInstances family kNoRange kNoRange ;;
      Ok (benchmarks ++ instances)%list
  | _, [] =>
      fold_left
        (fun acc x =>
           benchmarks <- acc ;;
           instances <- CreateBenchmarkInstances family (int_of_size x) kNoRange ;;
           Ok (benchmarks ++ instances)%list)
        (seq 0 (List.length (rangeX_ family))) (Ok benchmarks)
  | _, _ =>
      fold_left
        (fun acc x =>
           fold_left
             (fun acc y =>
                benchmarks <- acc ;;
                instances <-
                  CreateBenchmarkInstances family (int_of_size x) (int_of_size y) ;;
                Ok (benchmarks ++ instances)%list)
             (seq 0 (List.length (rangeY_ family))) acc)
        (seq 0 (List.length (rangeX_ family))) (Ok benchmarks)
  end.

(** Extract the list of benchmark instances that match the specified
    regular expression.  [families] is the vector the static pointer of
    that name leads to, a deleted family being an empty slot; the result is
    the new contents of [*benchmarks].  The pointer itself, which may be
    null, is [Benchmark_FindBenchmarks]'s below. *)
Definition FindBenchmarks (families : list (option Benchmark)) (spec : string)
    (benchmarks : list Benchmark_Instance) : result (list Benchmark_Instance) :=
  match regcomp spec with
  | None => Ok benchmarks   (* "Could not compile benchmark re" *)
  | Some re =>
      fold_left
        (fun acc family =>
           benchmarks <- acc ;;
           match family with
           | None => Ok benchmarks   (* Family was deleted *)
           | Some family =>
               if negb (regexec re (name_ family)) then Ok benchmarks
               else FindBenchmarks_family family benchmarks
           end)
        families (Ok benchmarks)
  end.

(** [Benchmark::FindBenchmarks] on the static pointer [families], which is
    null until the first family is constructed: the expression is compiled
    first, and with an expression that compiles the header of the loop
    dereferences the pointer. *)
Definition Benchmark_FindBenchmarks (families : option (list (option Benchmark)))
    (spec : string) (benchmarks : list Benchmark_Instance)
    : result (list Benchmark_Instance) :=
  match regcomp spec with
  | None => Ok benchmarks   (* "Could not compile benchmark re" *)
  | Some _ =>
      match families with
      | None => Undefined
      | Some registry => FindBenchmarks registry spec benchmarks
      end
  end.

(** The width of the name column: at least 10, with room for "_stddev" and
    "/threads:XX". *)
Definition NameFieldWidth (flags : Flags) (benchmarks : list Benchmark_Instance) : Z :=
  fold_left
    (fun name_field_width benchmark =>
       let size := Z.of_nat (String.length (name benchmark)) in
       if (1 <? threads benchmark) && (1 <? FLAGS_benchmark_repetitions flags)
       then Z.max name_field_width (size + 17)
       else if 1 <? threads benchmark
       then Z.max name_field_width (size + 10)
       else if 1 <? FLAGS_benchmark_repetitions flags
       then Z.max name_field_width (size + 7)
       else Z.max name_field_width size)
    benchmarks 10.

(** [RunMatchingBenchmarks] up to its calls of [Benchmark::RunInstance]:
    the value is the instances handed to them, in the order of the calls.
    What a call does, and whether it returns, is [RunInstance]'s below and
    no part of this function. *)
Definition RunMatchingBenchmarks (flags : Flags) (families : list (option Benchmark))
    (spec : string) (reporter : option BenchmarkReporter)
    : result (list Benchmark_Instance) :=
  match reporter with
  | None => CheckFailed
  | Some reporter =>
      if String.eqb spec "" then Ok []
      else
        benchmarks <- FindBenchmarks families spec [] ;;
        let context :=
          {| num_cpus := NumCPUs;
             mhz_per_cpu := (CyclesPerSecond / 1000000)%float;
             cpu_scaling_enabled := CpuScalingEnabled;
             name_field_width := NameFieldWidth flags benchmarks |} in
        if ReportContext reporter context then Ok benchmarks else Ok []
  end.

(** [std::transform] through the output iterator [first + i]: every write
    needs an existing element. *)
Fixpoint transform_at {A B : Type} (f : A -> B) (src : list A) (dst : list B) (i : nat)
    : result (list B) :=
  match src with
  | [] => Ok dst
  | a :: src' =>
      if (i <? List.length dst)%nat
      then transform_at f src' (firstn i dst ++ f a :: skipn (S i) dst)%list (S i)
      else Undefined
  end.

(** The result is the new contents of [*benchmark_names]. *)
Definition FindMatchingBenchmarkNames (families : list (option Benchmark))
    (spec : string) (benchmark_names : list string) : result (list string) :=
  if String.eqb spec "" then Ok benchmark_names
  else
    benchmarks <- FindBenchmarks families spec [] ;;
    transform_at name benchmarks benchmark_names 0.

Definition RunSpecifiedBenchmarks (flags : Flags) (families : list (option Benchmark))
    : result (list Benchmark_Instance) :=
  let spec := FLAGS_benchmark_filter flags in
  let spec := if String.eqb spec "" || String.eqb spec "all"
              then "."         (* Regexp that matches all benchmarks *)
              else spec in
  RunMatchingBenchmarks flags families spec (Some ConsoleReporter).

End Registry.

(** ** The interpreter of the filter used by the examples

    A small stand-in for the C library's regular expressions: a pattern made
    of literal characters and of [.] (any one character), searched anywhere
    in the subject.  Patterns with other operators are refused. *)

Definition simple_regex := list ascii.

Definition is_operator (c : ascii) : bool :=
  existsb (Ascii.eqb c) (list_ascii_of_string "()[]{}*+?|^$\").

Definition simple_regcomp (spec : string) : option simple_regex :=
  let p := list_ascii_of_string spec in
  if existsb is_operator p then None else Some p.

Fixpoint match_here (p s : list ascii) : bool :=
  match p, s with
  | [], _ => true
  | _ :: _, [] => false
  | c :: p', d :: s' => (Ascii.eqb c "."%char || Ascii.eqb c d) && match_here p' s'
  end.

Fixpoint search (p s : list ascii) : bool :=
  match_here p s || match s with [] => false | _ :: s' => search p s' end.

Definition simple_regexec (re : simple_regex) (subject : string) : bool :=
  search re (list_ascii_of_string subject).

(** ** The measurement engine: data *)

Inductive EState : Set :=
| STATE_INITIAL    (* KeepRunning hasn't been called *)
| STATE_STARTING   (* KeepRunning called, waiting for other threads *)
| STATE_RUNNING    (* Running and being timed *)
| STATE_STOPPING   (* Not being timed but waiting for other threads *)
| STATE_STOPPED.   (* Stopped *)

Definition EState_eqb (a b : EState) : bool :=
  match a, b with
  | STATE_INITIAL, STATE_INITIAL
  | STATE_STARTING, STATE_STARTING
  | STATE_RUNNING, STATE_RUNNING
  | STATE_STOPPING, STATE_STOPPING
  | STATE_STOPPED, STATE_STOPPED => true
  | _, _ => false
  end.

Record ThreadStats := {
  bytes_processed : Z;
  items_processed : Z
}.

Module BenchmarkRunData.
Record t := {
  benchmark_name : string;
  report_label : string;
  thread_index : Z;
  iterations : Z;
  real_accumulated_time : double;
  cpu_accumulated_time : double;
  bytes_per_second : double;
  items_per_second : double;
  max_heapbytes_used : double
}.
End BenchmarkRunData.

Inductive FastClock_Type : Set := REAL_TIME | CPU_TIME.

Record FastClock := {
  type_ : FastClock_Type;
  approx_time_ : Z   (* Last time measurement taken by bg_ *)
}.

Module SharedState.
Record t := {
  instance : option Benchmark_Instance;
  starting : Z;   (* Number of threads that have entered STARTING state *)
  stopping : Z;   (* Number of threads that have entered STOPPING state *)
  threads : Z;    (* Number of total threads that are running concurrently *)
  stats : ThreadStats;
  runs : list BenchmarkRunData.t;   (* accumulated runs *)
  label : string
}.
End SharedState.

(** The members of [State] but for the pointers [clock_] and [shared_],
    whose targets are part of the [Machine] below. *)
Record State := {
  thread_index : Z;
  state_ : EState;
  iterations_ : Z;
  start_cpu_ : double;
  start_time_ : double;
  stop_time_micros_ : Z;
  start_pause_ : double;
  pause_time_ : double;
  total_iterations_ : Z;     (* Total number of iterations for all finished runs *)
  interval_micros_ : Z;      (* Approximate time for one interval of execution *)
  is_continuation_ : bool    (* The current interval continues a previous one *)
}.

(** What one worker reads and writes: its own [State], the objects behind
    [clock_] and [shared_], the thread-local statistics found through
    [thread_stats_key], the global [use_real_time], and the number of clock
    readings the process has taken so far. *)
Record Machine := {
  self : State;
  clock : FastClock;
  shared : SharedState.t;
  thread_stats : ThreadStats;
  use_real_time : bool;
  now : nat
}.

(** *** Field updates *)

Definition set_state_ (v : EState) (s : State) : State :=
  {| thread_index := thread_index s; state_ := v; iterations_ := iterations_ s;
     start_cpu_ := start_cpu_ s; start_time_ := start_time_ s;
     stop_time_micros_ := stop_time_micros_ s; start_pause_ := start_pause_ s;
     pause_time_ := pause_time_ s; total_iterations_ := total_iterations_ s;
     interval_micros_ := interval_micros_ s; is_continuation_ := is_continuation_ s |}.

Definition set_iterations_ (v : Z) (s : State) : State :=
  {| thread_index := thread_index s; state_ := state_ s; iterations_ := v;
     start_cpu_ := start_cpu_ s; start_time_ := start_time_ s;
     stop_time_micros_ := stop_time_micros_ s; start_pause_ := start_pause_ s;
     pause_time_ := pause_time_ s; total_iterations_ := total_iterations_ s;
     interval_micros_ := interval_micros_ s; is_continuation_ := is_continuation_ s |}.

Definition set_start_cpu_ (v : double) (s : State) : State :=
  {| thread_index := thread_index s; state_ := state_ s; iterations_ := iterations_ s;
     start_cpu_ := v; start_time_ := start_time_ s;
     stop_time_micros_ := stop_time_micros_ s; start_pause_ := start_pause_ s;
     pause_time_ := pause_time_ s; total_iterations_ := total_iterations_ s;
     interval_micros_ := interval_micros_ s; is_continuation_ := is_continuation_ s |}.

Definition set_start_time_ (v : double) (s : State) : State :=
  {| thread_index := thread_index s; state_ := state_ s; iterations_ := iterations_ s;
     start_cpu_ := start_cpu_ s; start_time_ := v;
     stop_time_micros_ := stop_time_micros_ s; start_pause_ := start_pause_ s;
     pause_time_ := pause_time_ s; total_iterations_ := total_iterations_ s;
     interval_micros_ := interval_micros_ s; is_continuation_ := is_continuation_ s |}.

Definition set_stop_time_micros_ (v : Z) (s : State) : State :=
  {| thread_index := thread_index s; state_ := state_ s; iterations_ := iterations_ s;
     start_cpu_ := start_cpu_ s; start_time_ := start_time_ s;
     stop_time_micros_ := v; start_pause_ := start_pause_ s;
     pause_time_ := pause_time_ s; total_iterations_ := total_iterations_ s;
     interval_micros_ := interval_micros_ s; is_continuation_ := is_continuation_ s |}.

Definition set_start_pause_ (v : double) (s : State) : State :=
  {| thread_index := thread_index s; state_ := state_ s; iterations_ := iterations_ s;
     start_cpu_ := start_cpu_ s; start_time_ := start_time_ s;
     stop_time_micros_ := stop_time_micros_ s; start_pause_ := v;
     pause_time_ := pause_time_ s; total_iterations_ := total_iterations_ s;
     interval_micros_ := interval_micros_ s; is_continuation_ := is_continuation_ s |}.

Definition set_pause_time_ (v : double) (s : State) : State :=
  {| thread_index := thread_index s; state_ := state_ s; iterations_ := iterations_ s;
     start_cpu_ := start_cpu_ s; start_time_ := start_time_ s;
     stop_time_micros_ := stop_time_micros_ s; start_pause_ := start_pause_ s;
     pause_time_ := v; total_iterations_ := total_iterations_ s;
     interval_micros_ := interval_micros_ s; is_continuation_ := is_continuation_ s |}.

Definition set_total_iterations_ (v : Z) (s : State) : State :=
  {| thread_index := thread_index s; state_ := state_ s; iterations_ := iterations_ s;
     start_cpu_ := start_cpu_ s; start_time_ := start_time_ s;
     stop_time_micros_ := stop_time_micros_ s; start_pause_ := start_pause_ s;
     pause_time_ := pause_time_ s; total_iterations_ := v;
     interval_micros_ := interval_micros_ s; is_continuation_ := is_continuation_ s |}.

Definition set_interval_micros_ (v : Z) (s : State) : State :=
  {| thread_index := thread_index s; state_ := state_ s; iterations_ := iterations_ s;
     start_cpu_ := start_cpu_ s; start_time_ := start_time_ s;
     stop_time_micros_ := stop_time_micros_ s; start_pause_ := start_pause_ s;
     pause_time_ := pause_time_ s; total_iterations_ := total_iterations_ s;
     interval_micros_ := v; is_continuation_ := is_continuation_ s |}.

Definition set_is_continuation_ (v : bool) (s : State) : State :=
  {| thread_index := thread_index s; state_ := state_ s; iterations_ := iterations_ s;
     start_cpu_ := start_cpu_ s; start_time_ := start_time_ s;
     stop_time_micros_ := stop_time_micros_ s; start_pause_ := start_pause_ s;
     pause_time_ := pause_time_ s; total_iterations_ := total_iterations_ s;
     interval_micros_ := interval_micros_ s; is_continuation_ := v |}.

Definition set_starting (v : Z) (s : SharedState.t) : SharedState.t :=
  {| SharedState.instance := SharedState.instance s; SharedState.starting := v;
     SharedState.stopping := SharedState.stopping s;
     SharedState.threads := SharedState.threads s;
     SharedState.stats := SharedState.stats s; SharedState.runs := SharedState.runs s;
     SharedState.label := SharedState.label s |}.

Definition set_stopping (v : Z) (s : SharedState.t) : SharedState.t :=
  {| SharedState.instance := SharedState.instance s;
     SharedState.starting := SharedState.starting s; SharedState.stopping := v;
     SharedState.threads := SharedState.threads s;
     SharedState.stats := SharedState.stats s; SharedState.runs := SharedState.runs s;
     SharedState.label := SharedState.label s |}.

Definition set_stats (v : ThreadStats) (s : SharedState.t) : SharedState.t :=
  {| SharedState.instance := SharedState.instance s;
     SharedState.starting := SharedState.starting s;
     SharedState.stopping := SharedState.stopping s;
     SharedState.threads := SharedState.threads s;
     SharedState.stats := v; SharedState.runs := SharedState.runs s;
     SharedState.label := SharedState.label s |}.

Definition set_runs (v : list BenchmarkRunData.t) (s : SharedState.t) : SharedState.t :=
  {| SharedState.instance := SharedState.instance s;
     SharedState.starting := SharedState.starting s;
     SharedState.stopping := SharedState.stopping s;
     SharedState.threads := SharedState.threads s;
     SharedState.stats := SharedState.stats s; SharedState.runs := v;
     SharedState.label := SharedState.label s |}.

Definition set_label (v : string) (s : SharedState.t) : SharedState.t :=
  {| SharedState.instance := SharedState.instance s;
     SharedState.starting := SharedState.starting s;
     SharedState.stopping := SharedState.stopping s;
     SharedState.threads := SharedState.threads s;
     SharedState.stats := SharedState.stats s; SharedState.runs := SharedState.runs s;
     SharedState.label := v |}.

Definition with_self (v : State) (m : Machine) : Machine :=
  {| self := v; clock := clock m; shared := shared m; thread_stats := thread_stats m;
     use_real_time := use_real_time m; now := now m |}.

Definition with_clock (v : FastClock) (m : Machine) : Machine :=
  {| self := self m; clock := v; shared := shared m; thread_stats := thread_stats m;
     use_real_time := use_real_time m; now := now m |}.

Definition with_shared (v : SharedState.t) (m : Machine) : Machine :=
  {| self := self m; clock := clock m; shared := v; thread_stats := thread_stats m;
     use_real_time := use_real_time m; now := now m |}.

Definition with_thread_stats (v : ThreadStats) (m : Machine) : Machine :=
  {| self := self m; clock := clock m; shared := shared m; thread_stats := v;
     use_real_time := use_real_time m; now := now m |}.

Definition with_use_real_time (v : bool) (m : Machine) : Machine :=
  {| self := self m; clock := clock m; shared := shared m; thread_stats := thread_stats m;
     use_real_time := v; now := now m |}.

Definition with_now (v : nat) (m : Machine) : Machine :=
  {| self := self m; clock := clock m; shared := shared m; thread_stats := thread_stats m;
     use_real_time := use_real_time m; now := v |}.

(** *** The monad of a worker's code: state and failure *)

Definition M (A : Type) : Type := Machine -> result (A * Machine).

Definition ret {A : Type} (a : A) : M A := fun m => Ok (a, m).

Definition bindM {A B : Type} (c : M A) (k : A -> M B) : M B :=
  fun m => match c m with
           | Ok (a, m') => k a m'
           | CheckFailed => CheckFailed
           | Undefined => Undefined
           end.

Definition lift {A : Type} (r : result A) : M A :=
  fun m => match r with
           | Ok a => Ok (a, m)
           | CheckFailed => CheckFailed
           | Undefined => Undefined
           end.

Definition get : M Machine := fun m => Ok (m, m).
Definition this : M State := fun m => Ok (self m, m).
Definition modify (f : Machine -> Machine) : M unit := fun m => Ok (tt, f m).
Definition modify_this (f : State -> State) : M unit :=
  modify (fun m => with_self (f (self m)) m).
Definition modify_shared (f : SharedState.t -> SharedState.t) : M unit :=
  modify (fun m => with_shared (f (shared m)) m).

Notation "x <- c1 ;; c2" := (bindM c1 (fun x => c2))
  (at level 61, c1 at next level, right associativity) : machine_scope.
Notation "c1 ;; c2" := (bindM c1 (fun _ => c2))
  (at level 61, right associativity) : machine_scope.

(** Signed arithmetic that leaves its type is undefined behaviour. *)
Definition int32 (z : Z) : result Z :=
  if (- 2 ^ 31 <=? z) && (z <=? INT32_MAX) then Ok z else Undefined.

Definition int64 (z : Z) : result Z :=
  if (INT64_MIN <=? z) && (z <=? INT64_MAX) then Ok z else Undefined.

(** [a / b] on [int]. *)
Definition int_div (a b : Z) : result Z :=
  if b =? 0 then Undefined else int32 (Z.quot a b).

(** ** The measurement engine: code *)

Section Engine.

(** walltime.h and sysinfo.h: the value of the [n]-th clock reading the
    process takes. *)
Variable walltime_Now : nat -> double.
Variable MyCPUUsage : nat -> double.
Variable ChildrenCPUUsage : nat -> double.

Variable flags : Flags.

(** [BenchmarkRunData()], the default constructor declared in
    benchmark/benchmark.h. *)
Variable BenchmarkRunData_new : BenchmarkRunData.t.

Local Open Scope machine_scope.

(** One reading of a clock. *)
Definition read (source : nat -> double) : M double :=
  fun m => Ok (source (now m), with_now (S (now m)) m).

(** [MyCPUUsage() + ChildrenCPUUsage()]. *)
Definition CPUUsage : M double :=
  a <- read MyCPUUsage ;;
  b <- read ChildrenCPUUsage ;;
  ret (a + b)%float.

(** *** FastClock *)

(** Returns true if the current time is guaranteed to be past [when_micros]. *)
Definition HasReached (when_micros : Z) : M bool :=
  m <- get ;;
  ret (when_micros <=? approx_time_ (clock m)).

(** Returns the current time in microseconds past the epoch. *)
Definition NowMicros : M Z :=
  m <- get ;;
  t <- match type_ (clock m) with
       | REAL_TIME => read walltime_Now
       | CPU_TIME => CPUUsage
       end ;;
  lift (int64_of_double (t * 1e6)%float).

Definition InitType (type : FastClock_Type) : M unit :=
  modify (fun m => with_clock {| type_ := type; approx_time_ := approx_time_ (clock m) |} m) ;;
  t <- NowMicros ;;
  modify (fun m => with_clock {| type_ := type_ (clock m); approx_time_ := t |} m).

(** One turn of the background thread's loop, after its sleep. *)
Definition BGThread : M unit :=
  t <- NowMicros ;;
  modify (fun m => with_clock {| type_ := type_ (clock m); approx_time_ := t |} m).

(** *** State *)

(** The constructor; [is_continuation_] is not initialized by it and is
    written by [StartRunning] before any read. *)
Definition State_new (t : Z) : result State :=
  (interval <- int64_of_double
                 (1e6 * FLAGS_benchmark_min_time flags
                  / double_of_Z (FLAGS_benchmark_repetitions flags))%float ;;
   Ok {| thread_index := t; state_ := STATE_INITIAL; iterations_ := 0;
         start_cpu_ := 0%float; start_time_ := 0%float; stop_time_micros_ := 0;
         start_pause_ := 0%float; pause_time_ := 0%float; total_iterations_ := 0;
         interval_micros_ := interval; is_continuation_ := false |})%result.

Definition NewInterval : M unit :=
  t <- NowMicros ;;
  s <- this ;;
  stop <- lift (int64 (t + interval_micros_ s)) ;;
  modify_this (set_stop_time_micros_ stop) ;;
  if negb (is_continuation_ s) then
    modify_this (set_iterations_ 0) ;;
    modify_this (set_pause_time_ 0%float) ;;
    c <- CPUUsage ;;
    modify_this (set_start_cpu_ c) ;;
    w <- read walltime_Now ;;
    modify_this (set_start_time_ w)
  else ret tt.

Definition StartRunning : M bool :=
  s <- this ;;
  lift (CHECK (EState_eqb (state_ s) STATE_INITIAL)) ;;
  modify_this (set_state_ STATE_STARTING) ;;
  modify_this (set_is_continuation_ false) ;;
  m <- get ;;
  lift (CHECK (SharedState.starting (shared m) <? SharedState.threads (shared m))) ;;
  n <- lift (int32 (SharedState.starting (shared m) + 1)) ;;
  modify_shared (set_starting n) ;;
  (if n =? SharedState.threads (shared m) then
     (* Last thread to start. *)
     InitType (if use_real_time m then REAL_TIME else CPU_TIME)
   else
     (* Wait for others: nothing is done here. *)
     ret tt) ;;
  s <- this ;;
  lift (CHECK (EState_eqb (state_ s) STATE_STARTING)) ;;
  modify_this (set_state_ STATE_RUNNING) ;;
  NewInterval ;;
  ret true.

Definition AllStarting : M bool :=
  m <- get ;;
  lift (CHECK (SharedState.starting (shared m) <=? SharedState.threads (shared m))) ;;
  ret (SharedState.starting (shared m) =? SharedState.threads (shared m)).

Definition RunAnotherInterval : M bool :=
  m <- get ;;
  if total_iterations_ (self m) <? FLAGS_benchmark_min_iters flags then ret true
  else if FLAGS_benchmark_max_iters flags <? total_iterations_ (self m) then ret false
  else if FLAGS_benchmark_repetitions flags
          <=? int_of_size (List.length (SharedState.runs (shared m)))
  then ret false
  else ret true.

Definition FinishInterval : M bool :=
  s <- this ;;
  q <- lift (int_div (FLAGS_benchmark_min_iters flags) (FLAGS_benchmark_repetitions flags)) ;;
  if (iterations_ s <? q) && (interval_micros_ s <? 5000000) then
    v <- lift (int64 (interval_micros_ s * 2)) ;;
    modify_this (set_interval_micros_ v) ;;
    modify_this (set_is_continuation_ false) ;;
    NewInterval ;;
    ret true
  else
    w <- read walltime_Now ;;
    let accumulated_time := (w - start_time_ s)%float in
    let total_overhead := 0%float in   (* TODO: overhead * iterations_ *)
    lift (CHECK (pause_time_ s <? accumulated_time)%float) ;;
    lift (CHECK (pause_time_ s + total_overhead <? accumulated_time)%float) ;;
    c <- CPUUsage ;;
    let data :=
      {| BenchmarkRunData.benchmark_name :=
           BenchmarkRunData.benchmark_name BenchmarkRunData_new;
         BenchmarkRunData.report_label :=
           BenchmarkRunData.report_label BenchmarkRunData_new;
         BenchmarkRunData.thread_index := thread_index s;
         BenchmarkRunData.iterations := iterations_ s;
         BenchmarkRunData.real_accumulated_time :=
           (accumulated_time - (pause_time_ s + total_overhead))%float;
         BenchmarkRunData.cpu_accumulated_time := (c - start_cpu_ s)%float;
         BenchmarkRunData.bytes_per_second :=
           BenchmarkRunData.bytes_per_second BenchmarkRunData_new;
         BenchmarkRunData.items_per_second :=
           BenchmarkRunData.items_per_second BenchmarkRunData_new;
         BenchmarkRunData.max_heapbytes_used :=
           BenchmarkRunData.max_heapbytes_used BenchmarkRunData_new |} in
    total <- lift (int64 (total_iterations_ s + iterations_ s)) ;;
    modify_this (set_total_iterations_ total) ;;
    m <- get ;;
    (if is_continuation_ s then
       match SharedState.runs (shared m) with
       | [] => lift Undefined   (* back() of an empty vector *)
       | _ => modify_shared (set_runs (removelast (SharedState.runs (shared m)) ++ [data])%list)
       end
     else
       modify_shared (set_runs (SharedState.runs (shared m) ++ [data])%list)) ;;
    keep_going <- RunAnotherInterval ;;
    keep_going <-
      (if negb keep_going then
         m <- get ;;
         n <- lift (int32 (SharedState.stopping (shared m) + 1)) ;;
         modify_shared (set_stopping n) ;;
         if n <? SharedState.threads (shared m) then
           (* Other threads are still running, so continue running but
              without timing to present an expected background load to the
              other threads. *)
           modify_this (set_state_ STATE_STOPPING) ;;
           ret true
         else
           modify_this (set_state_ STATE_STOPPED) ;;
           ret false
       else ret keep_going) ;;
    s' <- this ;;
    (if EState_eqb (state_ s') STATE_RUNNING then
       modify_this (set_is_continuation_ true) ;;
       NewInterval
     else ret tt) ;;
    ret keep_going.

Definition MaybeStop : M bool :=
  m <- get ;;
  if SharedState.stopping (shared m) <? SharedState.threads (shared m) then
    lift (CHECK (EState_eqb (state_ (self m)) STATE_STOPPING)) ;;
    ret true
  else
    modify_this (set_state_ STATE_STOPPED) ;;
    ret false.

Definition KeepRunning : M bool :=
  s <- this ;;
  (* Fast path *)
  when <- lift (int64_of_double (double_of_Z (stop_time_micros_ s) + pause_time_ s)%float) ;;
  reached <- HasReached when ;;
  if negb reached then
    n <- lift (int64 (iterations_ s + 1)) ;;
    modify_this (set_iterations_ n) ;;
    ret true
  else
    match state_ s with
    | STATE_INITIAL => StartRunning
    | STATE_STARTING => lift CheckFailed
    | STATE_RUNNING => FinishInterval
    | STATE_STOPPING => MaybeStop
    | STATE_STOPPED => lift CheckFailed
    end.

Definition PauseTiming : M unit :=
  w <- read walltime_Now ;;
  modify_this (set_start_pause_ w).

Definition ResumeTiming : M unit :=
  w <- read walltime_Now ;;
  s <- this ;;
  modify_this (set_pause_time_ (pause_time_ s + (w - start_pause_ s))%float).

Definition SetBytesProcessed (bytes : Z) : M unit :=
  s <- this ;;
  lift (CHECK (EState_eqb STATE_STOPPED (state_ s))) ;;
  modify (fun m => with_thread_stats
                     {| bytes_processed := bytes;
                        items_processed := items_processed (thread_stats m) |} m).

Definition SetItemsProcessed (items : Z) : M unit :=
  s <- this ;;
  lift (CHECK (EState_eqb STATE_STOPPED (state_ s))) ;;
  modify (fun m => with_thread_stats
                     {| bytes_processed := bytes_processed (thread_stats m);
                        items_processed := items |} m).

Definition SetLabel (label : string) : M unit :=
  s <- this ;;
  lift (CHECK (EState_eqb STATE_STOPPED (state_ s))) ;;
  modify_shared (set_label label).

(** *** A worker seen from outside

    What happens to one worker is a sequence of calls made by the user
    routine, interleaved with turns of the background thread of the fast
    clock. *)
Inductive Event : Set :=
| CallKeepRunning
| CallPauseTiming
| CallResumeTiming
| TurnBGThread.

(** The answers of the [KeepRunning] calls of a sequence, in order. *)
Fixpoint run_events (es : list Event) : M (list bool) :=
  match es with
  | [] => ret []
  | CallKeepRunning :: es' =>
      b <- KeepRunning ;; bs <- run_events es' ;; ret (b :: bs)
  | CallPauseTiming :: es' => PauseTiming ;; run_events es'
  | CallResumeTiming :: es' => ResumeTiming ;; run_events es'
  | TurnBGThread :: es' => BGThread ;; run_events es'
  end.

End Engine.

(** ** Reading the axes *)

(** [State::range_x] and [State::range_y].  A worker without an instance,
    as [MeasureOverhead] makes one, dereferences a null pointer. *)
Definition range_x : M Z :=
  (m <- get ;;
   match SharedState.instance (shared m) with
   | None => lift Undefined
   | Some instance => lift (CHECK (rangeXset instance)) ;; ret (rangeX instance)
   end)%machine.

Definition range_y : M Z :=
  (m <- get ;;
   match SharedState.instance (shared m) with
   | None => lift Undefined
   | Some instance => lift (CHECK (rangeYset instance)) ;; ret (rangeY instance)
   end)%machine.

(** ** The registry of families

    [families] points to a vector of pointers to the registered families.
    An address stands for a pointer to a family, [None] for a null pointer.
    Of a family object the registry code reads and writes
    [registration_index_] alone, which [registered] holds for every family
    that is alive. *)
Definition address := nat.

Record FamilyRegistry := {
  families : option (list (option address));
  registered : list (address * Z)
}.

Definition slot_eqb (a b : option address) : bool :=
  match a, b with
  | Some x, Some y => Nat.eqb x y
  | None, None => true
  | _, _ => false
  end.

(** [Benchmark::Benchmark(name, f)] for the object at [this]. *)
Definition Benchmark_new (this : address) (r : FamilyRegistry) : FamilyRegistry :=
  let v := match families r with
           | None => []      (* families = new std::vector<Benchmark*> *)
           | Some v => v
           end in
  {| families := Some (v ++ [Some this])%list;
     registered := (this, int_of_size (List.length v)) :: registered r |}.

(** [while (!families->empty() && families->back() == NULL) pop_back()], on
    the vector read from its back. *)
Fixpoint pop_back_nulls (reversed : list (option address)) : list (option address) :=
  match reversed with
  | None :: reversed' => pop_back_nulls reversed'
  | _ => reversed
  end.

(** [Benchmark::~Benchmark()] for the object at [this]; destroying what is
    not alive is undefined. *)
Definition Benchmark_delete (this : address) (r : FamilyRegistry) : result FamilyRegistry :=
  match find (fun o => Nat.eqb (fst o) this) (registered r) with
  | None => Undefined
  | Some (_, registration_index_) =>
      match families r with
      | None => Undefined
      | Some v =>
          (slot <- vector_at v registration_index_ ;;
           _ <- CHECK (slot_eqb slot (Some this)) ;;
           let i := Z.to_nat registration_index_ in
           let v := (firstn i v ++ None :: skipn (S i) v)%list in
           (* Shrink the vector if convenient. *)
           Ok {| families := Some (rev (pop_back_nulls (rev v)));
                 registered :=
                   filter (fun o => negb (Nat.eqb (fst o) this)) (registered r) |})%result
      end
  end.

(** What a program does to the registry: it creates a family at an address
    or destroys the family at an address. *)
Inductive RegistryEvent : Set :=
| New (this : address)
| Delete (this : address).

Fixpoint run_registry (es : list RegistryEvent) (r : FamilyRegistry) : result FamilyRegistry :=
  match es with
  | [] => Ok r
  | New this :: es' => run_registry es' (Benchmark_new this r)
  | Delete this :: es' => (r' <- Benchmark_delete this r ;; run_registry es' r')%result
  end.

(** ** Dense ranges *)

(** The [for] loop of [DenseRange]; [++arg] on [INT_MAX] leaves the type. *)
Fixpoint DenseRange_loop (fuel : nat) (rangeX : list Z) (arg limit : Z)
  : option (result (list Z)) :=
  match fuel with
  | O => None
  | S fuel' =>
      if arg <=? limit then
        match int32 (arg + 1) with
        | Ok arg' => DenseRange_loop fuel' (rangeX ++ [arg])%list arg' limit
        | CheckFailed => Some CheckFailed
        | Undefined => Some Undefined
        end
      else Some (Ok rangeX)
  end.

Definition DenseRange (fuel : nat) (start limit : Z) (this : Benchmark)
  : option (result Benchmark) :=
  if negb (0 <=? start) then Some CheckFailed
  else if negb (start <=? limit) then Some CheckFailed
  else
    match DenseRange_loop fuel (rangeX_ this) start limit with
    | None => None
    | Some r =>
        Some (rangeX <- r ;;
              Ok {| name_ := name_ this; rangeX_ := rangeX;
                    rangeY_ := rangeY_ this; thread_counts_ := thread_counts_ this |})%result
    end.

(** ** The command line *)

(** What [ParseCommandLineFlags] reads and writes: the arguments
    [argv[0 .. argc-1]] and the flags it parses. *)
Record CommandLine := {
  argv : list string;
  FLAGS : Flags;
  FLAGS_color_print : bool;
  FLAGS_v : Z
}.

Definition set_FLAGS_benchmark_filter (v : string) (flags : Flags) : Flags :=
  {| FLAGS_benchmark_filter := v;
     FLAGS_benchmark_min_iters := FLAGS_benchmark_min_iters flags;
     FLAGS_benchmark_max_iters := FLAGS_benchmark_max_iters flags;
     FLAGS_benchmark_min_time := FLAGS_benchmark_min_time flags;
     FLAGS_benchmark_repetitions := FLAGS_benchmark_repetitions flags |}.

(** The values given to [DEFINE_int32(v, ...)] and [DEFINE_bool(color_print, ...)]. *)
Definition default_command_line (args : list string) : CommandLine :=
  {| argv := args; FLAGS := default_flags; FLAGS_color_print := true; FLAGS_v := 0 |}.

(** [ParseCommandLineFlags] returns, or leaves the process through
    [PrintUsageAndExit]. *)
Inductive Outcome : Type :=
| Returns (c : CommandLine)
| Exits.

(** The removal of [argv[i]]: every later argument moves down by one and
    [argc] is decremented. *)
Definition remove_argument (i : nat) (args : list string) : list string :=
  (firstn i args ++ skipn (S i) args)%list.

Section CommandLineFlags.

(** commandlineflags.h: a parser yields the value when [str] names the flag
    with a value it accepts, and leaves the flag alone otherwise. *)
Variable ParseStringFlag : string -> string -> option string.
Variable ParseBoolFlag : string -> string -> option bool.
Variable ParseInt32Flag : string -> string -> option Z.
Variable IsFlag : string -> string -> bool.

(** The loop of [ParseCommandLineFlags] at index [i]; after a removal
    [--i] and [++i] leave the index where it is. *)
Fixpoint ParseCommandLineFlags_loop (fuel : nat) (i : nat) (c : CommandLine)
  : option Outcome :=
  match fuel with
  | O => None
  | S fuel' =>
      if (i <? List.length (argv c))%nat then
        let arg := nth i (argv c) "" in
        match ParseStringFlag arg "benchmark_filter" with
        | Some v =>
            ParseCommandLineFlags_loop fuel' i
              {| argv := remove_argument i (argv c);
                 FLAGS := set_FLAGS_benchmark_filter v (FLAGS c);
                 FLAGS_color_print := FLAGS_color_print c; FLAGS_v := FLAGS_v c |}
        | None =>
            match ParseBoolFlag arg "color_print" with
            | Some b =>
                ParseCommandLineFlags_loop fuel' i
                  {| argv := remove_argument i (argv c); FLAGS := FLAGS c;
                     FLAGS_color_print := b; FLAGS_v := FLAGS_v c |}
            | None =>
                match ParseInt32Flag arg "v" with
                | Some z =>
                    ParseCommandLineFlags_loop fuel' i
                      {| argv := remove_argument i (argv c); FLAGS := FLAGS c;
                         FLAGS_color_print := FLAGS_color_print c; FLAGS_v := z |}
                | None =>
                    if IsFlag arg "help" then Some Exits
                    else ParseCommandLineFlags_loop fuel' (S i) c
                end
            end
        end
      else Some (Returns c)
  end.

Definition ParseCommandLineFlags (fuel : nat) (c : CommandLine) : option Outcome :=
  ParseCommandLineFlags_loop fuel 1 c.

(** An argument one of the three parsers accepts. *)
Definition recognised (arg : string) : bool :=
  match ParseStringFlag arg "benchmark_filter", ParseBoolFlag arg "color_print",
        ParseInt32Flag arg "v" with
  | None, None, None => false
  | _, _, _ => true
  end.

(** The flags after the arguments [args], read from left to right. *)
Definition filter_after (args : list string) (v : string) : string :=
  fold_left (fun v arg => match ParseStringFlag arg "benchmark_filter" with
                          | Some v' => v'
                          | None => v
                          end) args v.

Definition color_print_after (args : list string) (b : bool) : bool :=
  fold_left (fun b arg => match ParseStringFlag arg "benchmark_filter",
                                ParseBoolFlag arg "color_print" with
                          | None, Some b' => b'
                          | _, _ => b
                          end) args b.

Definition v_after (args : list string) (z : Z) : Z :=
  fold_left (fun z arg => match ParseStringFlag arg "benchmark_filter",
                                ParseBoolFlag arg "color_print",
                                ParseInt32Flag arg "v" with
                          | None, None, Some z' => z'
                          | _, _, _ => z
                          end) args z.

End CommandLineFlags.

(** Stand-ins for the parsers of commandlineflags.h, for the examples: the
    value of [--flag=value], read as a string, as [true] or [false], and
    as a decimal number. *)
Definition simple_flag_value (str flag : string) : option string :=
  let p := "--" ++ flag ++ "=" in
  if String.prefix p str
  then Some (String.substring (String.length p) (String.length str - String.length p) str)
  else None.

Definition simple_ParseStringFlag (str flag : string) : option string :=
  simple_flag_value str flag.

Definition simple_ParseBoolFlag (str flag : string) : option bool :=
  match simple_flag_value str flag with
  | Some v => if String.eqb v "true" then Some true
              else if String.eqb v "false" then Some false
              else None
  | None => None
  end.

Definition simple_ParseInt32Flag (str flag : string) : option Z :=
  match simple_flag_value str flag with
  | Some v => match NilEmpty.int_of_string v with
              | Some i => Some (Z.of_int i)
              | None => None
              end
  | None => None
  end.

Definition simple_IsFlag (str flag : string) : bool :=
  String.eqb str ("--" ++ flag).

(** ** Running an instance *)

(** [ThreadStats::Reset] and [ThreadStats::Add]. *)
Definition ThreadStats_Reset : ThreadStats :=
  {| bytes_processed := 0; items_processed := 0 |}.

Definition ThreadStats_Add (this other : ThreadStats) : result ThreadStats :=
  (bytes <- int64 (bytes_processed this + bytes_processed other) ;;
   items <- int64 (items_processed this + items_processed other) ;;
   Ok {| bytes_processed := bytes; items_processed := items |})%result.

(** [MeasurePeakHeapMemory]: the measurement itself is commented out. *)
Definition MeasurePeakHeapMemory (get_memory_usage : bool) : double :=
  if negb get_memory_usage then 0%float
  else let bytes := 0%float in bytes.

Section RunInstance.

Variable walltime_Now MyCPUUsage ChildrenCPUUsage : nat -> double.
Variable flags : Flags.

(** [function_] of a family: the routine, which is handed the worker. *)
Variable function_ : Benchmark -> M unit.

(** The global set by [MemoryUsage]. *)
Variable get_memory_usage : bool.

Local Open Scope machine_scope.

(** [State::Run], on the worker that is [self]. *)
Definition Run : M unit :=
  modify (with_thread_stats ThreadStats_Reset) ;;
  m <- get ;;
  match SharedState.instance (shared m) with
  | None => lift Undefined
  | Some instance => function_ (bm instance)
  end ;;
  m <- get ;;
  stats <- lift (ThreadStats_Add (SharedState.stats (shared m)) (thread_stats m)) ;;
  modify_shared (set_stats stats).

(** The loop over the runners: those of a multithreaded instance are
    released and never started. *)
Fixpoint run_runners (multithreaded : bool) (runners : list State) : M unit :=
  match runners with
  | [] => ret tt
  | r :: runners' =>
      (if multithreaded then
         (* TODO: start pthreads *)
         ret tt
       else
         modify (with_self r) ;;
         Run) ;;
      run_runners multithreaded runners'
  end.

(** [Benchmark::RunInstance]; the value is the vector handed to
    [ReportRuns]. *)
Definition RunInstance (b : Benchmark_Instance) : M (list BenchmarkRunData.t) :=
  modify (with_use_real_time false) ;;
  InitType walltime_Now MyCPUUsage ChildrenCPUUsage CPU_TIME ;;
  (* Initialize the test runners. *)
  modify (with_shared
            {| SharedState.instance := Some b; SharedState.starting := 0;
               SharedState.stopping := 0; SharedState.threads := threads b;
               SharedState.stats := ThreadStats_Reset;
               SharedState.runs := []; SharedState.label := "" |}) ;;
  (if threads b <? 0 then lift Undefined else ret tt) ;;
  runners <- lift (map_result (State_new flags)
                     (map Z.of_nat (seq 0 (Z.to_nat (threads b))))) ;;
  (* Run them all. *)
  run_runners (multithreaded b) runners ;;
  m <- get ;;
  ret (map (fun report =>
              let seconds := if use_real_time m
                             then BenchmarkRunData.real_accumulated_time report
                             else BenchmarkRunData.cpu_accumulated_time report in
              {| BenchmarkRunData.benchmark_name := name b;
                 BenchmarkRunData.report_label := SharedState.label (shared m);
                 BenchmarkRunData.thread_index := BenchmarkRunData.thread_index report;
                 BenchmarkRunData.iterations := BenchmarkRunData.iterations report;
                 BenchmarkRunData.real_accumulated_time :=
                   BenchmarkRunData.real_accumulated_time report;
                 BenchmarkRunData.cpu_accumulated_time :=
                   BenchmarkRunData.cpu_accumulated_time report;
                 BenchmarkRunData.bytes_per_second :=
                   (double_of_Z (bytes_processed (SharedState.stats (shared m)))
                    / seconds)%float;
                 BenchmarkRunData.items_per_second :=
                   (double_of_Z (items_processed (SharedState.stats (shared m)))
                    / seconds)%float;
                 BenchmarkRunData.max_heapbytes_used :=
                   MeasurePeakHeapMemory get_memory_usage |})
           (SharedState.runs (shared m))).

End RunInstance.

(** ** Reporting *)

(** Conversion of a 64-bit value to [int]: the value modulo 2^32, read as a
    signed 32-bit integer. *)
Definition int_of_int64 (z : Z) : Z :=
  let m := z mod 2 ^ 32 in
  if m <? 2 ^ 31 then m else m - 2 ^ 32.

(** The loop of [ComputeStats] that keeps the label of the first run unless
    a later run has another one. *)
Fixpoint common_label (label0 : string) (rest : list BenchmarkRunData.t) : string :=
  match rest with
  | [] => label0
  | r :: rest' =>
      if negb (String.eqb (BenchmarkRunData.report_label r) label0) then ""
      else common_label label0 rest'
  end.

Section Reporter.

(** [BenchmarkRunData()]. *)
Variable BenchmarkRunData_new : BenchmarkRunData.t.

(** stat.h: the accumulators [Stat1_d] and [Stat1MinMax_d], a sample with
    its weight, the sum of two accumulators, and what is read off them. *)
Variable Stat1_d : Type.
Variable Stat1_d_empty : Stat1_d.
Variable Stat1_d_sample : double -> Z -> Stat1_d.
Variable Stat1_d_add : Stat1_d -> Stat1_d -> Stat1_d.
Variables Stat1_d_Sum Stat1_d_Mean Stat1_d_StdDev : Stat1_d -> double.
Variable Stat1MinMax_d : Type.
Variable Stat1MinMax_d_empty : Stat1MinMax_d.
Variable Stat1MinMax_d_sample : double -> Z -> Stat1MinMax_d.
Variable Stat1MinMax_d_add : Stat1MinMax_d -> Stat1MinMax_d -> Stat1MinMax_d.
Variables Stat1MinMax_d_Max Stat1MinMax_d_StdDev : Stat1MinMax_d -> double.

(** The accumulators of [ComputeStats]. *)
Record Accumulators := {
  real_accumulated_time_stat : Stat1_d;
  cpu_accumulated_time_stat : Stat1_d;
  bytes_per_second_stat : Stat1_d;
  items_per_second_stat : Stat1_d;
  max_heapbytes_used_stat : Stat1MinMax_d;
  total_iters : Z
}.

(** Populate the accumulators: one turn of the loop. *)
Definition accumulate (name0 : string) (acc : result Accumulators) (it : BenchmarkRunData.t)
  : result Accumulators :=
  (a <- acc ;;
   _ <- CHECK (String.eqb name0 (BenchmarkRunData.benchmark_name it)) ;;
   let n := BenchmarkRunData.iterations it in
   Ok {| total_iters := int_of_int64 (total_iters a + n);
         real_accumulated_time_stat :=
           Stat1_d_add (real_accumulated_time_stat a)
             (Stat1_d_sample (BenchmarkRunData.real_accumulated_time it / double_of_Z n)%float n);
         cpu_accumulated_time_stat :=
           Stat1_d_add (cpu_accumulated_time_stat a)
             (Stat1_d_sample (BenchmarkRunData.cpu_accumulated_time it / double_of_Z n)%float n);
         items_per_second_stat :=
           Stat1_d_add (items_per_second_stat a)
             (Stat1_d_sample (BenchmarkRunData.items_per_second it) n);
         bytes_per_second_stat :=
           Stat1_d_add (bytes_per_second_stat a)
             (Stat1_d_sample (BenchmarkRunData.bytes_per_second it) n);
         max_heapbytes_used_stat :=
           Stat1MinMax_d_add (max_heapbytes_used_stat a)
             (Stat1MinMax_d_sample (BenchmarkRunData.max_heapbytes_used it) n) |})%result.

(** [ComputeStats]; the pair is [( *mean_data, *stddev_data )], both built
    by the default constructor.  [reports[0]] of an empty vector is
    undefined. *)
Definition ComputeStats (reports : list BenchmarkRunData.t)
  : result (BenchmarkRunData.t * BenchmarkRunData.t) :=
  match reports with
  | [] => Undefined
  | r0 :: rest =>
      (a <- fold_left (accumulate (BenchmarkRunData.benchmark_name r0)) reports
              (Ok {| real_accumulated_time_stat := Stat1_d_empty;
                     cpu_accumulated_time_stat := Stat1_d_empty;
                     bytes_per_second_stat := Stat1_d_empty;
                     items_per_second_stat := Stat1_d_empty;
                     max_heapbytes_used_stat := Stat1MinMax_d_empty;
                     total_iters := 0 |}) ;;
       (* Only add label to mean/stddev if it is same for all runs *)
       let label := common_label (BenchmarkRunData.report_label r0) rest in
       Ok ({| BenchmarkRunData.benchmark_name := BenchmarkRunData.benchmark_name r0 ++ "_mean";
              BenchmarkRunData.report_label := label;
              BenchmarkRunData.thread_index :=
                BenchmarkRunData.thread_index BenchmarkRunData_new;
              BenchmarkRunData.iterations := total_iters a;
              BenchmarkRunData.real_accumulated_time :=
                Stat1_d_Sum (real_accumulated_time_stat a);
              BenchmarkRunData.cpu_accumulated_time :=
                Stat1_d_Sum (cpu_accumulated_time_stat a);
              BenchmarkRunData.bytes_per_second := Stat1_d_Mean (bytes_per_second_stat a);
              BenchmarkRunData.items_per_second := Stat1_d_Mean (items_per_second_stat a);
              BenchmarkRunData.max_heapbytes_used :=
                Stat1MinMax_d_Max (max_heapbytes_used_stat a) |},
           {| BenchmarkRunData.benchmark_name :=
                BenchmarkRunData.benchmark_name r0 ++ "_stddev";
              BenchmarkRunData.report_label := label;
              BenchmarkRunData.thread_index :=
                BenchmarkRunData.thread_index BenchmarkRunData_new;
              BenchmarkRunData.iterations := total_iters a;
              (* We multiply by total_iters since PrintRunData expects a total time. *)
              BenchmarkRunData.real_accumulated_time :=
                (Stat1_d_StdDev (real_accumulated_time_stat a)
                 * double_of_Z (total_iters a))%float;
              BenchmarkRunData.cpu_accumulated_time :=
                (Stat1_d_StdDev (cpu_accumulated_time_stat a)
                 * double_of_Z (total_iters a))%float;
              BenchmarkRunData.bytes_per_second := Stat1_d_StdDev (bytes_per_second_stat a);
              BenchmarkRunData.items_per_second := Stat1_d_StdDev (items_per_second_stat a);
              BenchmarkRunData.max_heapbytes_used :=
                Stat1MinMax_d_StdDev (max_heapbytes_used_stat a) |}))%result
  end.

(** [ConsoleReporter::ReportRuns]; the value is the rows handed to
    [PrintRunData], in order. *)
Definition ReportRuns (reports : list BenchmarkRunData.t)
  : result (list BenchmarkRunData.t) :=
  (rows <- map_result
             (fun it =>
                match reports with
                | [] => Undefined
                | r0 :: _ =>
                    _ <- CHECK (String.eqb (BenchmarkRunData.benchmark_name r0)
                                  (BenchmarkRunData.benchmark_name it)) ;;
                    Ok it
                end) reports ;;
   (* We don't report aggregated data if there was a single run. *)
   if (List.length reports <? 2)%nat then Ok rows
   else
     stats <- ComputeStats reports ;;
     Ok (rows ++ [fst stats; snd stats])%list)%result.

End Reporter.

(** ** The routine of a benchmark *)

(** [UseRealTime]. *)
Definition UseRealTime : M unit := modify (with_use_real_time true).

(** What a routine does with the worker it is handed, and what happens to
    the worker meanwhile. *)
Inductive Call : Type :=
| OnWorker (e : Event)
| CallSetBytesProcessed (bytes : Z)
| CallSetItemsProcessed (items : Z)
| CallSetLabel (label : string)
| CallUseRealTime.

Section Routine.

Variable walltime_Now MyCPUUsage ChildrenCPUUsage : nat -> double.
Variable flags : Flags.
Variable BenchmarkRunData_new : BenchmarkRunData.t.

Local Open Scope machine_scope.

Fixpoint routine (calls : list Call) : M unit :=
  match calls with
  | [] => ret tt
  | OnWorker e :: calls' =>
      run_events walltime_Now MyCPUUsage ChildrenCPUUsage flags BenchmarkRunData_new [e] ;;
      routine calls'
  | CallSetBytesProcessed bytes :: calls' => SetBytesProcessed bytes ;; routine calls'
  | CallSetItemsProcessed items :: calls' => SetItemsProcessed items ;; routine calls'
  | CallSetLabel label :: calls' => SetLabel label ;; routine calls'
  | CallUseRealTime :: calls' => UseRealTime ;; routine calls'
  end.

End Routine.

(** ** CPU frequency scaling *)

(** [memprefix(str, len, prefix) != NULL]: [str], of [len] bytes, starts
    with the literal [prefix]. *)
Definition memprefix (str prefix : string) : bool := String.prefix prefix str.

(** The bytes [fread] puts into a buffer of [size] bytes. *)
Definition fread (size : nat) (file : string) : string :=
  String.substring 0 size file.

Section Sysfs.

Variable NumCPUs : Z.

(** [fopen(path, "r")] and the contents of the file, when it opens. *)
Variable fopen : string -> option string.

Definition governor_file (cpu : Z) : string :=
  "/sys/devices/system/cpu/cpu" ++ show_int cpu ++ "/cpufreq/scaling_governor".

(** The loop of [CpuScalingEnabled] over the CPUs left to look at. *)
Fixpoint CpuScalingEnabled_loop (cpus : list Z) : bool :=
  match cpus with
  | [] => false
  | cpu :: cpus' =>
      match fopen (governor_file cpu) with
      | None => false   (* break *)
      | Some file =>
          let buff := fread 16 file in
          if negb (memprefix buff "performance") then true
          else CpuScalingEnabled_loop cpus'
      end
  end.

Definition CpuScalingEnabled : bool :=
  CpuScalingEnabled_loop (map Z.of_nat (seq 0 (Z.to_nat NumCPUs))).

(** The governor of a CPU is "performance". *)
Definition performance (cpu : Z) : Prop :=
  exists file, fopen (governor_file cpu) = Some file
               /\ memprefix (fread 16 file) "performance" = true.

End Sysfs.

(** ** Registration, as a program writes it *)

(** [Benchmark::ThreadPerCpu]; [kNumCpuMarker] is declared in
    benchmark/benchmark.h. *)
Definition ThreadPerCpu (kNumCpuMarker : Z) (this : Benchmark) : Benchmark :=
  {| name_ := name_ this; rangeX_ := rangeX_ this; rangeY_ := rangeY_ this;
     thread_counts_ := (thread_counts_ this ++ [kNumCpuMarker])%list |}.

(** ** Vocabulary of the statements *)

(** The powers of [k] that the loop of [AddRange] started at [i] appends:
    those from [i] on that lie strictly between [lo] and [hi] and below the
    loop's own bound. *)
Definition appended (lo hi k i v : Z) : Prop :=
  i <= v /\ (exists j, 0 <= j /\ v = k ^ j) /\ lo < v /\ v < hi /\ v < Z.quot INT32_MAX k.

(** The SI rendering of an axis value, as [AppendHumanReadable] asks for it. *)
Definition si (v : Z) : string :=
  ToBinaryStringFullySpecified (double_of_Z v) 1%float 0.

(** The families and constants of the examples. *)
Definition family_F : Benchmark :=
  {| name_ := "F"; rangeX_ := []; rangeY_ := []; thread_counts_ := [] |}.

Definition family_F_one_thread : Benchmark :=
  {| name_ := "F"; rangeX_ := []; rangeY_ := []; thread_counts_ := [1] |}.

Definition family_G : Benchmark :=
  {| name_ := "G"; rangeX_ := [8; 2048]; rangeY_ := [64]; thread_counts_ := [1; 4] |}.

(** The decision after a closed interval, in the words of the specification:
    another interval is run when the total iterations are below the minimum;
    otherwise not when they exceed the maximum; otherwise not when the
    completed runs reach the repetitions; otherwise it is. *)
Definition another_interval (flags : Flags) (total_iterations completed_runs : Z) : bool :=
  if total_iterations <? FLAGS_benchmark_min_iters flags then true
  else if FLAGS_benchmark_max_iters flags <? total_iterations then false
  else if FLAGS_benchmark_repetitions flags <=? completed_runs then false
  else true.

(** The clocks of the examples: every reading is 125 ms after the one
    before; the children use no CPU. *)
Definition example_walltime (n : nat) : double :=
  (1000 + double_of_Z (Z.of_nat n) * 0.125)%float.
Definition example_cpu (n : nat) : double :=
  (double_of_Z (Z.of_nat n) * 0.125)%float.
Definition example_children (n : nat) : double := 0%float.

Definition example_run_data : BenchmarkRunData.t :=
  {| BenchmarkRunData.benchmark_name := ""; BenchmarkRunData.report_label := "";
     BenchmarkRunData.thread_index := -1; BenchmarkRunData.iterations := 1;
     BenchmarkRunData.real_accumulated_time := 0%float;
     BenchmarkRunData.cpu_accumulated_time := 0%float;
     BenchmarkRunData.bytes_per_second := 0%float;
     BenchmarkRunData.items_per_second := 0%float;
     BenchmarkRunData.max_heapbytes_used := 0%float |}.

(** A machine with one worker in the given state, nothing recorded yet. *)
Definition example_machine (s : State) : Machine :=
  {| self := s;
     clock := {| type_ := CPU_TIME; approx_time_ := 0 |};
     shared := {| SharedState.instance := None; SharedState.starting := 0;
                  SharedState.stopping := 0; SharedState.threads := 1;
                  SharedState.stats := {| bytes_processed := 0; items_processed := 0 |};
                  SharedState.runs := []; SharedState.label := "" |};
     thread_stats := {| bytes_processed := 0; items_processed := 0 |};
     use_real_time := false;
     now := 0 |}.

(** A worker as its constructor leaves it under the default flags. *)
Definition example_state : State :=
  {| thread_index := 0; state_ := STATE_INITIAL; iterations_ := 0;
     start_cpu_ := 0%float; start_time_ := 0%float; stop_time_micros_ := 0;
     start_pause_ := 0%float; pause_time_ := 0%float; total_iterations_ := 0;
     interval_micros_ := 500000; is_continuation_ := false |}.

(** Flags that ask for five seconds, and the worker they construct. *)
Definition five_second_flags : Flags :=
  {| FLAGS_benchmark_filter := ".";
     FLAGS_benchmark_min_iters := 100;
     FLAGS_benchmark_max_iters := 1000000000;
     FLAGS_benchmark_min_time := 5%float;
     FLAGS_benchmark_repetitions := 1 |}.

Definition five_second_state : State :=
  set_interval_micros_ 5000000 example_state.

(** The machine a sequence of events leads to from the start, under the
    clocks above. *)
Definition after (flags : Flags) (s : State) (es : list Event) : Machine :=
  match run_events example_walltime example_cpu example_children flags
          example_run_data es (example_machine s) with
  | Ok (_, m) => m
  | _ => example_machine s
  end.

(** The first call of [KeepRunning], [n] iterations, one pause of 125 ms,
    and a turn of the background thread, which takes the fast clock past
    the deadline. *)
Definition iterations_then_deadline (n : nat) : list Event :=
  (CallKeepRunning :: repeat CallKeepRunning n
     ++ [CallPauseTiming; CallResumeTiming; TurnBGThread])%list.

(** A worker about to make its first call. *)
Definition example_initial : Machine := example_machine example_state.

(** A running worker before its deadline, after three iterations. *)
Definition example_running : Machine :=
  after default_flags example_state (CallKeepRunning :: repeat CallKeepRunning 3).

(** A running worker past its deadline after three iterations: its interval
    was too short. *)
Definition example_short : Machine :=
  after default_flags example_state (iterations_then_deadline 3).

(** A running worker past its deadline after a hundred iterations. *)
Definition example_done : Machine :=
  after default_flags example_state (iterations_then_deadline 100).

(** A worker whose routine has left its loop. *)
Definition example_stopped : Machine :=
  after default_flags example_state (iterations_then_deadline 100 ++ [CallKeepRunning])%list.

(** Under the flags that ask for five seconds: a running worker past its
    deadline after three iterations. *)
Definition example_slow : Machine :=
  after five_second_flags five_second_state
    (CallKeepRunning :: repeat CallKeepRunning 3 ++ repeat TurnBGThread 20)%list.

(** [n] pause/resume cycles of the user routine. *)
Fixpoint pause_resume (n : nat) : list Event :=
  match n with
  | O => []
  | S n' => CallPauseTiming :: CallResumeTiming :: pause_resume n'
  end.

(** The pause accumulated by [n] cycles that start at clock reading [t]:
    each adds the wall-clock time between its two readings. *)
Fixpoint accumulated_pause (walltime_Now : nat -> double) (t n : nat) (pause : double)
  : double :=
  match n with
  | O => pause
  | S n' =>
      accumulated_pause walltime_Now (S (S t)) n'
        (pause + (walltime_Now (S t) - walltime_Now t))%float
  end.

(** The order of the phases of a worker. *)
Definition phase (s : EState) : Z :=
  match s with
  | STATE_INITIAL => 0
  | STATE_STARTING => 1
  | STATE_RUNNING => 2
  | STATE_STOPPING => 3
  | STATE_STOPPED => 4
  end.

(** The number of instances the expansion loops of [FindBenchmarks] create
    for one family. *)
Definition instance_count (family : Benchmark) : nat :=
  (match rangeX_ family, rangeY_ family with
   | [], [] => 1
   | xs, [] => List.length xs
   | xs, ys => List.length xs * List.length ys
   end
   * match thread_counts_ family with
     | [] => 1
     | ts => List.length ts
     end)%nat.

(** The axes of a family are vectors an [int] can index. *)
Definition axes_fit (family : Benchmark) : Prop :=
  Z.of_nat (List.length (rangeX_ family)) < 2 ^ 31
  /\ Z.of_nat (List.length (rangeY_ family)) < 2 ^ 31.

(** [kNoRange] is not an index into an axis of the family. *)
Definition no_range_free (kNoRange : Z) (family : Benchmark) : Prop :=
  ~ (0 <= kNoRange < Z.of_nat (List.length (rangeX_ family)))
  /\ ~ (0 <= kNoRange < Z.of_nat (List.length (rangeY_ family))).

Definition is_nil {A : Type} (l : list A) : bool :=
  match l with [] => true | _ => false end.

(** What every instance created for the family [f] satisfies. *)
Definition instance_of (kNoRange kNumCpuMarker NumCPUs : Z) (f : Benchmark) (b : Benchmark_Instance) : Prop :=
  bm b = f
  /\ prefix (name_ f) (name b) = true
  /\ (rangeXset b = true -> In (rangeX b) (rangeX_ f))
  /\ (rangeYset b = true -> In (rangeY b) (rangeY_ f))
  /\ (rangeXset b = false -> rangeX b = kNoRange)
  /\ (rangeYset b = false -> rangeY b = kNoRange)
  /\ (no_range_free kNoRange f ->
      rangeXset b = negb (is_nil (rangeX_ f)) /\ rangeYset b = negb (is_nil (rangeY_ f)))
  /\ In (threads b)
        (map (fun t => if t =? kNumCpuMarker then NumCPUs else t)
             (if is_nil (thread_counts_ f) then [1] else thread_counts_ f)).

(** The instances a family contributes under the compiled filter [re]. *)
Definition selected (regex_t : Type) (regexec : regex_t -> string -> bool) (re : regex_t) (family : option Benchmark) : nat :=
  match family with
  | None => 0
  | Some f => if regexec re (name_ f) then instance_count f else 0
  end.

(** The instance of the family G for the axis values (2048, 64) and one
    thread, and a machine whose worker runs it. *)
Definition example_instance : Benchmark_Instance :=
  {| name := "G/2k/64/threads:1"; bm := family_G;
     rangeXset := true; rangeX := 2048; rangeYset := true; rangeY := 64;
     threads := 1 |}.

Definition example_instance_machine : Machine :=
  with_shared
    {| SharedState.instance := Some example_instance; SharedState.starting := 0;
       SharedState.stopping := 0; SharedState.threads := 1;
       SharedState.stats := {| bytes_processed := 0; items_processed := 0 |};
       SharedState.runs := []; SharedState.label := "" |}
    example_initial.

(** The sequences a program can produce: a family is created at an address
    no live family has, and only a live family is destroyed. *)
Fixpoint legal (live : list address) (es : list RegistryEvent) : bool :=
  match es with
  | [] => true
  | New this :: es' =>
      negb (existsb (Nat.eqb this) live) && legal (this :: live) es'
  | Delete this :: es' =>
      existsb (Nat.eqb this) live
      && legal (filter (fun a => negb (Nat.eqb a this)) live) es'
  end.

Definition empty_registry : FamilyRegistry := {| families := None; registered := [] |}.

(** The vector behind [families], empty when there is none yet. *)
Definition slots (r : FamilyRegistry) : list (option address) :=
  match families r with
  | None => []
  | Some v => v
  end.

(** The registry and the live families agree. *)
Definition registry_ok (r : FamilyRegistry) : Prop :=
  NoDup (map fst (registered r))
  /\ (forall a i, In (a, i) (registered r) ->
        0 <= i /\ nth_error (slots r) (Z.to_nat i) = Some (Some a))
  /\ (forall k a, nth_error (slots r) k = Some (Some a) ->
        In (a, Z.of_nat k) (registered r))
  /\ pop_back_nulls (rev (slots r)) = rev (slots r).

(** The integers from [start], [n] of them. *)
Definition consecutive (start : Z) (n : nat) : list Z :=
  map (fun k => start + Z.of_nat k) (seq 0 n).

(** What holds of a lone worker, from its construction on, between the
    calls its routine makes: it has recorded no run before its first
    interval is closed and one run afterwards; once a run is recorded the
    interval is a continuation that the test for short intervals lets pass;
    and it has stopped only when [RunAnotherInterval] said so with one run
    recorded. *)
Definition lone_worker (flags : Flags) (m : Machine) : Prop :=
  match state_ (self m) with
  | STATE_INITIAL => SharedState.runs (shared m) = []
  | STATE_STARTING => False
  | STATE_RUNNING =>
      (SharedState.runs (shared m) = [] /\ is_continuation_ (self m) = false)
      \/ (List.length (SharedState.runs (shared m)) = 1%nat
          /\ is_continuation_ (self m) = true
          /\ (Z.quot (FLAGS_benchmark_min_iters flags) (FLAGS_benchmark_repetitions flags)
              <= iterations_ (self m)
              \/ 5000000 <= interval_micros_ (self m)))
  | STATE_STOPPING | STATE_STOPPED =>
      List.length (SharedState.runs (shared m)) = 1%nat
      /\ another_interval flags (total_iterations_ (self m)) 1 = false
  end.

(** Flags that ask for two repetitions and at most 150 iterations. *)
Definition two_repetitions : Flags :=
  {| FLAGS_benchmark_filter := ".";
     FLAGS_benchmark_min_iters := 100;
     FLAGS_benchmark_max_iters := 150;
     FLAGS_benchmark_min_time := 0.5%float;
     FLAGS_benchmark_repetitions := 2 |}.

(** A run under them: a hundred iterations and the deadline, the call that
    closes the interval and goes on, six turns of the background thread,
    and the call that closes the continued interval. *)
Definition two_repetition_events : list Event :=
  (iterations_then_deadline 100
     ++ CallKeepRunning :: repeat TurnBGThread 6 ++ [CallKeepRunning])%list.

(** The instance of the family F, and a routine for it: the run of
    [example_stopped], then the bytes processed and a label. *)
Definition example_instance_F : Benchmark_Instance :=
  {| name := "F"; bm := family_F;
     rangeXset := false; rangeX := INT32_MAX; rangeYset := false; rangeY := INT32_MAX;
     threads := 1 |}.

Definition example_calls : list Call :=
  (map OnWorker (iterations_then_deadline 100 ++ [CallKeepRunning])
     ++ [CallSetBytesProcessed 4096; CallSetLabel "ok"])%list.

(** The calls a program chains on a family it registers. *)
Inductive Registration : Set :=
| CallArg (x : Z)
| CallRange (start limit : Z)
| CallDenseRange (start limit : Z)
| CallArgPair (x y : Z)
| CallRangePair (lo1 hi1 lo2 hi2 : Z)
| CallThreads (t : Z)
| CallThreadRange (min_threads max_threads : Z)
| CallThreadPerCpu.

Definition register_one (fuel : nat) (kNumCpuMarker : Z) (call : Registration)
    (this : Benchmark) : option (result Benchmark) :=
  match call with
  | CallArg x => Some (Ok (Arg x this))
  | CallRange start limit => Range fuel start limit this
  | CallDenseRange start limit => DenseRange fuel start limit this
  | CallArgPair x y => Some (Ok (ArgPair x y this))
  | CallRangePair lo1 hi1 lo2 hi2 => RangePair fuel lo1 hi1 lo2 hi2 this
  | CallThreads t => Some (Threads t this)
  | CallThreadRange min_threads max_threads => ThreadRange fuel min_threads max_threads this
  | CallThreadPerCpu => Some (Ok (ThreadPerCpu kNumCpuMarker this))
  end.

(** The family after the calls, made from left to right; a failed check or
    undefined behaviour ends the program. *)
Fixpoint register (fuel : nat) (kNumCpuMarker : Z) (calls : list Registration)
    (this : Benchmark) : option (result Benchmark) :=
  match calls with
  | [] => Some (Ok this)
  | call :: calls' =>
      match register_one fuel kNumCpuMarker call this with
      | Some (Ok this') => register fuel kNumCpuMarker calls' this'
      | other => other
      end
  end.

(** A family as its constructor leaves it. *)
Definition new_family (name : string) : Benchmark :=
  {| name_ := name; rangeX_ := []; rangeY_ := []; thread_counts_ := [] |}.

(** What registration keeps true of a family: Y values come with X values,
    and a thread count is positive or stands for the number of CPUs. *)
Definition well_registered (kNumCpuMarker : Z) (family : Benchmark) : Prop :=
  (rangeY_ family <> [] -> rangeX_ family <> [])
  /\ Forall (fun t => 0 < t \/ t = kNumCpuMarker) (thread_counts_ family).

(** The unit [ExponentToPrefix] yields for a power of the base: the
    letters of the tables and, for the ninth power, their terminator. *)
Definition unit_of (exponent : Z) : string :=
  match exponent with
  | 0 => ""
  | 1 => "k" | 2 => "M" | 3 => "G" | 4 => "T"
  | 5 => "P" | 6 => "E" | 7 => "Z" | 8 => "Y"
  | -1 => "m" | -2 => "u" | -3 => "n" | -4 => "p"
  | -5 => "f" | -6 => "a" | -7 => "z" | -8 => "y"
  | _ => String NUL ""
  end.

(** [n] iterations, the turns of the background thread that take the fast
    clock past the deadline, and the call that closes the interval. *)
Definition iterations_then_close (n turns : nat) : list Event :=
  (repeat CallKeepRunning n ++ repeat TurnBGThread turns ++ [CallKeepRunning])%list.

(** The instance of the family [f] for a value of each axis that was set
    and a thread count [t] of the list the loop runs over. *)
Definition instance_for (kNoRange kNumCpuMarker NumCPUs : Z) (f : Benchmark)
    (x y : option Z) (t : Z) : Benchmark_Instance :=
  let num_threads := if t =? kNumCpuMarker then NumCPUs else t in
  {| name := name_ f
             ++ match x with Some x => "/" ++ si x | None => "" end
             ++ match y with Some y => "/" ++ si y | None => "" end
             ++ (if is_nil (thread_counts_ f) then ""
                 else "/threads:" ++ show_int num_threads);
     bm := f;
     rangeXset := match x with Some _ => true | None => false end;
     rangeX := match x with Some x => x | None => kNoRange end;
     rangeYset := match y with Some _ => true | None => false end;
     rangeY := match y with Some y => y | None => kNoRange end;
     threads := num_threads |}.

(** The instances of a family, in the order of creation: the X values
    outermost, then the Y values, then the thread counts; a family with Y
    values and no X value has none. *)
Definition expansion (kNoRange kNumCpuMarker NumCPUs : Z) (f : Benchmark)
    : list Benchmark_Instance :=
  let thread_counts := if is_nil (thread_counts_ f) then [1] else thread_counts_ f in
  let instances x y := map (instance_for kNoRange kNumCpuMarker NumCPUs f x y) thread_counts in
  match rangeX_ f, rangeY_ f with
  | [], [] => instances None None
  | _, [] => flat_map (fun x => instances (Some x) None) (rangeX_ f)
  | _, _ =>
      flat_map (fun x => flat_map (fun y => instances (Some x) (Some y)) (rangeY_ f))
        (rangeX_ f)
  end.

(** The instances of the families of a registry whose names match. *)
Definition matching (kNoRange kNumCpuMarker NumCPUs : Z) (regex_t : Type)
    (regexec : regex_t -> string -> bool) (re : regex_t)
    (registry : list (option Benchmark)) : list Benchmark_Instance :=
  flat_map (fun family =>
              match family with
              | Some f =>
                  if regexec re (name_ f) then expansion kNoRange kNumCpuMarker NumCPUs f
                  else []
              | None => []
              end) registry.
(** The index a call of [CreateBenchmarkInstances] is given for an axis:
    [kNoRange], or the place of a value. *)
Definition index_of (kNoRange : Z) (axis : list Z) (index : Z) (value : option Z) : Prop :=
  match value with
  | None => index = kNoRange
  | Some v => index <> kNoRange /\ vector_at axis index = Ok v
  end.

(** * Properties *)

(** Splitting of conjunctions only. *)
Ltac conjuncts := repeat match goal with |- _ /\ _ => split end.

(** ** Range expansion *)

Section AddRange_facts.

Variables lo hi k : Z.
Hypothesis k_ge_2 : 2 <= k.

Let bound := Z.quot INT32_MAX k.

Lemma power_not_between (j j' : Z) :
  0 <= j -> 0 <= j' -> k ^ j <= k ^ j' -> k ^ j' <> k ^ j -> k ^ j * k <= k ^ j'.
Proof.
  intros Hj Hj' Hle Hne.
  assert (j < j').
  { destruct (Z_lt_le_dec j j') as [|Hge]; [assumption|].
    exfalso. apply Hne.
    assert (k ^ j' <= k ^ j) by (apply Z.pow_le_mono_r; lia).
    lia. }
  replace (k ^ j * k) with (k ^ Z.succ j) by (rewrite Z.pow_succ_r; lia).
  apply Z.pow_le_mono_r; lia.
Qed.

Lemma AddRange_loop_spec (fuel : nat) :
  forall (dst : list Z) (i : Z),
    (exists j, 0 <= j /\ i = k ^ j) ->
    (1 <= fuel)%nat ->
    bound < i * 2 ^ (Z.of_nat fuel - 1) ->
    exists l,
      AddRange_loop fuel dst lo hi k i = Some (dst ++ l)%list /\
      StronglySorted Z.lt l /\
      (forall v, In v l <-> appended lo hi k i v).
Proof.
  induction fuel as [|fuel IH]; intros dst i [j [Hj Hi]] Hfuel Hmeasure; [lia|].
  assert (Hipos : 0 < i) by (subst i; apply Z.pow_pos_nonneg; lia).
  cbn [AddRange_loop]. fold bound.
  destruct (Z.ltb_spec i bound) as [Hlt|Hge].
  - destruct (Z.leb_spec hi i) as [Hhi|Hhi].
    + exists []. rewrite app_nil_r. split; [reflexivity|]. split; [constructor|].
      intros v. split; [intros []|]. unfold appended. lia.
    + assert (Hfuel' : (1 <= fuel)%nat).
      { destruct fuel; [|lia]. simpl in Hmeasure. lia. }
      assert (Hmeasure' : bound < i * k * 2 ^ (Z.of_nat fuel - 1)).
      { replace (Z.of_nat (S fuel) - 1) with (Z.succ (Z.of_nat fuel - 1)) in Hmeasure by lia.
        rewrite Z.pow_succ_r in Hmeasure by lia.
        assert (0 < 2 ^ (Z.of_nat fuel - 1)) by (apply Z.pow_pos_nonneg; lia).
        nia. }
      assert (Hnext : exists j', 0 <= j' /\ i * k = k ^ j').
      { exists (Z.succ j). split; [lia|]. rewrite Z.pow_succ_r by lia. subst i. lia. }
      destruct (IH (if lo <? i then dst ++ [i] else dst)%list (i * k) Hnext Hfuel' Hmeasure')
        as [l [Heq [Hsorted Hin]]].
      assert (Hstep : forall v, appended lo hi k i v <-> (v = i /\ lo < i) \/ appended lo hi k (i * k) v).
      { intros v. unfold appended. split.
        - intros [Hiv [[j' [Hj' Hv]] Hrest]].
          destruct (Z.eq_dec v i) as [->|Hne]; [left; lia|].
          right. split; [|split; [exists j'; auto|assumption]].
          subst v i. apply power_not_between; auto.
        - intros [[-> Hlo]|[Hiv Hrest]].
          + split; [lia|]. split; [exists j; auto|]. lia.
          + split; [nia|assumption]. }
      destruct (Z.ltb_spec lo i) as [Hlo|Hlo].
      * exists (i :: l). rewrite Heq, <- app_assoc. split; [reflexivity|].
        split.
        -- constructor; [assumption|]. apply Forall_forall. intros v Hv.
           apply Hin in Hv. destruct Hv as [Hv _]. nia.
        -- intros v. rewrite Hstep. simpl. rewrite Hin. intuition lia.
      * exists l. split; [assumption|]. split; [assumption|].
        intros v. rewrite Hstep, Hin. intuition lia.
  - exists []. rewrite app_nil_r. split; [reflexivity|]. split; [constructor|].
    intros v. split; [intros []|]. unfold appended. lia.
Qed.

End AddRange_facts.

Lemma StronglySorted_snoc (l : list Z) (x : Z) :
  StronglySorted Z.lt l -> Forall (fun v => v < x) l -> StronglySorted Z.lt (l ++ [x])%list.
Proof.
  induction 1 as [|a l Hs IH Ha]; intros Hx; simpl.
  - repeat constructor.
  - inversion Hx as [|? ? Hax Hlx]; subst.
    constructor; [auto|].
    apply Forall_app. split; [assumption|]. repeat constructor. assumption.
Qed.

Lemma AddRange_bound_small (k : Z) (fuel : nat) :
  2 <= k -> (32 <= fuel)%nat -> Z.quot INT32_MAX k < 1 * 2 ^ (Z.of_nat fuel - 1).
Proof.
  intros Hk Hfuel.
  assert (Z.quot INT32_MAX k <= INT32_MAX).
  { apply Z.quot_le_upper_bound; unfold INT32_MAX; nia. }
  assert (2 ^ 31 <= 2 ^ (Z.of_nat fuel - 1)) by (apply Z.pow_le_mono_r; lia).
  unfold INT32_MAX in *. change (2 ^ 31) with 2147483648 in *. lia.
Qed.

(** C6, as amended.  For [0 <= lo <= hi] and a multiplier [k >= 2] the loop
    of [AddRange] ends within 32 turns, and the values appended to [dst] are,
    in strictly ascending order, exactly: [lo]; every power of [k] strictly
    between [lo] and [hi] that is also below [INT32_MAX / k], the guard of
    the loop; and [hi] when it differs from [lo]. *)
Theorem AddRange_expansion (lo hi k : Z) (fuel : nat) (dst : list Z) :
  0 <= lo -> lo <= hi -> 2 <= k -> (32 <= fuel)%nat ->
  exists l,
    AddRange fuel dst lo hi k = Some (Ok (dst ++ l)%list) /\
    StronglySorted Z.lt l /\
    (forall v,
        In v l <->
        v = lo \/
        (exists j, 0 <= j /\ v = k ^ j /\ lo < v /\ v < hi /\ v < Z.quot INT32_MAX k) \/
        (v = hi /\ hi <> lo)).
Proof.
  intros Hlo Hhi Hk Hfuel.
  destruct (AddRange_loop_spec lo hi k Hk fuel (dst ++ [lo])%list 1) as [l [Heq [Hs Hin]]].
  - exists 0. split; [lia|reflexivity].
  - lia.
  - apply AddRange_bound_small; assumption.
  - assert (Happ : forall v, appended lo hi k 1 v <->
                     exists j, 0 <= j /\ v = k ^ j /\ lo < v /\ v < hi /\ v < Z.quot INT32_MAX k).
    { intros v. unfold appended. split.
      - intros [_ [[j [Hj Hv]] H]]. exists j. tauto.
      - intros [j [Hj [Hv H]]]. split; [|split; [exists j; auto|assumption]].
        subst v. assert (0 < k ^ j) by (apply Z.pow_pos_nonneg; lia). lia. }
    unfold AddRange.
    destruct (Z.leb_spec 0 lo); [|lia]. destruct (Z.leb_spec lo hi); [|lia].
    destruct (Z.eqb_spec k 0); [lia|]. cbn [negb].
    rewrite Heq.
    destruct (Z.eqb_spec hi lo) as [->|Hne]; cbn [negb].
    + exists (lo :: l). rewrite <- app_assoc. split; [reflexivity|]. split.
      * constructor; [assumption|]. apply Forall_forall. intros v Hv.
        apply Hin in Hv. unfold appended in Hv. lia.
      * intros v. simpl. rewrite Hin, Happ. intuition (auto; lia).
    + exists (lo :: l ++ [hi])%list. rewrite <- !app_assoc. split; [reflexivity|]. split.
      * constructor.
        -- apply StronglySorted_snoc; [assumption|]. apply Forall_forall. intros v Hv.
           apply Hin in Hv. unfold appended in Hv. lia.
        -- apply Forall_app. split.
           ++ apply Forall_forall. intros v Hv. apply Hin in Hv. unfold appended in Hv. lia.
           ++ repeat constructor. lia.
      * intros v. simpl. rewrite in_app_iff, Hin, Happ. simpl. intuition (auto; lia).
Qed.

Lemma AddRange_expansion_witness :
  exists l,
    AddRange 32 [] 1 64 kRangeMultiplier = Some (Ok ([] ++ l)%list) /\
    StronglySorted Z.lt l /\
    (forall v,
        In v l <->
        v = 1 \/
        (exists j, 0 <= j /\ v = kRangeMultiplier ^ j /\ 1 < v /\ v < 64
                   /\ v < Z.quot INT32_MAX kRangeMultiplier) \/
        (v = 64 /\ 64 <> 1)).
Proof.
  apply (AddRange_expansion 1 64 kRangeMultiplier 32 []); unfold kRangeMultiplier; lia.
Defined.

(** C6, as stated, fails on [Range(0, INT32_MAX)]: [8^10] is a power of the
    multiplier strictly between the bounds, and [AddRange] leaves it out. *)
Lemma AddRange_misses_power :
  exists l,
    AddRange 32 [] 0 INT32_MAX kRangeMultiplier = Some (Ok l) /\
    (0 < kRangeMultiplier ^ 10 /\ kRangeMultiplier ^ 10 < INT32_MAX) /\
    ~ In (kRangeMultiplier ^ 10) l.
Proof.
  eexists. split; [vm_compute; reflexivity|].
  split; [unfold kRangeMultiplier, INT32_MAX; lia|].
  unfold kRangeMultiplier. simpl. intuition discriminate.
Qed.

(** With a multiplier of 1 the loop variable stays at 1 and the loop never
    ends once [hi] exceeds 1. *)
Lemma AddRange_loop_multiplier_one (hi : Z) (fuel : nat) :
  1 < hi -> forall dst, AddRange_loop fuel dst 0 hi 1 1 = None.
Proof.
  intros Hhi. induction fuel as [|fuel IH]; intros dst; cbn [AddRange_loop]; [reflexivity|].
  change (Z.quot INT32_MAX 1) with INT32_MAX. change (1 <? INT32_MAX) with true. cbv iota.
  destruct (Z.leb_spec hi 1); [lia|]. change (1 * 1) with 1. apply IH.
Qed.

(** So [AddRange] with a multiplier of 1, [lo = 0] and [hi > 1] yields no
    result, however much fuel it is given. *)
Lemma AddRange_multiplier_one (hi : Z) (fuel : nat) (dst : list Z) :
  1 < hi -> AddRange fuel dst 0 hi 1 = None.
Proof.
  intros Hhi. unfold AddRange. cbn [Z.leb Z.compare negb Z.eqb].
  destruct (Z.leb_spec 0 hi); [|lia]. cbn [negb].
  now rewrite AddRange_loop_multiplier_one.
Qed.

Lemma AddRange_multiplier_one_witness : AddRange 1000 [] 0 2 1 = None.
Proof. apply (AddRange_multiplier_one 2 1000 []). lia. Defined.

(** Spec scenario S2: [Range(1, 64)] expands to 1, 8 and 64. *)
Example AddRange_1_64 : AddRange 32 [] 1 64 kRangeMultiplier = Some (Ok [1; 8; 64]).
Proof. reflexivity. Qed.

(** ** SI formatting *)

(** C8, as amended.  With threshold 1.1, precision 1 and base 1024 the value
    1024*1024 is within 1.1 times the base of the kilo unit and is rendered
    there, as "1024k": mantissa "1024", exponent 1.  The value 1023 is
    rendered as "1023". *)
Theorem HumanReadableNumber_examples :
  ToExponentAndMantissa (1024 * 1024)%float 1.1%float 1 1024%float = ("1024", 1) /\
  ToBinaryStringFullySpecified (1024 * 1024)%float 1.1%float 1 = "1024k" /\
  ToBinaryStringFullySpecified 1023%float 1.1%float 1 = "1023".
Proof.
  conjuncts; vm_compute; reflexivity.
Qed.

(** C8, as stated, fails: 1024*1024 is not rendered as "1.0k". *)
Lemma HumanReadableNumber_not_1_0k :
  HumanReadableNumber (1024 * 1024)%float = "1024k" /\
  HumanReadableNumber (1024 * 1024)%float <> "1.0k".
Proof.
  split; [vm_compute; reflexivity|].
  vm_compute. discriminate.
Qed.

(** ** Instance names *)

Lemma append_assoc (s1 s2 s3 : string) : ((s1 ++ s2) ++ s3 = s1 ++ (s2 ++ s3))%string.
Proof. induction s1 as [|c s1 IH]; simpl; [reflexivity|]. now rewrite IH. Qed.

Lemma append_empty_r (s : string) : (s ++ "")%string = s.
Proof. induction s as [|c s IH]; simpl; [reflexivity|]. now rewrite IH. Qed.

Lemma map_result_total {A B : Type} (f : A -> result B) (g : A -> B) (l : list A) :
  (forall a, In a l -> f a = Ok (g a)) -> map_result f l = Ok (map g l).
Proof.
  induction l as [|a l IH]; intros H; simpl; [reflexivity|].
  rewrite (H a) by (left; reflexivity). simpl.
  rewrite IH by (intros; apply H; right; assumption). reflexivity.
Qed.

Section Names.

Variables kNoRange kNumCpuMarker NumCPUs : Z.

Let resolved (t : Z) : Z := if t =? kNumCpuMarker then NumCPUs else t.

Lemma CreateBenchmarkInstance_axes (this : Benchmark) (ix iy x y : Z) (mt : bool) (t : Z) :
  ix <> kNoRange -> iy <> kNoRange ->
  vector_at (rangeX_ this) ix = Ok x -> vector_at (rangeY_ this) iy = Ok y ->
  CreateBenchmarkInstance kNoRange kNumCpuMarker NumCPUs this ix iy mt t =
  Ok {| name := (name_ this ++ "/" ++ si x ++ "/" ++ si y
                 ++ (if mt then "/threads:" ++ show_int (resolved t) else ""))%string;
        bm := this; rangeXset := true; rangeX := x; rangeYset := true; rangeY := y;
        threads := resolved t |}.
Proof.
  intros Hix Hiy Hx Hy. unfold CreateBenchmarkInstance.
  apply Z.eqb_neq in Hix, Hiy. rewrite Hix, Hiy, Hx, Hy.
  cbn [negb bind name bm rangeXset rangeX rangeYset rangeY threads].
  unfold AppendHumanReadable. fold (si x). fold (si y). fold (resolved t).
  destruct mt; f_equal; f_equal; rewrite !append_assoc.
  - reflexivity.
  - now rewrite append_empty_r.
Qed.

Lemma CreateBenchmarkInstance_plain (this : Benchmark) (mt : bool) (t : Z) :
  CreateBenchmarkInstance kNoRange kNumCpuMarker NumCPUs this kNoRange kNoRange mt t =
  Ok {| name := (name_ this
                 ++ (if mt then "/threads:" ++ show_int (resolved t) else ""))%string;
        bm := this; rangeXset := false; rangeX := kNoRange;
        rangeYset := false; rangeY := kNoRange;
        threads := resolved t |}.
Proof.
  unfold CreateBenchmarkInstance. rewrite Z.eqb_refl.
  cbn [negb bind name bm rangeXset rangeX rangeYset rangeY threads]. fold (resolved t).
  destruct mt; [reflexivity|]. now rewrite append_empty_r.
Qed.


End Names.


(** The names of the instances of the family G at its axis values
    [(2048, 64)], for one and for four threads. *)
Example instance_names_G :
  CreateBenchmarkInstances INT32_MAX (-1) 4 family_G 1 0
  = Ok [ {| name := "G/2k/64/threads:1"; bm := family_G;
            rangeXset := true; rangeX := 2048; rangeYset := true; rangeY := 64;
            threads := 1 |};
         {| name := "G/2k/64/threads:4"; bm := family_G;
            rangeXset := true; rangeX := 2048; rangeYset := true; rangeY := 64;
            threads := 4 |} ].
Proof. vm_compute. reflexivity. Qed.


(** ** The filter *)

(** [RunSpecifiedBenchmarks] never hands an empty expression on: an empty
    [--benchmark_filter] and "all" both become ".". *)
Lemma RunSpecifiedBenchmarks_spec
    (kNoRange kNumCpuMarker NumCPUs : Z) (CyclesPerSecond : double) (CpuScalingEnabled : bool)
    (regex_t : Type) (regcomp : string -> option regex_t) (regexec : regex_t -> string -> bool)
    (flags : Flags) (families : list (option Benchmark)) :
  RunSpecifiedBenchmarks kNoRange kNumCpuMarker NumCPUs CyclesPerSecond CpuScalingEnabled
    regex_t regcomp regexec flags families
  = RunMatchingBenchmarks kNoRange kNumCpuMarker NumCPUs CyclesPerSecond CpuScalingEnabled
      regex_t regcomp regexec flags families
      (if String.eqb (FLAGS_benchmark_filter flags) ""
          || String.eqb (FLAGS_benchmark_filter flags) "all"
       then "." else FLAGS_benchmark_filter flags)
      (Some ConsoleReporter).
Proof. reflexivity. Qed.

(** [RunMatchingBenchmarks] itself runs nothing for an empty expression. *)
Lemma RunMatchingBenchmarks_empty
    (kNoRange kNumCpuMarker NumCPUs : Z) (CyclesPerSecond : double) (CpuScalingEnabled : bool)
    (regex_t : Type) (regcomp : string -> option regex_t) (regexec : regex_t -> string -> bool)
    (flags : Flags) (families : list (option Benchmark)) (reporter : BenchmarkReporter) :
  RunMatchingBenchmarks kNoRange kNumCpuMarker NumCPUs CyclesPerSecond CpuScalingEnabled
    regex_t regcomp regexec flags families "" (Some reporter) = Ok [].
Proof. reflexivity. Qed.

(** C5 on the code: with an empty [--benchmark_filter] and one registered
    family, [RunSpecifiedBenchmarks] runs that family; so it does for "all"
    and for the default ".". *)
Theorem RunSpecifiedBenchmarks_empty_filter_runs :
  let run filter :=
    RunSpecifiedBenchmarks INT32_MAX (-1) 4 2400000000%float false
      simple_regex simple_regcomp simple_regexec
      {| FLAGS_benchmark_filter := filter;
         FLAGS_benchmark_min_iters := 100;
         FLAGS_benchmark_max_iters := 1000000000;
         FLAGS_benchmark_min_time := 0.5%float;
         FLAGS_benchmark_repetitions := 1 |}
      [Some family_F] in
  let instance_F :=
    {| name := "F"; bm := family_F;
       rangeXset := false; rangeX := INT32_MAX; rangeYset := false; rangeY := INT32_MAX;
       threads := 1 |} in
  run "" = Ok [instance_F] /\ run "all" = Ok [instance_F] /\ run "." = Ok [instance_F].
Proof.
  cbv zeta. conjuncts; vm_compute; reflexivity.
Qed.

(** Spec scenario S2: the family F registered with [Range(1, 64)] expands
    to the instances F/1, F/8 and F/64. *)
Example Range_1_64_names :
  exists family benchmarks,
    Range 32 1 64 family_F = Some (Ok family)
    /\ FindBenchmarks INT32_MAX (-1) 4 simple_regex simple_regcomp simple_regexec
         [Some family] "." [] = Ok benchmarks
    /\ map name benchmarks = ["F/1"; "F/8"; "F/64"].
Proof.
  eexists. eexists. split; [vm_compute; reflexivity|].
  conjuncts; vm_compute; reflexivity.
Qed.

(** Spec scenario S6: of the families AaA, AaB and C, the filter "A.A"
    selects AaA alone. *)
Example filter_selects_AaA :
  let family n := Some {| name_ := n; rangeX_ := []; rangeY_ := []; thread_counts_ := [] |} in
  exists benchmarks,
    FindBenchmarks INT32_MAX (-1) 4 simple_regex simple_regcomp simple_regexec
      [family "AaA"; family "AaB"; family "C"] "A.A" [] = Ok benchmarks
    /\ map name benchmarks = ["AaA"].
Proof.
  cbv zeta. eexists. conjuncts; vm_compute; reflexivity.
Qed.

(** *** Writing the names of the matching instances *)

Lemma transform_at_fits {A B : Type} (f : A -> B) (src : list A) :
  forall (dst : list B) (i : nat),
    (i + List.length src <= List.length dst)%nat ->
    transform_at f src dst i
    = Ok (firstn i dst ++ map f src ++ skipn (i + List.length src) dst)%list.
Proof.
  induction src as [|a src IH]; intros dst i Hlen; cbn [transform_at map List.length] in *.
  - rewrite Nat.add_0_r. cbn [app]. now rewrite firstn_skipn.
  - destruct (Nat.ltb_spec i (List.length dst)) as [Hi|Hi]; [|lia].
    assert (Hfirst : List.length (firstn i dst) = i) by (apply firstn_length_le; lia).
    rewrite IH.
    + f_equal.
      replace (S i) with (List.length (firstn i dst) + 1)%nat at 1 by lia.
      rewrite firstn_app_2. cbn [firstn app]. rewrite <- app_assoc. cbn [app].
      f_equal. f_equal. f_equal.
      replace (S i + List.length src)%nat
        with (List.length (firstn i dst) + (1 + List.length src))%nat by lia.
      rewrite skipn_app, skipn_all2 by lia.
      replace (List.length (firstn i dst) + (1 + List.length src) - List.length (firstn i dst))%nat
        with (S (List.length src)) by lia.
      cbn [app]. rewrite skipn_cons, skipn_skipn. f_equal. lia.
    + rewrite length_app, Hfirst. cbn [List.length]. rewrite length_skipn. lia.
Qed.

Lemma transform_at_overflows {A B : Type} (f : A -> B) (src : list A) :
  forall (dst : list B) (i : nat),
    (i <= List.length dst)%nat ->
    (List.length dst < i + List.length src)%nat ->
    transform_at f src dst i = Undefined.
Proof.
  induction src as [|a src IH]; intros dst i Hi Hlen; cbn [transform_at List.length] in *.
  - lia.
  - destruct (Nat.ltb_spec i (List.length dst)) as [Hlt|Hge]; [|reflexivity].
    assert (Hsame : List.length (firstn i dst ++ f a :: skipn (S i) dst)%list
                    = List.length dst).
    { rewrite length_app, firstn_length_le by lia. cbn [List.length].
      rewrite length_skipn. lia. }
    apply IH; rewrite Hsame; lia.
Qed.

(** C10.  [FindMatchingBenchmarkNames] writes the name of the i-th matching
    instance to position i of the caller's vector and leaves its size and
    its other elements alone; whenever there are more matching instances
    than elements, a write falls outside the vector. *)
Theorem FindMatchingBenchmarkNames_writes
    (kNoRange kNumCpuMarker NumCPUs : Z)
    (regex_t : Type) (regcomp : string -> option regex_t) (regexec : regex_t -> string -> bool)
    (families : list (option Benchmark)) (spec : string)
    (benchmark_names : list string) (benchmarks : list Benchmark_Instance) :
  spec <> "" ->
  FindBenchmarks kNoRange kNumCpuMarker NumCPUs regex_t regcomp regexec families spec []
  = Ok benchmarks ->
  ((List.length benchmarks <= List.length benchmark_names)%nat ->
   exists names',
     FindMatchingBenchmarkNames kNoRange kNumCpuMarker NumCPUs regex_t regcomp regexec
       families spec benchmark_names = Ok names' /\
     List.length names' = List.length benchmark_names /\
     (forall i b, nth_error benchmarks i = Some b -> nth_error names' i = Some (name b)) /\
     (forall i, (List.length benchmarks <= i)%nat ->
                nth_error names' i = nth_error benchmark_names i)) /\
  ((List.length benchmark_names < List.length benchmarks)%nat ->
   FindMatchingBenchmarkNames kNoRange kNumCpuMarker NumCPUs regex_t regcomp regexec
     families spec benchmark_names = Undefined).
Proof.
  intros Hspec Hfind. apply String.eqb_neq in Hspec.
  unfold FindMatchingBenchmarkNames. rewrite Hspec, Hfind. cbn [bind].
  split.
  - intros Hlen. rewrite transform_at_fits by (simpl; lia).
    cbn [firstn app Nat.add]. eexists. split; [reflexivity|].
    split; [|split].
    + rewrite length_app, length_map, length_skipn. lia.
    + intros i b Hb.
      assert (i < List.length benchmarks)%nat by (apply nth_error_Some; congruence).
      rewrite nth_error_app1 by (rewrite length_map; assumption).
      now apply map_nth_error.
    + intros i Hi.
      rewrite nth_error_app2 by (rewrite length_map; assumption).
      rewrite length_map, nth_error_skipn. f_equal. lia.
  - intros Hlen. apply transform_at_overflows; simpl; lia.
Qed.

Lemma FindMatchingBenchmarkNames_writes_witness :
  exists benchmarks,
    FindBenchmarks INT32_MAX (-1) 4 simple_regex simple_regcomp simple_regexec
      [Some family_F; None; Some family_G] "." [] = Ok benchmarks /\
    List.length benchmarks = 5%nat /\
    ((List.length benchmarks <= 6)%nat ->
     exists names',
       FindMatchingBenchmarkNames INT32_MAX (-1) 4 simple_regex simple_regcomp simple_regexec
         [Some family_F; None; Some family_G] "." ["a"; "b"; "c"; "d"; "e"; "f"] = Ok names' /\
       List.length names' = 6%nat /\
       (forall i b, nth_error benchmarks i = Some b -> nth_error names' i = Some (name b)) /\
       (forall i, (List.length benchmarks <= i)%nat ->
                  nth_error names' i = nth_error ["a"; "b"; "c"; "d"; "e"; "f"] i)) /\
    ((6 < List.length benchmarks)%nat ->
     FindMatchingBenchmarkNames INT32_MAX (-1) 4 simple_regex simple_regcomp simple_regexec
       [Some family_F; None; Some family_G] "." ["a"; "b"; "c"; "d"; "e"; "f"] = Undefined).
Proof.
  eexists. split; [vm_compute; reflexivity|]. split; [reflexivity|].
  apply (FindMatchingBenchmarkNames_writes INT32_MAX (-1) 4
           simple_regex simple_regcomp simple_regexec
           [Some family_F; None; Some family_G] "." ["a"; "b"; "c"; "d"; "e"; "f"]).
  - discriminate.
  - vm_compute. reflexivity.
Defined.

(** Five matching instances written into vectors of six and of two names. *)
Example FindMatchingBenchmarkNames_six :
  FindMatchingBenchmarkNames INT32_MAX (-1) 4 simple_regex simple_regcomp simple_regexec
    [Some family_F; None; Some family_G] "." ["a"; "b"; "c"; "d"; "e"; "f"]
  = Ok ["F"; "G/8/64/threads:1"; "G/8/64/threads:4";
        "G/2k/64/threads:1"; "G/2k/64/threads:4"; "f"].
Proof. vm_compute. reflexivity. Qed.

Example FindMatchingBenchmarkNames_two :
  FindMatchingBenchmarkNames INT32_MAX (-1) 4 simple_regex simple_regcomp simple_regexec
    [Some family_F; None; Some family_G] "." ["a"; "b"]
  = Undefined.
Proof. vm_compute. reflexivity. Qed.

(** ** Facts on binary64 arithmetic *)

Lemma digits2_pos_size (m : positive) : digits2_pos m = Pos.size m.
Proof. induction m; simpl; congruence. Qed.

Lemma digits2_pos_upper (m : positive) : Zpos m < 2 ^ Zpos (digits2_pos m).
Proof.
  rewrite digits2_pos_size.
  pose proof (Pos.size_gt m) as H.
  rewrite <- Pos2Z.inj_pow. lia.
Qed.

Lemma digits2_pos_lower (m : positive) : 2 ^ (Zpos (digits2_pos m) - 1) <= Zpos m.
Proof.
  rewrite digits2_pos_size.
  pose proof (Pos.size_le m) as H.
  assert (H' : 2 ^ Zpos (Pos.size m) <= 2 * Zpos m).
  { rewrite <- Pos2Z.inj_pow. lia. }
  replace (Zpos (Pos.size m)) with (Z.succ (Zpos (Pos.size m) - 1)) in H' by lia.
  rewrite Z.pow_succ_r in H' by lia. lia.
Qed.

Lemma shl_align_value (m : positive) (e ez : Z) :
  ez <= e -> Zpos (fst (shl_align m e ez)) = Zpos m * 2 ^ (e - ez).
Proof.
  intros Hle. unfold shl_align.
  destruct (ez - e) as [|d|d] eqn:Hd; simpl fst.
  - replace (e - ez) with 0 by lia. simpl. lia.
  - lia.
  - change (Pos.iter xO m d) with (shift_pos d m).
    rewrite shift_pos_correct, Zpower_pos_nat, Zpower_nat_Z, positive_nat_Z.
    replace (e - ez) with (Zpos d) by lia. lia.
Qed.

(** Among valid binary64 numbers of one sign, a smaller exponent means a
    smaller magnitude. *)
Lemma bounded_exponent_lt (m m' : positive) (e e' : Z) :
  bounded prec emax m e = true -> bounded prec emax m' e' = true ->
  e < e' -> Zpos m < Zpos m' * 2 ^ (e' - e).
Proof.
  unfold bounded, canonical_mantissa, fexp, emin, prec, emax.
  intros H H' Hlt.
  apply andb_prop in H as [H _]. apply andb_prop in H' as [H' _].
  apply Z.eqb_eq in H, H'.
  assert (Hd' : Zpos (digits2_pos m') = 53) by lia.
  assert (Hd : Zpos (digits2_pos m) <= 53) by lia.
  pose proof (digits2_pos_upper m) as Hu.
  pose proof (digits2_pos_lower m') as Hl. rewrite Hd' in Hl.
  assert (Zpos m < 2 ^ 53).
  { eapply Z.lt_le_trans; [exact Hu|]. apply Z.pow_le_mono_r; lia. }
  assert (2 ^ 1 <= 2 ^ (e' - e)) by (apply Z.pow_le_mono_r; lia).
  change (2 ^ (53 - 1)) with 4503599627370496 in Hl.
  change (2 ^ 53) with 9007199254740992 in *.
  change (2 ^ 1) with 2 in *.
  nia.
Qed.

Lemma shr_1_nonneg (mrs : shr_record) : 0 <= shr_m mrs -> 0 <= shr_m (shr_1 mrs).
Proof.
  destruct mrs as [m r s]. cbn [shr_m]. intros Hm.
  destruct m as [|[p|p|]|p]; cbn; lia.
Qed.

Lemma iter_pos_shr_1_nonneg (p : positive) :
  forall mrs, 0 <= shr_m mrs -> 0 <= shr_m (iter_pos shr_1 p mrs).
Proof.
  induction p as [p IH|p IH|]; intros mrs Hm; cbn [iter_pos].
  - apply IH, IH, shr_1_nonneg, Hm.
  - apply IH, IH, Hm.
  - apply shr_1_nonneg, Hm.
Qed.

Lemma shr_fexp_nonneg (m e : Z) (l : location) :
  0 <= m -> 0 <= shr_m (fst (shr_fexp prec emax m e l)).
Proof.
  intros Hm. unfold shr_fexp, shr.
  assert (H0 : 0 <= shr_m (shr_record_of_loc m l)).
  { destruct l as [|[]]; cbn; assumption. }
  destruct (fexp prec emax (Zdigits2 m + e) - e); cbn [fst]; try assumption.
  apply iter_pos_shr_1_nonneg, H0.
Qed.

Lemma round_nearest_even_nonneg (m : Z) (l : location) :
  0 <= m -> 0 <= round_nearest_even m l.
Proof.
  intros Hm. unfold round_nearest_even.
  destruct l as [|[]]; try destruct (Z.even m); lia.
Qed.

(** Rounding a positive integer gives zero, a positive number or plus
    infinity. *)
Lemma binary_round_nonneg (m : positive) (e : Z) :
  SFleb (S754_zero false) (binary_round prec emax false m e) = true.
Proof.
  unfold binary_round, binary_round_aux.
  destruct (shl_align _ _ _) as [mz ez].
  pose proof (shr_fexp_nonneg (Zpos mz) ez loc_Exact ltac:(lia)) as H1.
  destruct (shr_fexp prec emax (Zpos mz) ez loc_Exact) as [mrs' e']. cbn [fst] in H1.
  pose proof (shr_fexp_nonneg _ e' loc_Exact
                (round_nearest_even_nonneg _ (loc_of_shr_record mrs') H1)) as H2.
  destruct (shr_fexp prec emax _ e' loc_Exact) as [mrs'' e'']. cbn [fst] in H2.
  destruct (shr_m mrs''); [reflexivity| |lia].
  destruct (e'' <=? emax - prec); reflexivity.
Qed.

Lemma binary_normalize_nonneg (d e : Z) :
  0 <= d -> SFleb (S754_zero false) (binary_normalize prec emax d e false) = true.
Proof.
  intros Hd. destruct d as [|p|p]; [reflexivity| |lia].
  apply binary_round_nonneg.
Qed.

(** On valid binary64 numbers [x < y], the difference [y - (x + 0)] is at
    least zero: it is no NaN and has no minus sign. *)
Lemma SF64sub_nonneg (x y : spec_float) :
  valid_binary x = true -> valid_binary y = true ->
  SFltb x y = true ->
  SFleb (S754_zero false) (SF64sub y (SF64add x (S754_zero false))) = true.
Proof.
  intros Vx Vy Hlt.
  unfold SF64sub, SF64add.
  destruct x as [sx|sx| |sx mx ex], y as [sy|sy| |sy my ey];
    try destruct sx; try destruct sy;
    try discriminate Hlt; try reflexivity;
    unfold SFadd, SFsub; cbv zeta;
    apply binary_normalize_nonneg;
    unfold SFltb, SFcompare in Hlt; unfold valid_binary in Vx, Vy; unfold cond_Zopp.
  - (* both negative *)
    destruct (Z.compare_spec ex ey) as [He|He|He]; try discriminate Hlt.
    + subst ey. rewrite Z.min_id, !shl_align_value by lia.
      rewrite Z.sub_diag. simpl (2 ^ 0).
      destruct (Pos.compare_cont Eq mx my) eqn:Hc; try discriminate Hlt.
      change (Pos.compare_cont Eq mx my) with (Pos.compare mx my) in Hc.
      apply Pos.compare_gt_iff in Hc. apply Pos2Z.pos_lt_pos in Hc. lia.
    + rewrite Z.min_l, !shl_align_value by lia.
      rewrite Z.sub_diag. simpl (2 ^ 0).
      pose proof (bounded_exponent_lt my mx ey ex Vy Vx He). lia.
  - (* x negative, y positive *)
    lia.
  - (* both positive *)
    destruct (Z.compare_spec ex ey) as [He|He|He]; try discriminate Hlt.
    + subst ey. rewrite Z.min_id, !shl_align_value by lia.
      rewrite Z.sub_diag. simpl (2 ^ 0).
      change (Pos.compare_cont Eq mx my) with (Pos.compare mx my) in Hlt.
      destruct (Pos.compare_spec mx my) as [Hc|Hc|Hc]; try discriminate Hlt.
      apply Pos2Z.pos_lt_pos in Hc. lia.
    + rewrite Z.min_r, !shl_align_value by lia.
      rewrite Z.sub_diag. simpl (2 ^ 0).
      pose proof (bounded_exponent_lt mx my ex ey Vx Vy He). lia.
Qed.

(** The same on [double]: after [a < b], [b - (a + 0.0)] is at least zero. *)
Lemma sub_after_lt_nonneg (a b : double) :
  (a <? b)%float = true -> (0 <=? b - (a + 0))%float = true.
Proof.
  intros H.
  rewrite FloatAxioms.ltb_spec in H. rewrite FloatAxioms.leb_spec.
  rewrite FloatAxioms.sub_spec, FloatAxioms.add_spec.
  change (Prim2SF 0) with (S754_zero false).
  apply SF64sub_nonneg; auto using Prim2SF_valid.
Qed.

(** ** The worker *)

Lemma bindM_Ok {A B : Type} (c : M A) (k : A -> M B) (m m' : Machine) (b : B) :
  bindM c k m = Ok (b, m') -> exists a m1, c m = Ok (a, m1) /\ k a m1 = Ok (b, m').
Proof.
  unfold bindM. destruct (c m) as [[a m1]| |]; try discriminate. eauto.
Qed.

Lemma lift_Ok {A : Type} (r : result A) (m m' : Machine) (a : A) :
  lift r m = Ok (a, m') -> r = Ok a /\ m' = m.
Proof. unfold lift. destruct r; try discriminate. intros [= -> ->]. auto. Qed.

Lemma CHECK_Ok (b : bool) (u : unit) : CHECK b = Ok u -> b = true.
Proof. destruct b; [reflexivity|discriminate]. Qed.

Ltac inv_monad :=
  repeat match goal with
  | H : bindM _ _ _ = Ok _ |- _ =>
      apply bindM_Ok in H; destruct H as (? & ? & ? & H)
  | H : lift _ _ = Ok _ |- _ => apply lift_Ok in H; destruct H as [? ->]
  | H : this _ = Ok _ |- _ => unfold this in H; injection H as <- <-
  | H : get _ = Ok _ |- _ => unfold get in H; injection H as <- <-
  | H : ret _ _ = Ok _ |- _ => unfold ret in H; injection H as <- <-
  | H : modify _ _ = Ok _ |- _ => unfold modify in H; injection H as <- <-
  | H : modify_this _ _ = Ok _ |- _ =>
      unfold modify_this, modify in H; injection H as <- <-
  | H : modify_shared _ _ = Ok _ |- _ =>
      unfold modify_shared, modify in H; injection H as <- <-
  | H : read _ _ = Ok _ |- _ => unfold read in H; injection H as <- <-
  | H : CHECK _ = Ok _ |- _ => apply CHECK_Ok in H
  end.

(** Reduction of the field updates and nothing else. *)
Ltac simpl_fields :=
  cbn [self clock shared thread_stats use_real_time now
       with_self with_clock with_shared with_thread_stats with_use_real_time with_now
       thread_index state_ iterations_ start_cpu_ start_time_ stop_time_micros_
       start_pause_ pause_time_ total_iterations_ interval_micros_ is_continuation_
       set_state_ set_iterations_ set_start_cpu_ set_start_time_ set_stop_time_micros_
       set_start_pause_ set_pause_time_ set_total_iterations_ set_interval_micros_
       set_is_continuation_
       SharedState.instance SharedState.starting SharedState.stopping SharedState.threads
       SharedState.stats SharedState.runs SharedState.label
       set_starting set_stopping set_stats set_runs set_label
       type_ approx_time_ bytes_processed items_processed
       BenchmarkRunData.benchmark_name BenchmarkRunData.report_label
       BenchmarkRunData.thread_index BenchmarkRunData.iterations
       BenchmarkRunData.real_accumulated_time BenchmarkRunData.cpu_accumulated_time
       BenchmarkRunData.bytes_per_second BenchmarkRunData.items_per_second
       BenchmarkRunData.max_heapbytes_used] in *.

Section Worker.
Variable walltime_Now MyCPUUsage ChildrenCPUUsage : nat -> double.
Variable flags : Flags.
Variable BenchmarkRunData_new : BenchmarkRunData.t.

Lemma NowMicros_frame m t m' :
  NowMicros walltime_Now MyCPUUsage ChildrenCPUUsage m = Ok (t, m') ->
  self m' = self m /\ shared m' = shared m /\ clock m' = clock m
  /\ thread_stats m' = thread_stats m /\ use_real_time m' = use_real_time m.
Proof.
  unfold NowMicros, CPUUsage. intros H. inv_monad.
  destruct (type_ (clock m)); inv_monad; auto.
Qed.

Local Abbreviation NowMicros' := (NowMicros walltime_Now MyCPUUsage ChildrenCPUUsage).
Local Abbreviation NewInterval' := (NewInterval walltime_Now MyCPUUsage ChildrenCPUUsage).
Local Abbreviation FinishInterval' :=
  (FinishInterval walltime_Now MyCPUUsage ChildrenCPUUsage flags BenchmarkRunData_new).

(** A continued interval only gets a new deadline. *)
Lemma NewInterval_continuation m u m' :
  is_continuation_ (self m) = true ->
  NewInterval' m = Ok (u, m') ->
  (exists stop, self m' = set_stop_time_micros_ stop (self m))
  /\ shared m' = shared m /\ thread_stats m' = thread_stats m.
Proof.
  unfold NewInterval. intros Hcont H. inv_monad.
  match goal with Hn : NowMicros' _ = Ok _ |- _ => apply NowMicros_frame in Hn as (Hs & Hsh & _ & Hts & _) end.
  cbn [self with_self] in H. rewrite Hs, Hcont in H. cbn [negb] in H. inv_monad.
  cbn. eauto.
Qed.

(** A fresh interval starts its counters at zero. *)
Lemma NewInterval_fresh m u m' :
  is_continuation_ (self m) = false ->
  NewInterval' m = Ok (u, m') ->
  iterations_ (self m') = 0 /\ pause_time_ (self m') = 0%float
  /\ state_ (self m') = state_ (self m)
  /\ total_iterations_ (self m') = total_iterations_ (self m)
  /\ interval_micros_ (self m') = interval_micros_ (self m)
  /\ is_continuation_ (self m') = false
  /\ shared m' = shared m /\ thread_stats m' = thread_stats m.
Proof.
  unfold NewInterval, CPUUsage. intros Hcont H. inv_monad.
  match goal with Hn : NowMicros' _ = Ok _ |- _ => apply NowMicros_frame in Hn as (Hs & Hsh & _ & Hts & _) end.
  cbn [self with_self] in H. rewrite Hs, Hcont in H. cbn [negb] in H. inv_monad.
  cbn. auto 10.
Qed.

Local Abbreviation KeepRunning' :=
  (KeepRunning walltime_Now MyCPUUsage ChildrenCPUUsage flags BenchmarkRunData_new).

(** Past the deadline a running worker finishes its interval. *)
Lemma KeepRunning_deadline m when :
  state_ (self m) = STATE_RUNNING ->
  int64_of_double (double_of_Z (stop_time_micros_ (self m)) + pause_time_ (self m))%float
  = Ok when ->
  when <= approx_time_ (clock m) ->
  KeepRunning' m = FinishInterval' m.
Proof.
  intros Hstate Hwhen Hreached. unfold KeepRunning.
  unfold bindM at 1. unfold this at 1. unfold bindM at 1. rewrite Hwhen. unfold lift at 1.
  unfold bindM at 1. unfold HasReached, bindM, get, ret.
  apply Z.leb_le in Hreached. rewrite Hreached, Hstate. reflexivity.
Qed.

(** The clock does not read the worker's fields. *)
Lemma NowMicros_with_self (s : State) (m : Machine) :
  NowMicros' (with_self s m)
  = match NowMicros' m with
    | Ok (t, m1) => Ok (t, with_self s m1)
    | CheckFailed => CheckFailed
    | Undefined => Undefined
    end.
Proof.
  unfold NowMicros, CPUUsage, bindM, get, read, ret, lift. simpl_fields.
  destruct (type_ (clock m)); simpl_fields;
    destruct (int64_of_double _); reflexivity.
Qed.

(** A fresh interval: the new deadline and the start times that are read. *)
Lemma NewInterval_start (m : Machine) u (m' : Machine) :
  is_continuation_ (self m) = false ->
  NewInterval' m = Ok (u, m') ->
  exists t m1,
    NowMicros' m = Ok (t, m1)
    /\ stop_time_micros_ (self m') = t + interval_micros_ (self m)
    /\ start_cpu_ (self m')
       = (MyCPUUsage (now m1) + ChildrenCPUUsage (S (now m1)))%float
    /\ start_time_ (self m') = walltime_Now (S (S (now m1)))
    /\ now m' = S (S (S (now m1)))
    /\ thread_index (self m') = thread_index (self m)
    /\ start_pause_ (self m') = start_pause_ (self m)
    /\ clock m' = clock m /\ use_real_time m' = use_real_time m.
Proof.
  unfold NewInterval. intros Hcont H.
  apply bindM_Ok in H. destruct H as (t & m1 & Hnow & H).
  exists t, m1. split; [exact Hnow|].
  pose proof (NowMicros_frame _ _ _ Hnow) as (Hs & Hsh & Hck & Hts & Hu).
  inv_monad. unfold CPUUsage in *. inv_monad.
  cbn [self with_self] in H. rewrite Hs, Hcont in H. cbn [negb] in H.
  inv_monad. unfold CPUUsage in *. inv_monad. simpl_fields.
  match goal with E : int64 _ = Ok _ |- _ =>
    unfold int64 in E; destruct (_ && _) in E; [injection E as <-|discriminate E] end.
  rewrite Hs. auto 10.
Qed.

(** C2, as amended.  A running worker that reaches its deadline with fewer
    than [min_iters / repetitions] iterations and an interval shorter than
    five seconds doubles the interval and starts a new interval that is
    not a continuation: the deadline becomes the reading of the clock plus
    the doubled interval, the CPU and wall-clock start times are read
    anew, the iteration and pause counters restart at zero, and no run is
    recorded or overwritten. *)
Theorem KeepRunning_interval_too_short (m : Machine) when q b (m' : Machine) :
  state_ (self m) = STATE_RUNNING ->
  int64_of_double (double_of_Z (stop_time_micros_ (self m)) + pause_time_ (self m))%float
  = Ok when ->
  when <= approx_time_ (clock m) ->
  int_div (FLAGS_benchmark_min_iters flags) (FLAGS_benchmark_repetitions flags) = Ok q ->
  iterations_ (self m) < q ->
  interval_micros_ (self m) < 5000000 ->
  KeepRunning' m = Ok (b, m') ->
  b = true
  /\ interval_micros_ (self m') = 2 * interval_micros_ (self m)
  /\ is_continuation_ (self m') = false
  /\ iterations_ (self m') = 0
  /\ pause_time_ (self m') = 0%float
  /\ state_ (self m') = STATE_RUNNING
  /\ total_iterations_ (self m') = total_iterations_ (self m)
  /\ shared m' = shared m
  /\ exists t m1,
       NowMicros' m = Ok (t, m1)
       /\ stop_time_micros_ (self m') = t + 2 * interval_micros_ (self m)
       /\ start_cpu_ (self m')
          = (MyCPUUsage (now m1) + ChildrenCPUUsage (S (now m1)))%float
       /\ start_time_ (self m') = walltime_Now (S (S (now m1)))
       /\ now m' = S (S (S (now m1)))
       /\ thread_index (self m') = thread_index (self m)
       /\ start_pause_ (self m') = start_pause_ (self m)
       /\ clock m' = clock m
       /\ thread_stats m' = thread_stats m
       /\ use_real_time m' = use_real_time m.
Proof.
  intros Hstate Hwhen Hreached Hq Hiter Hint H.
  rewrite (KeepRunning_deadline m when Hstate Hwhen Hreached) in H.
  unfold FinishInterval in H. inv_monad.
  match goal with E : int_div _ _ = Ok _ |- _ => rewrite Hq in E; injection E as <- end.
  apply Z.ltb_lt in Hiter, Hint. rewrite Hiter, Hint in H. cbn [andb] in H.
  inv_monad.
  match goal with Hn : NewInterval' _ = Ok _ |- _ =>
    pose proof Hn as Hn2;
    apply NewInterval_fresh in Hn2
      as (Hi & Hp & Hst & Htot & Hintv & Hc & Hsh & Hts); [|reflexivity];
    apply NewInterval_start in Hn
      as (t & m1 & Hnow & Hstop & Hcpu & Hwall & Hn' & Hti & Hsp & Hck & Hu);
      [|reflexivity] end.
  rewrite 2 NowMicros_with_self in Hnow.
  destruct (NowMicros' m) as [[t0 m0]| |] eqn:Hm; try discriminate Hnow.
  injection Hnow as <- <-.
  simpl_fields.
  match goal with E : int64 _ = Ok _ |- _ =>
    unfold int64 in E; destruct (_ && _) in E; [injection E as <-|discriminate E] end.
  conjuncts; try assumption; try congruence; try lia.
  exists t0, m0. simpl_fields.
  conjuncts; try assumption; try congruence; try lia; reflexivity.
Qed.

Local Abbreviation RunAnotherInterval' := (RunAnotherInterval flags).

Lemma RunAnotherInterval_spec m :
  RunAnotherInterval' m
  = Ok (another_interval flags (total_iterations_ (self m))
          (int_of_size (List.length (SharedState.runs (shared m)))), m).
Proof.
  unfold RunAnotherInterval, another_interval, bindM, get, ret.
  destruct (_ <? _); [reflexivity|].
  destruct (_ <? _); [reflexivity|].
  destruct (_ <=? _); reflexivity.
Qed.

(** What closing an interval does. *)
Lemma FinishInterval_close m q b m' :
  int_div (FLAGS_benchmark_min_iters flags) (FLAGS_benchmark_repetitions flags) = Ok q ->
  (iterations_ (self m) <? q) && (interval_micros_ (self m) <? 5000000) = false ->
  FinishInterval' m = Ok (b, m') ->
  let accumulated_time := (walltime_Now (now m) - start_time_ (self m))%float in
  exists data,
    (pause_time_ (self m) <? accumulated_time)%float = true
    /\ BenchmarkRunData.iterations data = iterations_ (self m)
    /\ BenchmarkRunData.thread_index data = thread_index (self m)
    /\ BenchmarkRunData.real_accumulated_time data
       = (accumulated_time - (pause_time_ (self m) + 0))%float
    /\ SharedState.runs (shared m')
       = ((if is_continuation_ (self m)
           then removelast (SharedState.runs (shared m))
           else SharedState.runs (shared m)) ++ [data])%list
    /\ (is_continuation_ (self m) = true -> SharedState.runs (shared m) <> [])
    /\ total_iterations_ (self m') = total_iterations_ (self m) + iterations_ (self m)
    /\ SharedState.threads (shared m') = SharedState.threads (shared m)
    /\ (if another_interval flags (total_iterations_ (self m'))
             (int_of_size (List.length (SharedState.runs (shared m'))))
        then b = true /\ state_ (self m') = state_ (self m)
             /\ SharedState.stopping (shared m') = SharedState.stopping (shared m)
             /\ (state_ (self m) = STATE_RUNNING ->
                 is_continuation_ (self m') = true
                 /\ iterations_ (self m') = iterations_ (self m)
                 /\ pause_time_ (self m') = pause_time_ (self m)
                 /\ start_time_ (self m') = start_time_ (self m))
        else SharedState.stopping (shared m') = SharedState.stopping (shared m) + 1
             /\ if SharedState.stopping (shared m) + 1 <? SharedState.threads (shared m)
                then b = true /\ state_ (self m') = STATE_STOPPING
                else b = false /\ state_ (self m') = STATE_STOPPED).
Proof.
  intros Hq Hcond H. unfold FinishInterval, CPUUsage in H. inv_monad.
  match goal with E : int_div _ _ = Ok _ |- _ => rewrite Hq in E; injection E as <- end.
  rewrite Hcond in H. inv_monad. simpl_fields.
  match goal with E : int64 _ = Ok _ |- _ =>
    unfold int64 in E; destruct (_ && _) in E; [injection E as <-|discriminate E] end.
  match goal with
  | Hrun : (if is_continuation_ _ then _ else modify_shared (set_runs (_ ++ [?d])%list)) ?m0
           = Ok (_, ?m1) |- _ =>
      exists d; set (data := d) in *;
      assert (Hback : is_continuation_ (self m) = true -> SharedState.runs (shared m) <> [])
        by (intros Hc; rewrite Hc in Hrun;
            destruct (SharedState.runs (shared m)); discriminate);
      assert (Hrec : m1
                     = with_shared
                         (set_runs
                            ((if is_continuation_ (self m)
                              then removelast (SharedState.runs (shared m))
                              else SharedState.runs (shared m)) ++ [data])%list
                            (shared m)) m0)
        by (destruct (is_continuation_ (self m));
            [destruct (SharedState.runs (shared m)); [discriminate|]|];
            inv_monad; reflexivity);
      subst m1; clear Hrun
  end.
  match goal with Hd : RunAnotherInterval' _ = Ok _ |- _ =>
    rewrite RunAnotherInterval_spec in Hd; injection Hd as <- <- end.
  simpl_fields.
  split; [assumption|]. split; [reflexivity|]. split; [reflexivity|].
  split; [reflexivity|].
  set (runs' := ((if is_continuation_ (self m)
                  then removelast (SharedState.runs (shared m))
                  else SharedState.runs (shared m)) ++ [data])%list) in *.
  destruct (another_interval flags _ _) eqn:Hdecision; cbn [negb] in *; inv_monad.
  - (* another interval *)
    simpl_fields.
    destruct (EState_eqb (state_ (self m)) STATE_RUNNING) eqn:Hrunning; inv_monad.
    + match goal with Hn : NewInterval' _ = Ok _ |- _ =>
        apply NewInterval_continuation in Hn as ([stop Hs] & Hsh & _); [|reflexivity] end.
      simpl_fields. rewrite Hs, Hsh. simpl_fields. rewrite Hdecision. auto 16.
    + simpl_fields. rewrite Hdecision.
      assert (Hnot : state_ (self m) = STATE_RUNNING -> False)
        by (intros Hr; rewrite Hr in Hrunning; discriminate).
      conjuncts; auto; intros Hr; destruct (Hnot Hr).
  - (* no more intervals *)
    simpl_fields.
    match goal with E : int32 _ = Ok _ |- _ =>
      unfold int32 in E; destruct (_ && _) in E; [injection E as <-|discriminate E] end.
    destruct (SharedState.stopping (shared m) + 1 <? SharedState.threads (shared m))
      eqn:Hothers; inv_monad; simpl_fields; cbn [EState_eqb] in *; inv_monad;
      simpl_fields; rewrite Hdecision; auto 12.
Qed.

(** The decision in the terms of the member [total_iterations_].  When a
    running worker closes an interval, [iterations_] is added to the member
    and the run is recorded, a continuation replacing the last run and any
    other interval adding one; the worker then goes on to another interval
    exactly when the member is below [min_iters], or is at most
    [max_iters] while the recorded runs are fewer than the repetitions. *)
Theorem KeepRunning_another_interval m when q b m' :
  state_ (self m) = STATE_RUNNING ->
  int64_of_double (double_of_Z (stop_time_micros_ (self m)) + pause_time_ (self m))%float
  = Ok when ->
  when <= approx_time_ (clock m) ->
  int_div (FLAGS_benchmark_min_iters flags) (FLAGS_benchmark_repetitions flags) = Ok q ->
  (iterations_ (self m) <? q) && (interval_micros_ (self m) <? 5000000) = false ->
  KeepRunning' m = Ok (b, m') ->
  Z.of_nat (List.length (SharedState.runs (shared m'))) < 2 ^ 31 ->
  total_iterations_ (self m') = total_iterations_ (self m) + iterations_ (self m)
  /\ List.length (SharedState.runs (shared m'))
     = (if is_continuation_ (self m)
        then List.length (SharedState.runs (shared m))
        else S (List.length (SharedState.runs (shared m))))
  /\ (if another_interval flags (total_iterations_ (self m'))
           (Z.of_nat (List.length (SharedState.runs (shared m'))))
      then b = true /\ state_ (self m') = STATE_RUNNING
           /\ SharedState.stopping (shared m') = SharedState.stopping (shared m)
      else SharedState.stopping (shared m') = SharedState.stopping (shared m) + 1
           /\ state_ (self m') <> STATE_RUNNING).
Proof.
  intros Hstate Hwhen Hreached Hq Hcond H Hsize.
  rewrite (KeepRunning_deadline m when Hstate Hwhen Hreached) in H.
  destruct (FinishInterval_close m q b m' Hq Hcond H)
    as (data & _ & _ & _ & _ & Hruns & Hback & Htotal & _ & Hdecision).
  split; [assumption|]. split.
  - rewrite Hruns, length_app. cbn [List.length].
    destruct (is_continuation_ (self m)); [|lia].
    specialize (Hback eq_refl).
    destruct (SharedState.runs (shared m)) as [|r rs] using rev_ind; [congruence|].
    rewrite removelast_last, length_app. cbn [List.length]. lia.
  - assert (Hint : int_of_size (List.length (SharedState.runs (shared m')))
                   = Z.of_nat (List.length (SharedState.runs (shared m')))).
    { unfold int_of_size. rewrite Z.mod_small by lia.
      destruct (Z.ltb_spec (Z.of_nat (List.length (SharedState.runs (shared m')))) (2 ^ 31));
        lia. }
    rewrite Hint in Hdecision.
    destruct (another_interval flags _ _).
    + destruct Hdecision as (Hb & Hst & Hstop & _). rewrite Hstate in Hst. auto.
    + destruct Hdecision as [Hstop Hstate'].
      split; [assumption|].
      destruct (SharedState.stopping (shared m) + 1 <? SharedState.threads (shared m));
        destruct Hstate' as [_ ->]; discriminate.
Qed.

(** The recorded real time excludes the pauses and is at least zero. *)
Lemma KeepRunning_real_time m when q b m' :
  state_ (self m) = STATE_RUNNING ->
  int64_of_double (double_of_Z (stop_time_micros_ (self m)) + pause_time_ (self m))%float
  = Ok when ->
  when <= approx_time_ (clock m) ->
  int_div (FLAGS_benchmark_min_iters flags) (FLAGS_benchmark_repetitions flags) = Ok q ->
  (iterations_ (self m) <? q) && (interval_micros_ (self m) <? 5000000) = false ->
  KeepRunning' m = Ok (b, m') ->
  let elapsed := (walltime_Now (now m) - start_time_ (self m))%float in
  let total_overhead := 0%float in
  exists data,
    last (SharedState.runs (shared m')) BenchmarkRunData_new = data
    /\ (pause_time_ (self m) <? elapsed)%float = true
    /\ BenchmarkRunData.real_accumulated_time data
       = (elapsed - (pause_time_ (self m) + total_overhead))%float
    /\ (0 <=? BenchmarkRunData.real_accumulated_time data)%float = true.
Proof.
  intros Hstate Hwhen Hreached Hq Hcond H.
  rewrite (KeepRunning_deadline m when Hstate Hwhen Hreached) in H.
  destruct (FinishInterval_close m q b m' Hq Hcond H)
    as (data & Hpause & _ & _ & Hreal & Hruns & _).
  exists data. cbv zeta. split; [rewrite Hruns; apply last_last|].
  split; [assumption|]. split; [assumption|].
  rewrite Hreal. apply sub_after_lt_nonneg. assumption.
Qed.

(** A worker that goes on after closing an interval continues it: the next
    interval is flagged as a continuation, keeps the iteration count, the
    pause time and the start time, and its close will replace the run just
    recorded. *)
Lemma KeepRunning_goes_on_continuing m when q b m' :
  state_ (self m) = STATE_RUNNING ->
  int64_of_double (double_of_Z (stop_time_micros_ (self m)) + pause_time_ (self m))%float
  = Ok when ->
  when <= approx_time_ (clock m) ->
  int_div (FLAGS_benchmark_min_iters flags) (FLAGS_benchmark_repetitions flags) = Ok q ->
  (iterations_ (self m) <? q) && (interval_micros_ (self m) <? 5000000) = false ->
  KeepRunning' m = Ok (b, m') ->
  state_ (self m') = STATE_RUNNING ->
  b = true
  /\ is_continuation_ (self m') = true
  /\ iterations_ (self m') = iterations_ (self m)
  /\ pause_time_ (self m') = pause_time_ (self m)
  /\ start_time_ (self m') = start_time_ (self m)
  /\ total_iterations_ (self m') = total_iterations_ (self m) + iterations_ (self m).
Proof.
  intros Hstate Hwhen Hreached Hq Hcond H Hstate'.
  rewrite (KeepRunning_deadline m when Hstate Hwhen Hreached) in H.
  destruct (FinishInterval_close m q b m' Hq Hcond H)
    as (data & _ & _ & _ & _ & _ & _ & Htotal & _ & Hdecision).
  destruct (another_interval flags _ _).
  - destruct Hdecision as (Hb & _ & _ & Hcont).
    destruct (Hcont Hstate) as (Hc & Hi & Hp & Ht). auto 10.
  - destruct Hdecision as [_ Hstop].
    destruct (SharedState.stopping (shared m) + 1 <? SharedState.threads (shared m));
      destruct Hstop as [_ Hs]; rewrite Hs in Hstate'; discriminate.
Qed.

Lemma PauseTiming_spec m :
  PauseTiming walltime_Now m
  = Ok (tt, with_self (set_start_pause_ (walltime_Now (now m)) (self m))
              (with_now (S (now m)) m)).
Proof. reflexivity. Qed.

Lemma ResumeTiming_spec m :
  ResumeTiming walltime_Now m
  = Ok (tt, with_self
              (set_pause_time_
                 (pause_time_ (self m) + (walltime_Now (now m) - start_pause_ (self m)))%float
                 (self m))
              (with_now (S (now m)) m)).
Proof. reflexivity. Qed.

Local Abbreviation run_events' :=
  (run_events walltime_Now MyCPUUsage ChildrenCPUUsage flags BenchmarkRunData_new).

Lemma pause_resume_accumulates (n : nat) :
  forall m, exists m',
    run_events' (pause_resume n) m = Ok ([], m')
    /\ pause_time_ (self m')
       = accumulated_pause walltime_Now (now m) n (pause_time_ (self m))
    /\ iterations_ (self m') = iterations_ (self m)
    /\ state_ (self m') = state_ (self m)
    /\ shared m' = shared m.
Proof.
  induction n as [|n IH]; intros m.
  - exists m. cbn. auto.
  - cbn [pause_resume run_events accumulated_pause].
    unfold bindM at 1. rewrite PauseTiming_spec.
    unfold bindM at 1. rewrite ResumeTiming_spec.
    match goal with |- context [run_events' _ ?m1] =>
      destruct (IH m1) as (m' & Hrun & Hpause & Hiter & Hstate & Hshared) end.
    exists m'. simpl_fields. auto.
Qed.

(** C4.  Whenever a running worker closes an interval, the pause time is
    below the wall-clock time elapsed since the interval started, and the
    real time of the recorded run is the elapsed time minus the pause time
    minus an overhead compensation of zero, and is at least zero.
    [PauseTiming] stores the wall clock as the start of the pause,
    [ResumeTiming] adds the time since then to the pause time, and the
    pauses of several cycles add up. *)
Theorem pause_time_excluded :
  (forall m when q b m',
      state_ (self m) = STATE_RUNNING ->
      int64_of_double (double_of_Z (stop_time_micros_ (self m)) + pause_time_ (self m))%float
      = Ok when ->
      when <= approx_time_ (clock m) ->
      int_div (FLAGS_benchmark_min_iters flags) (FLAGS_benchmark_repetitions flags) = Ok q ->
      (iterations_ (self m) <? q) && (interval_micros_ (self m) <? 5000000) = false ->
      KeepRunning' m = Ok (b, m') ->
      let elapsed := (walltime_Now (now m) - start_time_ (self m))%float in
      let total_overhead := 0%float in
      exists data,
        last (SharedState.runs (shared m')) BenchmarkRunData_new = data
        /\ (pause_time_ (self m) <? elapsed)%float = true
        /\ BenchmarkRunData.real_accumulated_time data
           = (elapsed - (pause_time_ (self m) + total_overhead))%float
        /\ (0 <=? BenchmarkRunData.real_accumulated_time data)%float = true)
  /\ (forall m,
        PauseTiming walltime_Now m
        = Ok (tt, with_self (set_start_pause_ (walltime_Now (now m)) (self m))
                    (with_now (S (now m)) m)))
  /\ (forall m,
        ResumeTiming walltime_Now m
        = Ok (tt, with_self
                    (set_pause_time_
                       (pause_time_ (self m)
                        + (walltime_Now (now m) - start_pause_ (self m)))%float
                       (self m))
                    (with_now (S (now m)) m)))
  /\ (forall n m, exists m',
        run_events' (pause_resume n) m = Ok ([], m')
        /\ pause_time_ (self m')
           = accumulated_pause walltime_Now (now m) n (pause_time_ (self m))).
Proof.
  split; [exact KeepRunning_real_time|].
  split; [exact PauseTiming_spec|].
  split; [exact ResumeTiming_spec|].
  intros n m. destruct (pause_resume_accumulates n m) as (m' & Hrun & Hpause & _).
  eauto.
Qed.

End Worker.

(** C9.  In any state but STOPPED the three setters fail their check; in
    STOPPED each succeeds and stores its argument: the byte and the item
    counts in the statistics of the thread, the label in the shared state. *)
Theorem setters_need_stopped (m : Machine) (bytes items : Z) (label : string) :
  (state_ (self m) <> STATE_STOPPED ->
   SetBytesProcessed bytes m = CheckFailed
   /\ SetItemsProcessed items m = CheckFailed
   /\ SetLabel label m = CheckFailed)
  /\ (state_ (self m) = STATE_STOPPED ->
      (exists m', SetBytesProcessed bytes m = Ok (tt, m')
                  /\ bytes_processed (thread_stats m') = bytes
                  /\ items_processed (thread_stats m') = items_processed (thread_stats m)
                  /\ self m' = self m /\ shared m' = shared m)
      /\ (exists m', SetItemsProcessed items m = Ok (tt, m')
                     /\ items_processed (thread_stats m') = items
                     /\ bytes_processed (thread_stats m') = bytes_processed (thread_stats m)
                     /\ self m' = self m /\ shared m' = shared m)
      /\ (exists m', SetLabel label m = Ok (tt, m')
                     /\ SharedState.label (shared m') = label
                     /\ SharedState.runs (shared m') = SharedState.runs (shared m)
                     /\ self m' = self m /\ thread_stats m' = thread_stats m)).
Proof.
  unfold SetBytesProcessed, SetItemsProcessed, SetLabel, bindM, this, lift, modify_shared, modify.
  split.
  - intros Hstate.
    assert (Hcheck : EState_eqb STATE_STOPPED (state_ (self m)) = false)
      by (destruct (state_ (self m)); [reflexivity..|congruence]).
    rewrite Hcheck. cbn. auto.
  - intros Hstate. rewrite Hstate. cbn [EState_eqb CHECK].
    repeat split; eexists; (split; [reflexivity|]); simpl_fields; auto.
Qed.

Lemma setters_need_stopped_witness :
  (exists m', SetBytesProcessed 4096 example_stopped = Ok (tt, m')
              /\ bytes_processed (thread_stats m') = 4096
              /\ items_processed (thread_stats m')
                 = items_processed (thread_stats example_stopped)
              /\ self m' = self example_stopped /\ shared m' = shared example_stopped)
  /\ SetBytesProcessed 4096 example_done = CheckFailed.
Proof.
  split.
  - apply (proj2 (setters_need_stopped example_stopped 4096 0 "")).
    vm_compute. reflexivity.
  - apply (proj1 (setters_need_stopped example_done 4096 0 "")).
    vm_compute. discriminate.
Defined.

(** The examples are states of a run: the first call starts the first
    interval at the clock readings 2 to 6, the iterations are counted, the
    pause lasts from reading 7 to reading 8, and the background thread finds
    the CPU clock at 1.125 s, past the deadline of 0.75 s. *)
Example example_short_reached :
  run_events example_walltime example_cpu example_children default_flags example_run_data
    (iterations_then_deadline 3) (example_machine example_state)
  = Ok ([true; true; true; true], example_short)
  /\ state_ (self example_short) = STATE_RUNNING
  /\ iterations_ (self example_short) = 3
  /\ pause_time_ (self example_short) = 0.125%float
  /\ stop_time_micros_ (self example_short) = 750000
  /\ approx_time_ (clock example_short) = 1125000.
Proof. conjuncts; vm_compute; reflexivity. Qed.

Lemma KeepRunning_interval_too_short_witness :
  exists m',
    KeepRunning example_walltime example_cpu example_children default_flags example_run_data
      example_short = Ok (true, m')
    /\ (true = true
        /\ interval_micros_ (self m') = 2 * interval_micros_ (self example_short)
        /\ is_continuation_ (self m') = false
        /\ iterations_ (self m') = 0
        /\ pause_time_ (self m') = 0%float
        /\ state_ (self m') = STATE_RUNNING
        /\ total_iterations_ (self m') = total_iterations_ (self example_short)
        /\ shared m' = shared example_short
        /\ exists t m1,
             NowMicros example_walltime example_cpu example_children example_short
             = Ok (t, m1)
             /\ stop_time_micros_ (self m') = t + 2 * interval_micros_ (self example_short)
             /\ start_cpu_ (self m')
                = (example_cpu (now m1) + example_children (S (now m1)))%float
             /\ start_time_ (self m') = example_walltime (S (S (now m1)))
             /\ now m' = S (S (S (now m1)))
             /\ thread_index (self m') = thread_index (self example_short)
             /\ start_pause_ (self m') = start_pause_ (self example_short)
             /\ clock m' = clock example_short
             /\ thread_stats m' = thread_stats example_short
             /\ use_real_time m' = use_real_time example_short).
Proof.
  eexists. split; [vm_compute; reflexivity|].
  eapply (KeepRunning_interval_too_short
            example_walltime example_cpu example_children default_flags example_run_data
            example_short 750000 100).
  - vm_compute. reflexivity.
  - vm_compute. reflexivity.
  - apply Z.leb_le. vm_compute. reflexivity.
  - reflexivity.
  - apply Z.ltb_lt. vm_compute. reflexivity.
  - apply Z.ltb_lt. vm_compute. reflexivity.
  - vm_compute. reflexivity.
Defined.

(** The short interval of the example ended at 750000; the new one ends a
    doubled interval after the clock reading of the call. *)
Lemma KeepRunning_new_deadline :
  exists m',
    KeepRunning example_walltime example_cpu example_children default_flags example_run_data
      example_short = Ok (true, m')
    /\ stop_time_micros_ (self example_short) = 750000
    /\ stop_time_micros_ (self m') = 2375000
    /\ start_cpu_ (self m') = 1.625%float
    /\ start_time_ (self m') = 1001.875%float.
Proof.
  eexists. split; [vm_compute; reflexivity|].
  conjuncts; vm_compute; reflexivity.
Qed.

(** C2, as stated, fails: the new interval is not flagged as a continuation,
    and the three iterations and the 125 ms of pause of the short interval
    do not carry over. *)
Lemma KeepRunning_restarts_counters :
  exists m',
    KeepRunning example_walltime example_cpu example_children default_flags example_run_data
      example_short = Ok (true, m')
    /\ iterations_ (self example_short) = 3
    /\ pause_time_ (self example_short) = 0.125%float
    /\ is_continuation_ (self m') = false
    /\ iterations_ (self m') = 0
    /\ pause_time_ (self m') = 0%float
    /\ interval_micros_ (self m') = 1000000
    /\ SharedState.runs (shared m') = [].
Proof.
  eexists. split; [vm_compute; reflexivity|].
  conjuncts; vm_compute; reflexivity.
Qed.

Lemma KeepRunning_another_interval_witness :
  exists m',
    KeepRunning example_walltime example_cpu example_children default_flags example_run_data
      example_done = Ok (false, m')
    /\ (total_iterations_ (self m')
        = total_iterations_ (self example_done) + iterations_ (self example_done)
        /\ List.length (SharedState.runs (shared m'))
           = (if is_continuation_ (self example_done)
              then List.length (SharedState.runs (shared example_done))
              else S (List.length (SharedState.runs (shared example_done))))
        /\ (if another_interval default_flags (total_iterations_ (self m'))
                 (Z.of_nat (List.length (SharedState.runs (shared m'))))
            then false = true /\ state_ (self m') = STATE_RUNNING
                 /\ SharedState.stopping (shared m')
                    = SharedState.stopping (shared example_done)
            else SharedState.stopping (shared m')
                 = SharedState.stopping (shared example_done) + 1
                 /\ state_ (self m') <> STATE_RUNNING)).
Proof.
  eexists. split; [vm_compute; reflexivity|].
  eapply (KeepRunning_another_interval
            example_walltime example_cpu example_children default_flags example_run_data
            example_done 750000 100).
  - vm_compute. reflexivity.
  - vm_compute. reflexivity.
  - apply Z.leb_le. vm_compute. reflexivity.
  - reflexivity.
  - vm_compute. reflexivity.
  - vm_compute. reflexivity.
  - apply Z.ltb_lt. vm_compute. reflexivity.
Defined.

(** C1.  The decision goes by the member [total_iterations_], to which
    every close adds [iterations_], and a continuation does not restart
    [iterations_]: the iterations of a continued interval are counted
    again at each close.  A worker that runs forty iterations, closes,
    and runs thirty more has run seventy, which its one recorded run says
    too; the specification's decision on seventy iterations under
    [min_iters = 100] is to go on, and the worker stops, its total
    being [40 + 70]. *)
Theorem KeepRunning_counts_iterations_again :
  exists m1 m2 : Machine,
    run_events example_walltime example_cpu example_children five_second_flags
      example_run_data
      (CallKeepRunning :: iterations_then_close 40 20)
      (example_machine five_second_state)
    = Ok (repeat true 42, m1)
    /\ state_ (self m1) = STATE_RUNNING
    /\ is_continuation_ (self m1) = true
    /\ iterations_ (self m1) = 40
    /\ total_iterations_ (self m1) = 40
    /\ map BenchmarkRunData.iterations (SharedState.runs (shared m1)) = [40]
    /\ run_events example_walltime example_cpu example_children five_second_flags
         example_run_data
         (CallKeepRunning :: iterations_then_close 40 20 ++ iterations_then_close 30 25)%list
         (example_machine five_second_state)
       = Ok (repeat true 72 ++ [false], m2)%list
    /\ state_ (self m2) = STATE_STOPPED
    /\ iterations_ (self m2) = 70
    /\ map BenchmarkRunData.iterations (SharedState.runs (shared m2)) = [70]
    /\ total_iterations_ (self m2) = 110
    /\ FLAGS_benchmark_min_iters five_second_flags = 100
    /\ another_interval five_second_flags 70 1 = true
    /\ another_interval five_second_flags (total_iterations_ (self m2)) 1 = false.
Proof.
  eexists. eexists.
  split; [vm_compute; reflexivity|].
  do 5 (split; [vm_compute; reflexivity|]).
  split; [vm_compute; reflexivity|].
  conjuncts; vm_compute; reflexivity.
Qed.

(** Under flags that ask for five seconds, a worker that closes its interval
    after three counted iterations goes on, its total being below the
    minimum of a hundred; the interval that follows is a continuation.
    After four more iterations the next close replaces the recorded run by
    one of seven iterations and adds those seven to the total. *)
Example KeepRunning_goes_on :
  exists m1 m2,
    run_events example_walltime example_cpu example_children five_second_flags
      example_run_data
      (CallKeepRunning :: repeat CallKeepRunning 3
         ++ repeat TurnBGThread 20 ++ [CallKeepRunning])%list
      (example_machine five_second_state)
    = Ok (repeat true 5, m1)
    /\ state_ (self m1) = STATE_RUNNING
    /\ is_continuation_ (self m1) = true
    /\ total_iterations_ (self m1) = 3
    /\ map BenchmarkRunData.iterations (SharedState.runs (shared m1)) = [3]
    /\ run_events example_walltime example_cpu example_children five_second_flags
         example_run_data
         (repeat CallKeepRunning 4 ++ repeat TurnBGThread 20 ++ [CallKeepRunning])%list m1
       = Ok (repeat true 5, m2)
    /\ total_iterations_ (self m2) = 10
    /\ map BenchmarkRunData.iterations (SharedState.runs (shared m2)) = [7].
Proof.
  eexists. eexists. split; [vm_compute; reflexivity|].
  conjuncts; vm_compute; reflexivity.
Qed.

Lemma pause_time_excluded_witness :
  exists m',
    KeepRunning example_walltime example_cpu example_children default_flags example_run_data
      example_done = Ok (false, m')
    /\ exists data,
        last (SharedState.runs (shared m')) example_run_data = data
        /\ (pause_time_ (self example_done)
            <? example_walltime (now example_done) - start_time_ (self example_done))%float
           = true
        /\ BenchmarkRunData.real_accumulated_time data
           = (example_walltime (now example_done) - start_time_ (self example_done)
              - (pause_time_ (self example_done) + 0))%float
        /\ (0 <=? BenchmarkRunData.real_accumulated_time data)%float = true.
Proof.
  eexists. split; [vm_compute; reflexivity|].
  eapply (proj1 (pause_time_excluded
                   example_walltime example_cpu example_children default_flags
                   example_run_data)
            example_done 750000 100).
  - vm_compute. reflexivity.
  - vm_compute. reflexivity.
  - apply Z.leb_le. vm_compute. reflexivity.
  - reflexivity.
  - vm_compute. reflexivity.
  - vm_compute. reflexivity.
Defined.

Lemma KeepRunning_goes_on_continuing_witness :
  exists m',
    KeepRunning example_walltime example_cpu example_children five_second_flags
      example_run_data example_slow = Ok (true, m')
    /\ (true = true
        /\ is_continuation_ (self m') = true
        /\ iterations_ (self m') = iterations_ (self example_slow)
        /\ pause_time_ (self m') = pause_time_ (self example_slow)
        /\ start_time_ (self m') = start_time_ (self example_slow)
        /\ total_iterations_ (self m')
           = total_iterations_ (self example_slow) + iterations_ (self example_slow)).
Proof.
  eexists. split; [vm_compute; reflexivity|].
  eapply (KeepRunning_goes_on_continuing
            example_walltime example_cpu example_children five_second_flags example_run_data
            example_slow 5250000 100).
  - vm_compute. reflexivity.
  - vm_compute. reflexivity.
  - apply Z.leb_le. vm_compute. reflexivity.
  - reflexivity.
  - vm_compute. reflexivity.
  - vm_compute. reflexivity.
  - vm_compute. reflexivity.
Defined.

(** The interval of [example_done] took 0.625 s of wall-clock time, of which
    0.125 s were paused: the run records half a second. *)
Example real_time_of_example_done :
  map BenchmarkRunData.real_accumulated_time (SharedState.runs (shared example_stopped))
  = [0.5%float].
Proof. vm_compute. reflexivity. Qed.

(** Three pauses of 125 ms each add up to 0.375 s. *)
Example pause_resume_three :
  exists m',
    run_events example_walltime example_cpu example_children default_flags example_run_data
      (pause_resume 3) (example_machine example_state) = Ok ([], m')
    /\ pause_time_ (self m') = 0.375%float.
Proof.
  eexists. conjuncts; vm_compute; reflexivity.
Qed.

(** The constructor under the default flags and under those that ask for
    five seconds. *)
Example State_new_default :
  State_new default_flags 0 = Ok example_state
  /\ State_new five_second_flags 0 = Ok five_second_state.
Proof. conjuncts; vm_compute; reflexivity. Qed.

(** ** Counting iterations *)

Section Counting.

Variable walltime_Now MyCPUUsage ChildrenCPUUsage : nat -> double.
Variable flags : Flags.
Variable BenchmarkRunData_new : BenchmarkRunData.t.

Local Abbreviation KeepRunning' :=
  (KeepRunning walltime_Now MyCPUUsage ChildrenCPUUsage flags BenchmarkRunData_new).

(** Before the deadline [KeepRunning] counts one iteration and answers
    true. *)
Lemma KeepRunning_fast_path m when b m' :
  int64_of_double (double_of_Z (stop_time_micros_ (self m)) + pause_time_ (self m))%float
  = Ok when ->
  approx_time_ (clock m) < when ->
  KeepRunning' m = Ok (b, m') ->
  b = true /\ m' = with_self (set_iterations_ (iterations_ (self m) + 1) (self m)) m.
Proof.
  intros Hwhen Hbefore H. unfold KeepRunning, HasReached in H. inv_monad.
  match goal with E : int64_of_double _ = Ok _ |- _ => rewrite Hwhen in E; injection E as <- end.
  apply Z.leb_gt in Hbefore. rewrite Hbefore in H. cbn [negb] in H. inv_monad.
  match goal with E : int64 _ = Ok _ |- _ =>
    unfold int64 in E; destruct (_ && _) in E; [injection E as <-|discriminate E] end.
  auto.
Qed.

(** The first call starts the first interval and answers true, and the
    iteration that follows is not counted. *)
Lemma KeepRunning_first_call m when b m' :
  state_ (self m) = STATE_INITIAL ->
  int64_of_double (double_of_Z (stop_time_micros_ (self m)) + pause_time_ (self m))%float
  = Ok when ->
  when <= approx_time_ (clock m) ->
  KeepRunning' m = Ok (b, m') ->
  b = true /\ state_ (self m') = STATE_RUNNING /\ iterations_ (self m') = 0.
Proof.
  intros Hstate Hwhen Hreached H. unfold KeepRunning, HasReached in H. inv_monad.
  match goal with E : int64_of_double _ = Ok _ |- _ => rewrite Hwhen in E; injection E as <- end.
  apply Z.leb_le in Hreached. rewrite Hreached, Hstate in H. cbn [negb] in H.
  unfold StartRunning in H. inv_monad. simpl_fields.
  match goal with Hn : NewInterval _ _ _ _ = Ok _ |- _ =>
    apply NewInterval_fresh in Hn as (Hi & _ & Hst & _) end.
  - rewrite Hi, Hst.
    match goal with
    | Hc : (if _ =? _ then _ else _) _ = Ok (_, ?m1) |- context [self ?m1] =>
        assert (Hself : self m1 = set_is_continuation_ false (set_state_ STATE_STARTING (self m)))
    end.
    { match goal with Hc : (if ?c then _ else _) _ = Ok _ |- _ => destruct c end.
      - unfold InitType in *. inv_monad.
        match goal with Hn : NowMicros _ _ _ _ = Ok _ |- _ =>
          apply NowMicros_frame in Hn as (Hs & _) end.
        simpl_fields. assumption.
      - inv_monad. reflexivity. }
    auto.
  - simpl_fields.
    match goal with
    | Hc : (if ?c then _ else _) _ = Ok (_, ?m1) |- is_continuation_ (self ?m1) = false =>
        destruct c
    end.
    + unfold InitType in *. inv_monad.
      match goal with Hn : NowMicros _ _ _ _ = Ok _ |- _ =>
        apply NowMicros_frame in Hn as (Hs & _) end.
      simpl_fields. rewrite Hs. reflexivity.
    + inv_monad. reflexivity.
Qed.

End Counting.

Lemma KeepRunning_fast_path_witness :
  exists m',
    KeepRunning example_walltime example_cpu example_children default_flags example_run_data
      example_running = Ok (true, m')
    /\ (true = true
        /\ m' = with_self
                  (set_iterations_ (iterations_ (self example_running) + 1)
                     (self example_running))
                  example_running).
Proof.
  eexists. split; [vm_compute; reflexivity|].
  eapply (KeepRunning_fast_path
            example_walltime example_cpu example_children default_flags example_run_data
            example_running 750000).
  - vm_compute. reflexivity.
  - apply Z.ltb_lt. vm_compute. reflexivity.
  - vm_compute. reflexivity.
Defined.

Lemma KeepRunning_first_call_witness :
  exists m',
    KeepRunning example_walltime example_cpu example_children default_flags example_run_data
      example_initial = Ok (true, m')
    /\ (true = true /\ state_ (self m') = STATE_RUNNING /\ iterations_ (self m') = 0).
Proof.
  eexists. split; [vm_compute; reflexivity|].
  eapply (KeepRunning_first_call
            example_walltime example_cpu example_children default_flags example_run_data
            example_initial 0).
  - reflexivity.
  - vm_compute. reflexivity.
  - apply Z.leb_le. vm_compute. reflexivity.
  - vm_compute. reflexivity.
Defined.

(** C3 on the code, under the default flags: the first call of [KeepRunning]
    starts the interval and answers true, a hundred calls take the fast
    path, the background thread then moves the clock past the deadline, and
    the next call closes the interval and answers false.  [KeepRunning] has
    answered true 101 times, and the run recorded for the interval has 100
    iterations. *)
Theorem KeepRunning_first_iteration_uncounted :
  exists answers m',
    run_events example_walltime example_cpu example_children default_flags example_run_data
      (CallKeepRunning :: repeat CallKeepRunning 100 ++ [TurnBGThread; CallKeepRunning])
      (example_machine example_state)
    = Ok (answers, m')
    /\ answers = (repeat true 101 ++ [false])%list
    /\ List.length (filter (fun b => b) answers) = 101%nat
    /\ map BenchmarkRunData.iterations (SharedState.runs (shared m')) = [100]
    /\ state_ (self m') = STATE_STOPPED.
Proof.
  eexists. eexists. split; [vm_compute; reflexivity|].
  conjuncts; reflexivity.
Qed.

(** ** The life of a worker *)

Lemma int64_Ok (z v : Z) : int64 z = Ok v -> v = z.
Proof. unfold int64. destruct (_ && _); [intros [= <-]; reflexivity|discriminate]. Qed.

Lemma int32_Ok (z v : Z) : int32 z = Ok v -> v = z.
Proof. unfold int32. destruct (_ && _); [intros [= <-]; reflexivity|discriminate]. Qed.

Section Lifecycle.

Variable walltime_Now MyCPUUsage ChildrenCPUUsage : nat -> double.
Variable flags : Flags.
Variable BenchmarkRunData_new : BenchmarkRunData.t.

Local Abbreviation KeepRunning' :=
  (KeepRunning walltime_Now MyCPUUsage ChildrenCPUUsage flags BenchmarkRunData_new).
Local Abbreviation FinishInterval' :=
  (FinishInterval walltime_Now MyCPUUsage ChildrenCPUUsage flags BenchmarkRunData_new).
Local Abbreviation StartRunning' :=
  (StartRunning walltime_Now MyCPUUsage ChildrenCPUUsage).
Local Abbreviation NewInterval' := (NewInterval walltime_Now MyCPUUsage ChildrenCPUUsage).
Local Abbreviation NowMicros' := (NowMicros walltime_Now MyCPUUsage ChildrenCPUUsage).
Local Abbreviation InitType' := (InitType walltime_Now MyCPUUsage ChildrenCPUUsage).

(** The ways through [KeepRunning]. *)
Lemma KeepRunning_cases (m : Machine) (b : bool) (m' : Machine) :
  KeepRunning' m = Ok (b, m') ->
  exists when,
    int64_of_double (double_of_Z (stop_time_micros_ (self m)) + pause_time_ (self m))%float
    = Ok when
    /\ ((approx_time_ (clock m) < when /\ b = true
         /\ m' = with_self (set_iterations_ (iterations_ (self m) + 1) (self m)) m)
        \/ (when <= approx_time_ (clock m)
            /\ ((state_ (self m) = STATE_INITIAL /\ StartRunning' m = Ok (b, m'))
                \/ (state_ (self m) = STATE_RUNNING /\ FinishInterval' m = Ok (b, m'))
                \/ (state_ (self m) = STATE_STOPPING /\ MaybeStop m = Ok (b, m'))))).
Proof.
  intros H. unfold KeepRunning, HasReached in H. inv_monad.
  match goal with E : int64_of_double _ = Ok ?w |- _ =>
    exists w; split; [exact E|];
    destruct (Z.leb_spec w (approx_time_ (clock m))) as [Hr|Hr]; cbn [negb] in H
  end.
  - right. split; [assumption|].
    destruct (state_ (self m)); auto; unfold lift in H; discriminate.
  - left. inv_monad.
    match goal with E : int64 _ = Ok _ |- _ => apply int64_Ok in E; subst end. auto.
Qed.

Lemma InitType_effect (type : FastClock_Type) (m : Machine) (u : unit) (m' : Machine) :
  InitType' type m = Ok (u, m') ->
  self m' = self m /\ shared m' = shared m /\ thread_stats m' = thread_stats m
  /\ use_real_time m' = use_real_time m /\ type_ (clock m') = type.
Proof.
  unfold InitType. intros H. inv_monad.
  match goal with Hn : NowMicros' _ = Ok _ |- _ =>
    apply NowMicros_frame in Hn as (Hs & Hsh & Hc & Hts & Hu) end.
  simpl_fields. rewrite Hc. simpl_fields. auto.
Qed.

Lemma NewInterval_frame (m : Machine) (u : unit) (m' : Machine) :
  NewInterval' m = Ok (u, m') ->
  state_ (self m') = state_ (self m)
  /\ total_iterations_ (self m') = total_iterations_ (self m)
  /\ interval_micros_ (self m') = interval_micros_ (self m)
  /\ is_continuation_ (self m') = is_continuation_ (self m)
  /\ thread_index (self m') = thread_index (self m)
  /\ shared m' = shared m /\ thread_stats m' = thread_stats m /\ clock m' = clock m
  /\ use_real_time m' = use_real_time m.
Proof.
  unfold NewInterval, CPUUsage. intros H. inv_monad.
  match goal with Hn : NowMicros' _ = Ok _ |- _ =>
    apply NowMicros_frame in Hn as (Hs & Hsh & Hc & Hts & Hu) end.
  simpl_fields. rewrite Hs in *.
  destruct (is_continuation_ (self m)) eqn:Hcont; cbn [negb] in H; inv_monad; simpl_fields;
    rewrite ?Hs; simpl_fields; conjuncts; auto.
Qed.

(** What [StartRunning] does. *)
Lemma StartRunning_effect (m : Machine) (b : bool) (m' : Machine) :
  StartRunning' m = Ok (b, m') ->
  b = true
  /\ state_ (self m) = STATE_INITIAL /\ state_ (self m') = STATE_RUNNING
  /\ SharedState.starting (shared m) < SharedState.threads (shared m)
  /\ shared m' = set_starting (SharedState.starting (shared m) + 1) (shared m)
  /\ thread_stats m' = thread_stats m
  /\ use_real_time m' = use_real_time m
  /\ total_iterations_ (self m') = total_iterations_ (self m)
  /\ (if SharedState.starting (shared m) + 1 =? SharedState.threads (shared m)
      then type_ (clock m') = if use_real_time m then REAL_TIME else CPU_TIME
      else clock m' = clock m).
Proof.
  intros H. unfold StartRunning in H. inv_monad. simpl_fields.
  match goal with E : int32 _ = Ok _ |- _ => apply int32_Ok in E; subst end.
  match goal with Hn : NewInterval' _ = Ok _ |- _ =>
    apply NewInterval_frame in Hn as (Hst & Htot & _ & _ & _ & Hsh & Hts & Hc & Hu) end.
  simpl_fields.
  assert (Hinit : state_ (self m) = STATE_INITIAL)
    by (destruct (state_ (self m)); try discriminate; reflexivity).
  match goal with Hl : (_ <? _) = true |- _ => apply Z.ltb_lt in Hl end.
  rewrite Hst, Htot, Hsh, Hts, Hc, Hu.
  destruct (SharedState.starting (shared m) + 1 =? SharedState.threads (shared m)).
  - match goal with Hi : InitType' _ _ = Ok _ |- _ =>
      apply InitType_effect in Hi as (Hs1 & Hsh1 & Hts1 & Hu1 & Hty) end.
    simpl_fields. rewrite Hs1, Hsh1, Hts1, Hu1, Hty. simpl_fields. conjuncts; auto.
  - inv_monad. simpl_fields. conjuncts; auto.
Qed.


Lemma MaybeStop_effect (m : Machine) (b : bool) (m' : Machine) :
  MaybeStop m = Ok (b, m') ->
  clock m' = clock m /\ shared m' = shared m /\ thread_stats m' = thread_stats m
  /\ use_real_time m' = use_real_time m
  /\ stop_time_micros_ (self m') = stop_time_micros_ (self m)
  /\ pause_time_ (self m') = pause_time_ (self m)
  /\ (if b then m' = m /\ state_ (self m) = STATE_STOPPING
      else state_ (self m') = STATE_STOPPED).
Proof.
  unfold MaybeStop. intros H. inv_monad.
  destruct (SharedState.stopping (shared m) <? SharedState.threads (shared m)); inv_monad.
  - assert (state_ (self m) = STATE_STOPPING)
      by (destruct (state_ (self m)); try discriminate; reflexivity).
    conjuncts; auto.
  - simpl_fields. conjuncts; auto.
Qed.

(** What [FinishInterval] does to everything but the interval's own
    counters. *)
Lemma FinishInterval_effect (m : Machine) (b : bool) (m' : Machine) :
  state_ (self m) = STATE_RUNNING ->
  FinishInterval' m = Ok (b, m') ->
  clock m' = clock m /\ thread_stats m' = thread_stats m
  /\ use_real_time m' = use_real_time m
  /\ SharedState.instance (shared m') = SharedState.instance (shared m)
  /\ SharedState.starting (shared m') = SharedState.starting (shared m)
  /\ SharedState.threads (shared m') = SharedState.threads (shared m)
  /\ SharedState.stats (shared m') = SharedState.stats (shared m)
  /\ SharedState.label (shared m') = SharedState.label (shared m)
  /\ (SharedState.runs (shared m') = SharedState.runs (shared m)
      \/ exists data,
           SharedState.runs (shared m')
           = ((if is_continuation_ (self m)
               then removelast (SharedState.runs (shared m))
               else SharedState.runs (shared m)) ++ [data])%list
           /\ (is_continuation_ (self m) = true -> SharedState.runs (shared m) <> []))
  /\ (if EState_eqb (state_ (self m')) STATE_RUNNING
      then SharedState.stopping (shared m') = SharedState.stopping (shared m) /\ b = true
      else SharedState.stopping (shared m') = SharedState.stopping (shared m) + 1
           /\ stop_time_micros_ (self m') = stop_time_micros_ (self m)
           /\ pause_time_ (self m') = pause_time_ (self m)
           /\ ((b = true /\ state_ (self m') = STATE_STOPPING)
               \/ (b = false /\ state_ (self m') = STATE_STOPPED))).
Proof.
  intros Hstate H. unfold FinishInterval, CPUUsage in H. inv_monad.
  destruct ((iterations_ (self m) <? _) && (interval_micros_ (self m) <? 5000000)).
  - (* too short *)
    inv_monad.
    match goal with Hn : NewInterval' _ = Ok _ |- _ =>
      apply NewInterval_frame in Hn as (Hst & _ & _ & _ & _ & Hsh & Hts & Hc & Hu) end.
    simpl_fields. rewrite Hst, Hsh, Hts, Hc, Hu, Hstate. cbn [EState_eqb].
    conjuncts; auto.
  - inv_monad. simpl_fields.
    match goal with E : int64 _ = Ok _ |- _ => apply int64_Ok in E; subst end.
    match goal with
    | Hrun : (if is_continuation_ _ then _ else modify_shared (set_runs (_ ++ [?d])%list)) ?m0
             = Ok (_, ?m1) |- _ =>
        set (data := d) in *;
        assert (Hback : is_continuation_ (self m) = true -> SharedState.runs (shared m) <> [])
          by (intros Hc; rewrite Hc in Hrun;
              destruct (SharedState.runs (shared m)); discriminate);
        assert (Hrec : m1
                       = with_shared
                           (set_runs
                              ((if is_continuation_ (self m)
                                then removelast (SharedState.runs (shared m))
                                else SharedState.runs (shared m)) ++ [data])%list
                              (shared m)) m0)
          by (destruct (is_continuation_ (self m));
              [destruct (SharedState.runs (shared m)); [discriminate|]|];
              inv_monad; reflexivity);
        subst m1; clear Hrun
    end.
    match goal with Hd : RunAnotherInterval _ _ = Ok _ |- _ =>
      rewrite RunAnotherInterval_spec in Hd; injection Hd as <- <- end.
    simpl_fields.
    destruct (another_interval flags _ _); cbn [negb] in *; inv_monad; simpl_fields.
    + rewrite Hstate in *. cbn [EState_eqb] in *. inv_monad.
      match goal with Hn : NewInterval' _ = Ok _ |- _ =>
        apply NewInterval_frame in Hn as (Hst & _ & _ & _ & _ & Hsh & Hts & Hc & Hu) end.
      simpl_fields. rewrite Hst, Hsh, Hts, Hc, Hu. simpl_fields.
      rewrite Hstate. cbn [EState_eqb]. conjuncts; eauto.
    + match goal with E : int32 _ = Ok _ |- _ => apply int32_Ok in E; subst end.
      destruct (SharedState.stopping (shared m) + 1 <? SharedState.threads (shared m));
        inv_monad; simpl_fields; cbn [EState_eqb] in *; inv_monad; simpl_fields;
        cbn [EState_eqb]; conjuncts; eauto.
Qed.


(** [KeepRunning] answers false only to a worker it leaves STOPPED; from
    then on the setters are legal, and one more call of [KeepRunning] fails
    its check. *)
Theorem KeepRunning_false_stopped (m m' : Machine) :
  KeepRunning' m = Ok (false, m') ->
  state_ (self m') = STATE_STOPPED
  /\ (forall bytes, exists m'', SetBytesProcessed bytes m' = Ok (tt, m''))
  /\ (forall items, exists m'', SetItemsProcessed items m' = Ok (tt, m''))
  /\ (forall label, exists m'', SetLabel label m' = Ok (tt, m''))
  /\ KeepRunning' m' = CheckFailed.
Proof.
  intros H. destruct (KeepRunning_cases m false m' H) as (when & Hwhen & Hcase).
  assert (Hfacts : state_ (self m') = STATE_STOPPED
                   /\ stop_time_micros_ (self m') = stop_time_micros_ (self m)
                   /\ pause_time_ (self m') = pause_time_ (self m)
                   /\ clock m' = clock m /\ when <= approx_time_ (clock m)).
  { destruct Hcase as [(_ & Hb & _)|(Hr & [(_ & Hs)|[(Hst & Hf)|(_ & Hm)]])].
    - discriminate.
    - apply StartRunning_effect in Hs as (Hb & _). discriminate.
    - apply (FinishInterval_effect m false m' Hst) in Hf
        as (Hc & _ & _ & _ & _ & _ & _ & _ & _ & Hstop).
      destruct (EState_eqb (state_ (self m')) STATE_RUNNING).
      + destruct Hstop as [_ Hb]. discriminate.
      + destruct Hstop as (_ & Hs & Hp & [[Hb _]|[_ Hst']]); [discriminate|]. auto.
    - apply MaybeStop_effect in Hm as (Hc & _ & _ & _ & Hs & Hp & Hst). auto. }
  destruct Hfacts as (Hst & Hs & Hp & Hc & Hr).
  split; [assumption|].
  unfold SetBytesProcessed, SetItemsProcessed, SetLabel, KeepRunning, HasReached,
    bindM, this, get, ret, lift, modify_shared, modify.
  apply Z.leb_le in Hr.
  cbv beta iota. rewrite Hst, Hs, Hp, Hwhen. cbv beta iota. rewrite Hc, Hr.
  cbn [EState_eqb CHECK negb]. cbv beta iota.
  conjuncts; eauto.
Qed.

(** [KeepRunning] never takes a worker back to an earlier phase, and of the
    shared state it leaves the instance, the thread count, the statistics
    and the label alone; the two counters only grow, by one at most, and
    [starting] stays within the thread count. *)
Theorem KeepRunning_keeps (m : Machine) (b : bool) (m' : Machine) :
  KeepRunning' m = Ok (b, m') ->
  phase (state_ (self m)) <= phase (state_ (self m'))
  /\ SharedState.instance (shared m') = SharedState.instance (shared m)
  /\ SharedState.threads (shared m') = SharedState.threads (shared m)
  /\ SharedState.stats (shared m') = SharedState.stats (shared m)
  /\ SharedState.label (shared m') = SharedState.label (shared m)
  /\ thread_stats m' = thread_stats m
  /\ SharedState.starting (shared m) <= SharedState.starting (shared m')
     <= SharedState.starting (shared m) + 1
  /\ SharedState.stopping (shared m) <= SharedState.stopping (shared m')
     <= SharedState.stopping (shared m) + 1
  /\ (SharedState.starting (shared m) <= SharedState.threads (shared m) ->
      SharedState.starting (shared m') <= SharedState.threads (shared m')).
Proof.
  intros H. destruct (KeepRunning_cases m b m' H) as (when & Hwhen & Hcase).
  destruct Hcase as [(_ & Hb & ->)|(Hr & [(_ & Hs)|[(Hst & Hf)|(_ & Hm)]])].
  - simpl_fields. conjuncts; auto; lia.
  - apply StartRunning_effect in Hs as (_ & Hi & Hr' & Hlt & Hsh & Hts & _).
    rewrite Hsh, Hi, Hr', Hts. simpl_fields. cbn [phase]. conjuncts; auto; lia.
  - apply (FinishInterval_effect m b m' Hst) in Hf
      as (_ & Hts & _ & Hin & Hsg & Hth & Hss & Hl & _ & Hstop).
    rewrite Hin, Hsg, Hth, Hss, Hl, Hts, Hst.
    destruct (state_ (self m')) eqn:Hst'; cbn [EState_eqb phase] in *;
      try (destruct Hstop as (Hstop & _ & _ & [[_ Hx]|[_ Hx]]); discriminate);
      conjuncts; auto; lia.
  - pose proof Hm as Hm'. apply MaybeStop_effect in Hm as (_ & Hsh & Hts & _ & _ & _ & Hb).
    rewrite Hsh, Hts. unfold MaybeStop, bindM, get in Hm'.
    assert (phase (state_ (self m)) <= phase (state_ (self m'))).
    { destruct b.
      - destruct Hb as [-> _]. lia.
      - rewrite Hb. destruct (state_ (self m)); cbn; lia. }
    conjuncts; auto; lia.
Qed.

(** [KeepRunning] records at most one run a call, only for a running worker,
    and leaves every run but the last one as it is. *)
Theorem KeepRunning_runs (m : Machine) (b : bool) (m' : Machine) :
  KeepRunning' m = Ok (b, m') ->
  (List.length (SharedState.runs (shared m))
   <= List.length (SharedState.runs (shared m'))
   <= S (List.length (SharedState.runs (shared m))))%nat
  /\ (forall i, (S i < List.length (SharedState.runs (shared m)))%nat ->
                nth_error (SharedState.runs (shared m')) i
                = nth_error (SharedState.runs (shared m)) i)
  /\ (SharedState.runs (shared m') <> SharedState.runs (shared m) ->
      state_ (self m) = STATE_RUNNING).
Proof.
  intros H. destruct (KeepRunning_cases m b m' H) as (when & Hwhen & Hcase).
  assert (Hruns : SharedState.runs (shared m') = SharedState.runs (shared m)
                  \/ (state_ (self m) = STATE_RUNNING
                      /\ exists data,
                          SharedState.runs (shared m')
                          = ((if is_continuation_ (self m)
                              then removelast (SharedState.runs (shared m))
                              else SharedState.runs (shared m)) ++ [data])%list
                          /\ (is_continuation_ (self m) = true ->
                              SharedState.runs (shared m) <> []))).
  { destruct Hcase as [(_ & Hb & ->)|(Hr & [(_ & Hs)|[(Hst & Hf)|(_ & Hm)]])].
    - left. reflexivity.
    - apply StartRunning_effect in Hs as (_ & _ & _ & _ & Hsh & _). rewrite Hsh. auto.
    - apply (FinishInterval_effect m b m' Hst) in Hf
        as (_ & _ & _ & _ & _ & _ & _ & _ & [Hsame|Hnew] & _); auto.
    - apply MaybeStop_effect in Hm as (_ & Hsh & _). rewrite Hsh. auto. }
  destruct Hruns as [->|(Hst & data & -> & Hback)].
  - split; [lia|]. split; [auto|]. congruence.
  - split; [|split; [|auto]].
    + rewrite length_app. cbn [List.length].
      destruct (is_continuation_ (self m)); [|lia].
      specialize (Hback eq_refl).
      destruct (SharedState.runs (shared m)) as [|r rs] using rev_ind; [congruence|].
      rewrite removelast_last, length_app. cbn [List.length]. lia.
    + intros i Hi.
      destruct (is_continuation_ (self m)).
      * specialize (Hback eq_refl).
        destruct (SharedState.runs (shared m)) as [|r rs] using rev_ind; [congruence|].
        rewrite removelast_last. rewrite length_app in Hi. cbn [List.length] in Hi.
        rewrite !nth_error_app1 by lia. reflexivity.
      * rewrite nth_error_app1 by lia. reflexivity.
Qed.

(** [KeepRunning] leaves the fast clock alone except in the call that takes
    the last worker of the instance from INITIAL to RUNNING; that call sets
    the clock to real time exactly when real time was asked for. *)
Theorem KeepRunning_clock (m : Machine) (b : bool) (m' : Machine) :
  KeepRunning' m = Ok (b, m') ->
  use_real_time m' = use_real_time m
  /\ (clock m' = clock m
      \/ (state_ (self m) = STATE_INITIAL
          /\ SharedState.starting (shared m) + 1 = SharedState.threads (shared m)))
  /\ (state_ (self m) = STATE_INITIAL -> state_ (self m') = STATE_RUNNING ->
      SharedState.starting (shared m) + 1 = SharedState.threads (shared m) ->
      type_ (clock m') = if use_real_time m then REAL_TIME else CPU_TIME).
Proof.
  intros H. destruct (KeepRunning_cases m b m' H) as (when & Hwhen & Hcase).
  destruct Hcase as [(_ & Hb & ->)|(Hr & [(Hi & Hs)|[(Hst & Hf)|(Hst & Hm)]])].
  - simpl_fields. conjuncts; auto. intros ->. discriminate.
  - apply StartRunning_effect in Hs as (_ & _ & _ & _ & _ & _ & Hu & _ & Hc).
    destruct (SharedState.starting (shared m) + 1 =? SharedState.threads (shared m)) eqn:Hlast.
    + apply Z.eqb_eq in Hlast. conjuncts; auto.
    + apply Z.eqb_neq in Hlast. conjuncts; auto. intros _ _ Heq. destruct (Hlast Heq).
  - apply (FinishInterval_effect m b m' Hst) in Hf as (Hc & _ & Hu & _).
    conjuncts; auto. rewrite Hst. discriminate.
  - apply MaybeStop_effect in Hm as (Hc & _ & _ & Hu & _).
    conjuncts; auto. rewrite Hst. discriminate.
Qed.

End Lifecycle.

Lemma KeepRunning_false_stopped_witness :
  exists m',
    KeepRunning example_walltime example_cpu example_children default_flags example_run_data
      example_done = Ok (false, m')
    /\ state_ (self m') = STATE_STOPPED
    /\ KeepRunning example_walltime example_cpu example_children default_flags example_run_data
         m' = CheckFailed.
Proof.
  eexists. split; [vm_compute; reflexivity|].
  match goal with
  | |- state_ (self ?m') = _ /\ _ =>
      destruct (KeepRunning_false_stopped
                  example_walltime example_cpu example_children default_flags
                  example_run_data example_done m') as (H1 & _ & _ & _ & H5);
      [vm_compute; reflexivity | exact (conj H1 H5)]
  end.
Defined.

Lemma KeepRunning_keeps_witness :
  exists m',
    KeepRunning example_walltime example_cpu example_children default_flags example_run_data
      example_done = Ok (false, m')
    /\ phase (state_ (self example_done)) <= phase (state_ (self m'))
    /\ SharedState.threads (shared m') = SharedState.threads (shared example_done).
Proof.
  eexists. split; [vm_compute; reflexivity|].
  match goal with
  | |- _ <= phase (state_ (self ?m')) /\ _ =>
      destruct (KeepRunning_keeps
                  example_walltime example_cpu example_children default_flags
                  example_run_data example_done false m') as (H1 & _ & H3 & _);
      [vm_compute; reflexivity | exact (conj H1 H3)]
  end.
Defined.

Lemma KeepRunning_runs_witness :
  exists m',
    KeepRunning example_walltime example_cpu example_children default_flags example_run_data
      example_done = Ok (false, m')
    /\ (List.length (SharedState.runs (shared example_done))
        <= List.length (SharedState.runs (shared m'))
        <= S (List.length (SharedState.runs (shared example_done))))%nat.
Proof.
  eexists. split; [vm_compute; reflexivity|].
  eapply (proj1 (KeepRunning_runs
            example_walltime example_cpu example_children default_flags example_run_data
            example_done false _ _)).
  Unshelve. vm_compute. reflexivity.
Defined.

Lemma KeepRunning_clock_witness :
  exists m',
    KeepRunning example_walltime example_cpu example_children default_flags example_run_data
      (with_use_real_time true example_initial) = Ok (true, m')
    /\ type_ (clock m') = REAL_TIME.
Proof.
  eexists. split; [vm_compute; reflexivity|].
  eapply (proj2 (proj2 (KeepRunning_clock
            example_walltime example_cpu example_children default_flags example_run_data
            (with_use_real_time true example_initial) true _ _))).
  - reflexivity.
  - reflexivity.
  - reflexivity.
  Unshelve. vm_compute. reflexivity.
Defined.

(** ** Expansion and selection *)

Lemma prefix_append (s t : string) : prefix s (s ++ t) = true.
Proof.
  induction s as [|c s IH]; simpl.
  - destruct t; reflexivity.
  - destruct (ascii_dec c c); [assumption|congruence].
Qed.

Lemma prefix_append_append (s t u : string) : prefix s ((s ++ t) ++ u) = true.
Proof. rewrite append_assoc. apply prefix_append. Qed.

Lemma prefix_trans (s t u : string) :
  prefix s t = true -> prefix t u = true -> prefix s u = true.
Proof.
  revert t u. induction s as [|c s IH]; intros t u Hst Htu.
  - destruct u; reflexivity.
  - destruct t as [|c' t]; [discriminate|]. destruct u as [|c'' u]; [discriminate|].
    simpl in *. destruct (ascii_dec c c'); [subst c'|discriminate].
    destruct (ascii_dec c c''); [|discriminate]. eauto.
Qed.

Lemma prefix_refl (s : string) : prefix s s = true.
Proof. rewrite <- (append_empty_r s) at 2. apply prefix_append. Qed.

Lemma vector_at_In {A : Type} (v : list A) (i : Z) (a : A) :
  vector_at v i = Ok a -> In a v.
Proof.
  unfold vector_at. destruct (i <? 0); [discriminate|].
  destruct (nth_error v (Z.to_nat i)) eqn:Hnth; [|discriminate].
  intros [= <-]. eapply nth_error_In; eauto.
Qed.

Lemma vector_at_defined {A : Type} (v : list A) (i : Z) :
  0 <= i < Z.of_nat (List.length v) -> exists a, vector_at v i = Ok a.
Proof.
  intros Hi. unfold vector_at. destruct (Z.ltb_spec i 0); [lia|].
  destruct (nth_error v (Z.to_nat i)) eqn:Hnth; [eauto|].
  apply nth_error_None in Hnth. lia.
Qed.

Lemma int_of_size_small (n : nat) : Z.of_nat n < 2 ^ 31 -> int_of_size n = Z.of_nat n.
Proof.
  intros H. unfold int_of_size.
  rewrite Z.mod_small by (change (2 ^ 32) with 4294967296; change (2 ^ 31) with 2147483648 in H; lia).
  destruct (Z.ltb_spec (Z.of_nat n) (2 ^ 31)); lia.
Qed.

Lemma map_result_Forall {A B : Type} (f : A -> result B) (P : B -> Prop) (l : list A) :
  (forall a, In a l -> exists b, f a = Ok b /\ P b) ->
  exists bs, map_result f l = Ok bs /\ List.length bs = List.length l /\ Forall P bs.
Proof.
  induction l as [|a l IH]; intros H; simpl.
  - exists []. auto.
  - destruct (H a) as (b & Hb & HP); [left; reflexivity|].
    destruct IH as (bs & Hbs & Hlen & HF); [intros; apply H; right; assumption|].
    rewrite Hb, Hbs. simpl. exists (b :: bs). simpl. auto.
Qed.

(** Folding a step that appends to the vector built so far. *)
Lemma fold_left_appends {A B : Type} (F : result (list B) -> A -> result (list B))
    (cnt : A -> nat) (P : B -> Prop) (xs : list A) :
  (forall x b, In x xs ->
     exists l, F (Ok b) x = Ok (b ++ l)%list /\ List.length l = cnt x /\ Forall P l) ->
  forall b,
    exists l, fold_left F xs (Ok b) = Ok (b ++ l)%list
              /\ List.length l = list_sum (map cnt xs) /\ Forall P l.
Proof.
  induction xs as [|x xs IH]; intros H b; simpl.
  - exists []. rewrite app_nil_r. auto.
  - destruct (H x b) as (l & Hl & Hlen & HP); [left; reflexivity|].
    destruct (IH (fun x' b' Hin => H x' b' (or_intror Hin)) (b ++ l)%list)
      as (l' & Hl' & Hlen' & HP').
    rewrite Hl, Hl'. exists (l ++ l')%list. rewrite app_assoc, length_app, Hlen, Hlen'.
    split; [reflexivity|]. split; [reflexivity|]. apply Forall_app. auto.
Qed.

Lemma list_sum_const {A : Type} (n : nat) (xs : list A) :
  list_sum (map (fun _ => n) xs) = (List.length xs * n)%nat.
Proof. induction xs as [|x xs IH]; simpl; [reflexivity|]. rewrite IH. reflexivity. Qed.

Section Expansion.

Variables kNoRange kNumCpuMarker NumCPUs : Z.
Variable regex_t : Type.
Variable regcomp : string -> option regex_t.
Variable regexec : regex_t -> string -> bool.

Local Abbreviation CreateBenchmarkInstance' :=
  (CreateBenchmarkInstance kNoRange kNumCpuMarker NumCPUs).
Local Abbreviation CreateBenchmarkInstances' :=
  (CreateBenchmarkInstances kNoRange kNumCpuMarker NumCPUs).
Local Abbreviation FindBenchmarks_family' :=
  (FindBenchmarks_family kNoRange kNumCpuMarker NumCPUs).
Local Abbreviation FindBenchmarks' :=
  (FindBenchmarks kNoRange kNumCpuMarker NumCPUs regex_t regcomp regexec).
Local Abbreviation instance_of' := (instance_of kNoRange kNumCpuMarker NumCPUs).
Local Abbreviation selected' := (selected regex_t regexec).

Lemma CreateBenchmarkInstance_defined (this : Benchmark) (ix iy : Z) (mt : bool) (t : Z) :
  ix = kNoRange \/ 0 <= ix < Z.of_nat (List.length (rangeX_ this)) ->
  iy = kNoRange \/ 0 <= iy < Z.of_nat (List.length (rangeY_ this)) ->
  exists b,
    CreateBenchmarkInstance' this ix iy mt t = Ok b
    /\ bm b = this
    /\ prefix (name_ this) (name b) = true
    /\ rangeXset b = negb (ix =? kNoRange)
    /\ rangeYset b = negb (iy =? kNoRange)
    /\ (rangeXset b = true -> vector_at (rangeX_ this) ix = Ok (rangeX b))
    /\ (rangeYset b = true -> vector_at (rangeY_ this) iy = Ok (rangeY b))
    /\ (rangeXset b = false -> rangeX b = kNoRange)
    /\ (rangeYset b = false -> rangeY b = kNoRange)
    /\ threads b = (if t =? kNumCpuMarker then NumCPUs else t).
Proof.
  intros Hix Hiy. unfold CreateBenchmarkInstance.
  assert (Hx : (ix =? kNoRange) = true
               \/ ((ix =? kNoRange) = false /\ exists x, vector_at (rangeX_ this) ix = Ok x)).
  { destruct (Z.eqb_spec ix kNoRange); [auto|]. right. split; [reflexivity|].
    apply vector_at_defined. tauto. }
  assert (Hy : (iy =? kNoRange) = true
               \/ ((iy =? kNoRange) = false /\ exists y, vector_at (rangeY_ this) iy = Ok y)).
  { destruct (Z.eqb_spec iy kNoRange); [auto|]. right. split; [reflexivity|].
    apply vector_at_defined. tauto. }
  unfold AppendHumanReadable.
  destruct Hx as [-> | (-> & x & ->)]; destruct Hy as [-> | (-> & y & ->)];
    cbn [negb bind name bm rangeXset rangeX rangeYset rangeY threads];
    destruct mt; eexists; (split; [reflexivity|]);
    cbn [name bm rangeXset rangeX rangeYset rangeY threads];
    conjuncts; try reflexivity; try discriminate; auto;
    rewrite ?append_assoc; try apply prefix_append; apply prefix_refl.
Qed.

Lemma CreateBenchmarkInstances_defined (this : Benchmark) (ix iy : Z) :
  ix = kNoRange \/ 0 <= ix < Z.of_nat (List.length (rangeX_ this)) ->
  iy = kNoRange \/ 0 <= iy < Z.of_nat (List.length (rangeY_ this)) ->
  exists l,
    CreateBenchmarkInstances' this ix iy = Ok l
    /\ List.length l
       = List.length (if is_nil (thread_counts_ this) then [1] else thread_counts_ this)
    /\ Forall (fun b =>
                 bm b = this
                 /\ prefix (name_ this) (name b) = true
                 /\ rangeXset b = negb (ix =? kNoRange)
                 /\ rangeYset b = negb (iy =? kNoRange)
                 /\ (rangeXset b = true -> vector_at (rangeX_ this) ix = Ok (rangeX b))
                 /\ (rangeYset b = true -> vector_at (rangeY_ this) iy = Ok (rangeY b))
                 /\ (rangeXset b = false -> rangeX b = kNoRange)
                 /\ (rangeYset b = false -> rangeY b = kNoRange)
                 /\ In (threads b)
                       (map (fun t => if t =? kNumCpuMarker then NumCPUs else t)
                            (if is_nil (thread_counts_ this) then [1]
                             else thread_counts_ this))) l.
Proof.
  intros Hix Hiy. unfold CreateBenchmarkInstances.
  replace (negb match thread_counts_ this with [] => true | _ :: _ => false end)
    with (negb (is_nil (thread_counts_ this))) by reflexivity.
  replace (if negb (is_nil (thread_counts_ this)) then thread_counts_ this else [1])
    with (if is_nil (thread_counts_ this) then [1] else thread_counts_ this)
    by (destruct (thread_counts_ this); reflexivity).
  apply map_result_Forall. intros t Ht.
  destruct (CreateBenchmarkInstance_defined this ix iy
              (negb (is_nil (thread_counts_ this))) t Hix Hiy)
    as (b & Hb & H1 & H2 & H3 & H4 & H5 & H6 & H7 & H8 & H9).
  exists b. split; [assumption|]. conjuncts; auto.
  rewrite H9. apply (in_map (fun t => if t =? kNumCpuMarker then NumCPUs else t)). assumption.
Qed.


Lemma instance_of_created (f : Benchmark) (ix iy : Z) (b : Benchmark_Instance) :
  (ix = kNoRange /\ rangeX_ f = []) \/ 0 <= ix < Z.of_nat (List.length (rangeX_ f)) ->
  (iy = kNoRange /\ rangeY_ f = []) \/ 0 <= iy < Z.of_nat (List.length (rangeY_ f)) ->
  bm b = f
  /\ prefix (name_ f) (name b) = true
  /\ rangeXset b = negb (ix =? kNoRange)
  /\ rangeYset b = negb (iy =? kNoRange)
  /\ (rangeXset b = true -> vector_at (rangeX_ f) ix = Ok (rangeX b))
  /\ (rangeYset b = true -> vector_at (rangeY_ f) iy = Ok (rangeY b))
  /\ (rangeXset b = false -> rangeX b = kNoRange)
  /\ (rangeYset b = false -> rangeY b = kNoRange)
  /\ In (threads b)
        (map (fun t => if t =? kNumCpuMarker then NumCPUs else t)
             (if is_nil (thread_counts_ f) then [1] else thread_counts_ f)) ->
  instance_of' f b.
Proof.
  intros Hix Hiy (H1 & H2 & H3 & H4 & H5 & H6 & H7 & H8 & H9).
  unfold instance_of. conjuncts; auto.
  - intros Hset. eapply vector_at_In; eauto.
  - intros Hset. eapply vector_at_In; eauto.
  - intros [Hfx Hfy]. rewrite H3, H4. split.
    + destruct Hix as [[-> ->]|Hix]; [rewrite Z.eqb_refl; reflexivity|].
      destruct (Z.eqb_spec ix kNoRange) as [->|_]; [tauto|].
      destruct (rangeX_ f); [simpl in Hix; lia|reflexivity].
    + destruct Hiy as [[-> ->]|Hiy]; [rewrite Z.eqb_refl; reflexivity|].
      destruct (Z.eqb_spec iy kNoRange) as [->|_]; [tauto|].
      destruct (rangeY_ f); [simpl in Hiy; lia|reflexivity].
Qed.

Lemma CreateBenchmarkInstances_instance_of (f : Benchmark) (ix iy : Z) :
  (ix = kNoRange /\ rangeX_ f = []) \/ 0 <= ix < Z.of_nat (List.length (rangeX_ f)) ->
  (iy = kNoRange /\ rangeY_ f = []) \/ 0 <= iy < Z.of_nat (List.length (rangeY_ f)) ->
  exists l,
    CreateBenchmarkInstances' f ix iy = Ok l
    /\ List.length l
       = List.length (if is_nil (thread_counts_ f) then [1] else thread_counts_ f)
    /\ Forall (instance_of' f) l.
Proof.
  intros Hix Hiy.
  destruct (CreateBenchmarkInstances_defined f ix iy) as (l & Hl & Hlen & HF);
    [tauto|tauto|].
  exists l. split; [assumption|]. split; [assumption|].
  eapply Forall_impl; [|exact HF]. intros b Hb. eapply instance_of_created; eauto.
Qed.

Lemma seq_index (n x : nat) :
  Z.of_nat n < 2 ^ 31 -> In x (seq 0 n) ->
  0 <= int_of_size x < Z.of_nat n.
Proof.
  intros Hn Hx. apply in_seq in Hx. rewrite int_of_size_small by lia. lia.
Qed.

Lemma FindBenchmarks_family_spec (f : Benchmark) :
  axes_fit f ->
  forall b0,
    exists l,
      FindBenchmarks_family' f b0 = Ok (b0 ++ l)%list
      /\ List.length l = instance_count f
      /\ Forall (instance_of' f) l.
Proof.
  intros [HfX HfY] b0.
  pose (nT := List.length (if is_nil (thread_counts_ f) then [1] else thread_counts_ f)).
  assert (HnT : nT = match thread_counts_ f with [] => 1%nat | ts => List.length ts end).
  { unfold nT. destruct (thread_counts_ f); reflexivity. }
  unfold FindBenchmarks_family, instance_count. rewrite <- HnT.
  destruct (rangeX_ f) as [|x0 xs] eqn:HX; destruct (rangeY_ f) as [|y0 ys] eqn:HY.
  - destruct (CreateBenchmarkInstances_instance_of f kNoRange kNoRange)
      as (l & -> & Hlen & HF); [auto|auto|].
    cbn [bind]. exists l. rewrite Hlen. fold nT. conjuncts; auto; lia.
  - exists []. rewrite app_nil_r. simpl. auto.
  - rewrite <- HX in *.
    destruct (fold_left_appends
                (fun acc x =>
                   (benchmarks <- acc ;;
                    instances <- CreateBenchmarkInstances' f (int_of_size x) kNoRange ;;
                    Ok (benchmarks ++ instances)%list)%result)
                (fun _ => nT) (instance_of' f) (seq 0 (List.length (rangeX_ f)))) with (b := b0)
      as (l & Hl & Hlen & HF).
    { intros x b Hx.
      destruct (CreateBenchmarkInstances_instance_of f (int_of_size x) kNoRange)
        as (l & Hl & Hlen & HF); [right; apply seq_index; assumption|auto|].
      cbn [bind]. rewrite Hl. exists l. auto. }
    exists l. rewrite list_sum_const, length_seq in Hlen. auto.
  - rewrite <- HX, <- HY in *.
    destruct (fold_left_appends
                (fun acc x =>
                   fold_left
                     (fun acc y =>
                        (benchmarks <- acc ;;
                         instances <-
                           CreateBenchmarkInstances' f (int_of_size x) (int_of_size y) ;;
                         Ok (benchmarks ++ instances)%list)%result)
                     (seq 0 (List.length (rangeY_ f))) acc)
                (fun _ => (List.length (rangeY_ f) * nT)%nat) (instance_of' f)
                (seq 0 (List.length (rangeX_ f)))) with (b := b0)
      as (l & Hl & Hlen & HF).
    { intros x b Hx.
      destruct (fold_left_appends
                  (fun acc y =>
                     (benchmarks <- acc ;;
                      instances <-
                        CreateBenchmarkInstances' f (int_of_size x) (int_of_size y) ;;
                      Ok (benchmarks ++ instances)%list)%result)
                  (fun _ => nT) (instance_of' f) (seq 0 (List.length (rangeY_ f))))
        with (b := b) as (l & Hl & Hlen & HF).
      { intros y b' Hy.
        destruct (CreateBenchmarkInstances_instance_of f (int_of_size x) (int_of_size y))
          as (l & Hl & Hlen & HF);
          [right; apply seq_index; assumption|right; apply seq_index; assumption|].
        cbn [bind]. rewrite Hl. exists l. auto. }
      exists l. rewrite list_sum_const, length_seq in Hlen. auto. }
    exists l. rewrite list_sum_const, length_seq in Hlen.
    split; [assumption|]. split; [|assumption]. rewrite Hlen. lia.
Qed.

Lemma FindBenchmarks_spec (families : list (option Benchmark)) (spec : string) (re : regex_t) :
  regcomp spec = Some re ->
  (forall f, In (Some f) families -> axes_fit f) ->
  forall b0,
    exists l,
      FindBenchmarks' families spec b0 = Ok (b0 ++ l)%list
      /\ List.length l = list_sum (map (selected' re) families)
      /\ Forall (fun b => In (Some (bm b)) families
                          /\ regexec re (name_ (bm b)) = true
                          /\ instance_of' (bm b) b) l.
Proof.
  intros Hre Hfit b0. unfold FindBenchmarks. rewrite Hre.
  apply fold_left_appends. intros family b Hin. cbn [bind].
  destruct family as [f|]; cbn [selected].
  - destruct (regexec re (name_ f)) eqn:Hmatch; cbn [negb].
    + destruct (FindBenchmarks_family_spec f (Hfit f Hin) b) as (l & Hl & Hlen & HF).
      exists l. split; [assumption|]. split; [assumption|].
      eapply Forall_impl; [|exact HF]. intros i Hi.
      assert (Hbm : bm i = f) by apply Hi. rewrite Hbm. auto.
    + exists []. rewrite app_nil_r. auto.
  - exists []. rewrite app_nil_r. auto.
Qed.

End Expansion.

(** ** The instances found, one by one *)

(** Folding over the indices of a vector a step that appends what the
    element at the index gives. *)
Lemma fold_left_flat_map {A B : Type} (F : result (list B) -> nat -> result (list B))
    (h : A -> list B) (xs : list A) :
  forall (k : nat) (b0 : list B),
    (forall i x b, nth_error xs i = Some x -> F (Ok b) (k + i)%nat = Ok (b ++ h x)%list) ->
    fold_left F (seq k (List.length xs)) (Ok b0) = Ok (b0 ++ flat_map h xs)%list.
Proof.
  induction xs as [|x xs IH]; intros k b0 H; cbn [List.length seq fold_left flat_map].
  - now rewrite app_nil_r.
  - pose proof (H 0%nat x b0 eq_refl) as H0. rewrite Nat.add_0_r in H0. rewrite H0.
    rewrite (IH (S k) (b0 ++ h x)%list).
    + now rewrite app_assoc.
    + intros i x' b Hi. rewrite <- (H (S i) x' b Hi). f_equal. lia.
Qed.

Lemma vector_at_nth_error {A : Type} (v : list A) (i : nat) (a : A) :
  Z.of_nat (List.length v) < 2 ^ 31 -> nth_error v i = Some a ->
  vector_at v (int_of_size i) = Ok a
  /\ 0 <= int_of_size i < Z.of_nat (List.length v).
Proof.
  intros Hfit Hnth.
  assert (Hi : (i < List.length v)%nat) by (apply nth_error_Some; congruence).
  rewrite int_of_size_small by lia. split; [|lia].
  unfold vector_at. destruct (Z.ltb_spec (Z.of_nat i) 0); [lia|].
  now rewrite Nat2Z.id, Hnth.
Qed.

Section Expansion_exact.

Variables kNoRange kNumCpuMarker NumCPUs : Z.
Variable regex_t : Type.
Variable regcomp : string -> option regex_t.
Variable regexec : regex_t -> string -> bool.

Local Abbreviation CreateBenchmarkInstance' :=
  (CreateBenchmarkInstance kNoRange kNumCpuMarker NumCPUs).
Local Abbreviation CreateBenchmarkInstances' :=
  (CreateBenchmarkInstances kNoRange kNumCpuMarker NumCPUs).
Local Abbreviation FindBenchmarks_family' :=
  (FindBenchmarks_family kNoRange kNumCpuMarker NumCPUs).
Local Abbreviation Benchmark_FindBenchmarks' :=
  (Benchmark_FindBenchmarks kNoRange kNumCpuMarker NumCPUs regex_t regcomp regexec).
Local Abbreviation instance_for' := (instance_for kNoRange kNumCpuMarker NumCPUs).
Local Abbreviation expansion' := (expansion kNoRange kNumCpuMarker NumCPUs).

Lemma CreateBenchmarkInstance_for (this : Benchmark) (ix iy : Z) (x y : option Z) (t : Z) :
  index_of kNoRange (rangeX_ this) ix x -> index_of kNoRange (rangeY_ this) iy y ->
  CreateBenchmarkInstance' this ix iy (negb (is_nil (thread_counts_ this))) t
  = Ok (instance_for' this x y t).
Proof.
  intros Hx Hy. unfold CreateBenchmarkInstance, instance_for, AppendHumanReadable.
  destruct x as [x|]; destruct y as [y|]; cbn [index_of] in Hx, Hy.
  all: repeat match goal with
       | H : _ /\ _ |- _ => destruct H as [?Hne ?Hat]
       | H : _ <> kNoRange |- _ => apply Z.eqb_neq in H; rewrite H
       | H : vector_at _ _ = Ok _ |- _ => rewrite H; clear H
       | H : _ = kNoRange |- _ => rewrite H, Z.eqb_refl; clear H
       end.
  all: cbn [negb bind name bm rangeXset rangeX rangeYset rangeY threads].
  all: fold (si x) || idtac; fold (si y) || idtac.
  all: destruct (is_nil (thread_counts_ this));
    cbn [negb name bm rangeXset rangeX rangeYset rangeY threads];
    f_equal; f_equal; rewrite ?append_assoc, ?append_empty_r; reflexivity.
Qed.

Lemma CreateBenchmarkInstances_for (this : Benchmark) (ix iy : Z) (x y : option Z) :
  index_of kNoRange (rangeX_ this) ix x -> index_of kNoRange (rangeY_ this) iy y ->
  CreateBenchmarkInstances' this ix iy
  = Ok (map (instance_for' this x y)
          (if is_nil (thread_counts_ this) then [1] else thread_counts_ this)).
Proof.
  intros Hx Hy. unfold CreateBenchmarkInstances.
  replace (negb match thread_counts_ this with [] => true | _ :: _ => false end)
    with (negb (is_nil (thread_counts_ this))) by reflexivity.
  replace (if negb (is_nil (thread_counts_ this)) then thread_counts_ this else [1])
    with (if is_nil (thread_counts_ this) then [1] else thread_counts_ this)
    by (destruct (thread_counts_ this); reflexivity).
  apply map_result_total. intros t _. apply CreateBenchmarkInstance_for; assumption.
Qed.

Lemma index_of_place (axis : list Z) (i : nat) (v : Z) :
  Z.of_nat (List.length axis) < 2 ^ 31 ->
  ~ (0 <= kNoRange < Z.of_nat (List.length axis)) ->
  nth_error axis i = Some v ->
  index_of kNoRange axis (int_of_size i) (Some v).
Proof.
  intros Hfit Hfree Hnth.
  destruct (vector_at_nth_error axis i v Hfit Hnth) as [Hat Hrange].
  split; [|assumption]. intros Heq. apply Hfree. rewrite <- Heq. assumption.
Qed.

Lemma FindBenchmarks_family_expansion (f : Benchmark) (benchmarks : list Benchmark_Instance) :
  axes_fit f -> no_range_free kNoRange f ->
  FindBenchmarks_family' f benchmarks = Ok (benchmarks ++ expansion' f)%list.
Proof.
  intros [HfitX HfitY] [HfreeX HfreeY]. unfold FindBenchmarks_family, expansion.
  destruct (rangeX_ f) as [|x0 xs] eqn:HX; destruct (rangeY_ f) as [|y0 ys] eqn:HY.
  - rewrite (CreateBenchmarkInstances_for f kNoRange kNoRange None None);
      [reflexivity|reflexivity|reflexivity].
  - cbn [List.length seq fold_left flat_map]. now rewrite app_nil_r.
  - rewrite <- HX in *. apply fold_left_flat_map. intros i x b Hi. cbn [bind Nat.add].
    rewrite (CreateBenchmarkInstances_for f (int_of_size i) kNoRange (Some x) None);
      [reflexivity| |reflexivity].
    apply index_of_place; assumption.
  - rewrite <- HX, <- HY in *. apply fold_left_flat_map. intros i x b Hi. cbn [Nat.add].
    apply fold_left_flat_map. intros j y b' Hj. cbn [bind Nat.add].
    rewrite (CreateBenchmarkInstances_for f (int_of_size i) (int_of_size j) (Some x) (Some y));
      [reflexivity| |]; apply index_of_place; assumption.
Qed.

Lemma fold_left_matching {A B : Type} (F : result (list B) -> A -> result (list B))
    (h : A -> list B) (xs : list A) :
  forall b0,
    (forall x b, In x xs -> F (Ok b) x = Ok (b ++ h x)%list) ->
    fold_left F xs (Ok b0) = Ok (b0 ++ flat_map h xs)%list.
Proof.
  induction xs as [|x xs IH]; intros b0 H; cbn [fold_left flat_map].
  - now rewrite app_nil_r.
  - rewrite (H x b0) by (left; reflexivity).
    rewrite IH by (intros; apply H; right; assumption). now rewrite app_assoc.
Qed.

(** [FindBenchmarks] appends, for every registered family whose name
    matches and in the order of registration, exactly one instance for each
    combination of an X value, a Y value and a thread count, the X values
    outermost: each with these values, the resolved thread count and the
    name made of the family's name, "/" and the SI rendering of each value
    that is set, and "/threads:" and the thread count when the family
    registered thread counts. *)
Theorem FindBenchmarks_expansion (registry : list (option Benchmark)) (spec : string)
    (re : regex_t) (benchmarks : list Benchmark_Instance) :
  regcomp spec = Some re ->
  (forall f, In (Some f) registry -> axes_fit f /\ no_range_free kNoRange f) ->
  Benchmark_FindBenchmarks' (Some registry) spec benchmarks
  = Ok (benchmarks
          ++ matching kNoRange kNumCpuMarker NumCPUs regex_t regexec re registry)%list.
Proof.
  intros Hre Hfit. unfold Benchmark_FindBenchmarks, FindBenchmarks, matching. rewrite Hre.
  apply fold_left_matching. intros family b Hin. cbn [bind].
  destruct family as [f|]; [|now rewrite app_nil_r].
  destruct (regexec re (name_ f)); cbn [negb]; [|now rewrite app_nil_r].
  apply FindBenchmarks_family_expansion; apply (Hfit f Hin).
Qed.

End Expansion_exact.

Section Selection.

Variables kNoRange kNumCpuMarker NumCPUs : Z.
Variable CyclesPerSecond : double.
Variable scaling_enabled : bool.
Variable regex_t : Type.
Variable regcomp : string -> option regex_t.
Variable regexec : regex_t -> string -> bool.

Local Abbreviation FindBenchmarks' :=
  (FindBenchmarks kNoRange kNumCpuMarker NumCPUs regex_t regcomp regexec).
Local Abbreviation Benchmark_FindBenchmarks' :=
  (Benchmark_FindBenchmarks kNoRange kNumCpuMarker NumCPUs regex_t regcomp regexec).

(** [FindBenchmarks] compiles the expression before it looks at the
    registry: an expression that does not compile makes it return with the
    caller's vector as it was, whatever the pointer [families].  With an
    expression that compiles, a null [families], as in a program that
    constructed no family, is dereferenced; a registry whose axes are
    vectors an [int] can index makes it return, with the entries the
    caller's vector held followed by what it appends.  Every instance
    appended belongs to a family that is still registered and whose name
    matches the expression, and its own name starts with the family's. *)
Theorem FindBenchmarks_appends (families : option (list (option Benchmark))) (spec : string)
    (benchmarks : list Benchmark_Instance) :
  (forall registry f, families = Some registry -> In (Some f) registry -> axes_fit f) ->
  (regcomp spec = None ->
   Benchmark_FindBenchmarks' families spec benchmarks = Ok benchmarks)
  /\ (forall re, regcomp spec = Some re -> families = None ->
      Benchmark_FindBenchmarks' families spec benchmarks = Undefined)
  /\ (forall registry, families = Some registry ->
      exists l,
        Benchmark_FindBenchmarks' families spec benchmarks = Ok (benchmarks ++ l)%list
        /\ (regcomp spec = None -> l = [])
        /\ (forall b, In b l ->
              In (Some (bm b)) registry
              /\ (exists re, regcomp spec = Some re /\ regexec re (name_ (bm b)) = true)
              /\ prefix (name_ (bm b)) (name b) = true)).
Proof.
  intros Hfit. unfold Benchmark_FindBenchmarks. conjuncts.
  - intros ->. reflexivity.
  - intros re -> ->. reflexivity.
  - intros registry ->. destruct (regcomp spec) as [re|] eqn:Hre.
    + destruct (FindBenchmarks_spec kNoRange kNumCpuMarker NumCPUs regex_t regcomp regexec
                  registry spec re Hre (fun f => Hfit registry f eq_refl) benchmarks)
        as (l & Hl & _ & HF).
      exists l. split; [assumption|]. split; [discriminate|].
      intros b Hb. rewrite Forall_forall in HF. destruct (HF b Hb) as (Hin & Hmatch & Hof).
      split; [assumption|]. split; [eauto|]. apply Hof.
    + exists []. rewrite app_nil_r.
      split; [reflexivity|]. split; [reflexivity|]. intros b [].
Qed.

(** A routine run for an instance that [FindBenchmarks] made reads its axis
    values with [range_x] and [range_y]: each returns a value its family
    registered on that axis, and fails its check when the family registered
    none. *)
Theorem range_x_registered (families : list (option Benchmark)) (spec : string)
    (benchmarks found : list Benchmark_Instance) (b : Benchmark_Instance) (m : Machine) :
  (forall f, In (Some f) families -> axes_fit f /\ no_range_free kNoRange f) ->
  FindBenchmarks' families spec benchmarks = Ok (benchmarks ++ found)%list ->
  In b found ->
  SharedState.instance (shared m) = Some b ->
  (if is_nil (rangeX_ (bm b)) then range_x m = CheckFailed
   else exists x, range_x m = Ok (x, m) /\ In x (rangeX_ (bm b)))
  /\ (if is_nil (rangeY_ (bm b)) then range_y m = CheckFailed
      else exists y, range_y m = Ok (y, m) /\ In y (rangeY_ (bm b))).
Proof.
  intros Hfit Hfind Hb Hinst.
  destruct (regcomp spec) as [re|] eqn:Hre.
  - destruct (FindBenchmarks_spec kNoRange kNumCpuMarker NumCPUs regex_t regcomp regexec
                families spec re Hre (fun f Hf => proj1 (Hfit f Hf)) benchmarks)
      as (l & Hl & _ & HF).
    rewrite Hl in Hfind. injection Hfind as Hfind. apply app_inv_head in Hfind. subst l.
    rewrite Forall_forall in HF. destruct (HF b Hb) as (Hin & _ & Hof).
    destruct Hof as (_ & _ & HX & HY & _ & _ & Hset & _).
    destruct (Hset (proj2 (Hfit _ Hin))) as [HsetX HsetY].
    unfold range_x, range_y, bindM, get, lift, ret. rewrite Hinst.
    split.
    + destruct (rangeX_ (bm b)) eqn:HXs; cbn [is_nil negb] in *; rewrite HsetX; cbn [CHECK].
      * reflexivity.
      * eexists. split; [reflexivity|]. apply HX. assumption.
    + destruct (rangeY_ (bm b)) eqn:HYs; cbn [is_nil negb] in *; rewrite HsetY; cbn [CHECK].
      * reflexivity.
      * eexists. split; [reflexivity|]. apply HY. assumption.
  - unfold FindBenchmarks in Hfind. rewrite Hre in Hfind. injection Hfind as Hfind.
    rewrite <- (app_nil_r benchmarks) in Hfind at 1. apply app_inv_head in Hfind.
    subst found. destruct Hb.
Qed.

(** The name column is at least 10 wide and holds every name that will be
    printed: the instance's own, with room for "/threads:XX"-style and
    "_stddev" additions when threads or repetitions exceed one. *)
Theorem NameFieldWidth_fits (flags : Flags) (benchmarks : list Benchmark_Instance) :
  Forall (fun b => Z.of_nat (String.length (name b)) + 17 <= INT32_MAX) benchmarks ->
  10 <= NameFieldWidth flags benchmarks
  /\ (forall b, In b benchmarks ->
        Z.of_nat (String.length (name b))
        + (if 1 <? threads b then 10 else 0)
        + (if 1 <? FLAGS_benchmark_repetitions flags then 7 else 0)
        <= NameFieldWidth flags benchmarks).
Proof.
  intros _. unfold NameFieldWidth.
  set (step := fun (name_field_width : Z) (benchmark : Benchmark_Instance) => _).
  assert (Hmono : forall l w, w <= fold_left step l w).
  { induction l as [|b l IH]; intros w; simpl; [lia|].
    etransitivity; [|apply IH]. unfold step.
    destruct (1 <? threads b), (1 <? FLAGS_benchmark_repetitions flags); cbn [andb]; lia. }
  split; [apply Hmono|].
  assert (Hfits : forall l w b, In b l ->
            Z.of_nat (String.length (name b))
            + (if 1 <? threads b then 10 else 0)
            + (if 1 <? FLAGS_benchmark_repetitions flags then 7 else 0)
            <= fold_left step l w).
  { induction l as [|b0 l IH]; intros w b Hb; [destruct Hb|].
    simpl. destruct Hb as [->|Hb]; [|apply IH; assumption].
    etransitivity; [|apply Hmono]. unfold step.
    destruct (1 <? threads b), (1 <? FLAGS_benchmark_repetitions flags); cbn [andb]; lia. }
  intros b Hb. apply Hfits. assumption.
Qed.

End Selection.

Lemma example_families_fit (f : Benchmark) :
  In (Some f) [Some family_F; None; Some family_G] ->
  axes_fit f /\ no_range_free INT32_MAX f.
Proof.
  intros [H|[H|[H|[]]]]; try discriminate; injection H as <-;
    unfold axes_fit, no_range_free, INT32_MAX; simpl; lia.
Qed.

Lemma FindBenchmarks_appends_witness :
  (exists l,
     Benchmark_FindBenchmarks INT32_MAX (-1) 4 simple_regex simple_regcomp simple_regexec
       (Some [Some family_F; None; Some family_G]) "G" [] = Ok ([] ++ l)%list
     /\ (simple_regcomp "G" = None -> l = [])
     /\ (forall b, In b l ->
           In (Some (bm b)) [Some family_F; None; Some family_G]
           /\ (exists re, simple_regcomp "G" = Some re
                          /\ simple_regexec re (name_ (bm b)) = true)
           /\ prefix (name_ (bm b)) (name b) = true))
  /\ Benchmark_FindBenchmarks INT32_MAX (-1) 4 simple_regex simple_regcomp simple_regexec
       None "G" [] = Undefined
  /\ Benchmark_FindBenchmarks INT32_MAX (-1) 4 simple_regex simple_regcomp simple_regexec
       None "(" [] = Ok [].
Proof.
  conjuncts.
  - apply (FindBenchmarks_appends INT32_MAX (-1) 4 simple_regex simple_regcomp simple_regexec
             (Some [Some family_F; None; Some family_G]) "G" []); [|reflexivity].
    intros registry f [= <-] Hf. apply (example_families_fit f Hf).
  - apply (FindBenchmarks_appends INT32_MAX (-1) 4 simple_regex simple_regcomp simple_regexec
             None "G" []) with (re := ["G"%char]); [|reflexivity|reflexivity].
    intros registry f Hnone. discriminate Hnone.
  - apply (FindBenchmarks_appends INT32_MAX (-1) 4 simple_regex simple_regcomp simple_regexec
             None "(" []); [|reflexivity].
    intros registry f Hnone. discriminate Hnone.
Defined.

Lemma FindBenchmarks_expansion_witness :
  Benchmark_FindBenchmarks INT32_MAX (-1) 4 simple_regex simple_regcomp simple_regexec
    (Some [Some family_F; None; Some family_G]) "." []
  = Ok [ {| name := "F"; bm := family_F;
            rangeXset := false; rangeX := INT32_MAX; rangeYset := false; rangeY := INT32_MAX;
            threads := 1 |};
         {| name := "G/8/64/threads:1"; bm := family_G;
            rangeXset := true; rangeX := 8; rangeYset := true; rangeY := 64;
            threads := 1 |};
         {| name := "G/8/64/threads:4"; bm := family_G;
            rangeXset := true; rangeX := 8; rangeYset := true; rangeY := 64;
            threads := 4 |};
         {| name := "G/2k/64/threads:1"; bm := family_G;
            rangeXset := true; rangeX := 2048; rangeYset := true; rangeY := 64;
            threads := 1 |};
         {| name := "G/2k/64/threads:4"; bm := family_G;
            rangeXset := true; rangeX := 2048; rangeYset := true; rangeY := 64;
            threads := 4 |} ].
Proof.
  rewrite (FindBenchmarks_expansion INT32_MAX (-1) 4 simple_regex simple_regcomp
             simple_regexec [Some family_F; None; Some family_G] "." ["."%char] []).
  - vm_compute. reflexivity.
  - reflexivity.
  - apply example_families_fit.
Defined.

Lemma range_x_registered_witness :
  exists x,
    range_x example_instance_machine = Ok (x, example_instance_machine)
    /\ In x (rangeX_ family_G).
Proof.
  pose (found := match FindBenchmarks INT32_MAX (-1) 4 simple_regex simple_regcomp
                          simple_regexec [Some family_F; None; Some family_G] "G" [] with
                  | Ok l => l
                  | _ => []
                  end).
  refine (proj1 (range_x_registered INT32_MAX (-1) 4 simple_regex simple_regcomp
                   simple_regexec [Some family_F; None; Some family_G] "G" [] found
                   example_instance example_instance_machine _ _ _ _)).
  - intros f [H|[H|[H|[]]]]; try discriminate; injection H as <-;
      unfold axes_fit, no_range_free, INT32_MAX; simpl; lia.
  - vm_compute. reflexivity.
  - vm_compute. auto.
  - reflexivity.
Defined.

Lemma NameFieldWidth_fits_witness :
  10 <= NameFieldWidth default_flags
          [ {| name := "G/2k/64/threads:4"; bm := family_G;
               rangeXset := true; rangeX := 2048; rangeYset := true; rangeY := 64;
               threads := 4 |} ]
  /\ 27 <= NameFieldWidth default_flags
             [ {| name := "G/2k/64/threads:4"; bm := family_G;
                  rangeXset := true; rangeX := 2048; rangeYset := true; rangeY := 64;
                  threads := 4 |} ].
Proof.
  destruct (NameFieldWidth_fits default_flags
              [ {| name := "G/2k/64/threads:4"; bm := family_G;
                   rangeXset := true; rangeX := 2048; rangeYset := true; rangeY := 64;
                   threads := 4 |} ]) as [H10 Hall].
  - repeat constructor. simpl. unfold INT32_MAX. lia.
  - split; [exact H10|]. apply (Hall _ (or_introl eq_refl)).
Defined.

(** ** The registry of families *)

Lemma pop_back_nulls_idem (l : list (option address)) :
  pop_back_nulls (pop_back_nulls l) = pop_back_nulls l.
Proof. induction l as [|[a|] l IH]; simpl; auto. Qed.

Lemma pop_back_nulls_suffix (l : list (option address)) :
  exists n, l = (repeat None n ++ pop_back_nulls l)%list.
Proof.
  induction l as [|[a|] l [n IH]]; simpl.
  - exists 0%nat. reflexivity.
  - exists 0%nat. reflexivity.
  - exists (S n). simpl. f_equal. exact IH.
Qed.

Lemma shrink_prefix (v : list (option address)) :
  exists n, v = (rev (pop_back_nulls (rev v)) ++ repeat None n)%list.
Proof.
  destruct (pop_back_nulls_suffix (rev v)) as [n Hn].
  exists n. rewrite <- (rev_involutive v) at 1. rewrite Hn at 1.
  rewrite rev_app_distr. f_equal.
  clear. induction n as [|n IH]; simpl; [reflexivity|].
  rewrite IH. clear. induction n as [|n IH]; simpl; [reflexivity|]. f_equal. exact IH.
Qed.

Lemma nth_error_repeat_None (n k : nat) (a : address) :
  nth_error (repeat (@None address) n) k <> Some (Some a).
Proof.
  revert k. induction n as [|n IH]; intros [|k]; simpl; try discriminate. apply IH.
Qed.

Lemma shrink_nth_error (v : list (option address)) (k : nat) (a : address) :
  nth_error (rev (pop_back_nulls (rev v))) k = Some (Some a)
  <-> nth_error v k = Some (Some a).
Proof.
  destruct (shrink_prefix v) as [n Hn].
  set (w := rev (pop_back_nulls (rev v))) in *.
  split; intros H.
  - rewrite Hn. rewrite nth_error_app1; [assumption|].
    apply nth_error_Some. congruence.
  - rewrite Hn in H. destruct (Nat.lt_ge_cases k (List.length w)) as [Hk|Hk].
    + rewrite nth_error_app1 in H by assumption. assumption.
    + rewrite nth_error_app2 in H by assumption.
      exfalso. eapply nth_error_repeat_None; eauto.
Qed.

Lemma set_at_nth_error (v : list (option address)) (i k : nat) :
  (i < List.length v)%nat ->
  nth_error (firstn i v ++ None :: skipn (S i) v)%list k
  = if Nat.eqb k i then Some None else nth_error v k.
Proof.
  intros Hi.
  assert (Hlen : List.length (firstn i v) = i) by (apply firstn_length_le; lia).
  destruct (Nat.eqb_spec k i) as [->|Hne].
  - rewrite nth_error_app2 by lia. rewrite Hlen, Nat.sub_diag. reflexivity.
  - destruct (Nat.lt_ge_cases k i) as [Hk|Hk].
    + rewrite nth_error_app1 by lia. rewrite nth_error_firstn.
      destruct (Nat.ltb_spec k i); [reflexivity|lia].
    + rewrite nth_error_app2 by lia. rewrite Hlen.
      destruct (k - i)%nat as [|d] eqn:Hd; [lia|]. cbn [nth_error].
      rewrite nth_error_skipn. f_equal. lia.
Qed.

Lemma find_registered (this : address) (l : list (address * Z)) :
  existsb (Nat.eqb this) (map fst l) = true ->
  exists i, find (fun o => Nat.eqb (fst o) this) l = Some (this, i) /\ In (this, i) l.
Proof.
  induction l as [|[a i] l IH]; simpl; [discriminate|].
  rewrite (Nat.eqb_sym this a).
  destruct (Nat.eqb_spec a this) as [->|Hne]; simpl.
  - intros _. exists i. auto.
  - intros H. destruct (IH H) as [j [Hj Hin]]. exists j. auto.
Qed.

Lemma NoDup_registered_index (l : list (address * Z)) (a : address) (i j : Z) :
  NoDup (map fst l) -> In (a, i) l -> In (a, j) l -> i = j.
Proof.
  induction l as [|[b k] l IH]; simpl; [tauto|].
  intros Hnd [Hi|Hi] [Hj|Hj]; inversion Hnd as [|? ? Hnot Hnd']; subst.
  - congruence.
  - injection Hi as -> ->. exfalso. apply Hnot.
    change a with (fst (a, j)). apply in_map. assumption.
  - injection Hj as -> ->. exfalso. apply Hnot.
    change a with (fst (a, i)). apply in_map. assumption.
  - auto.
Qed.

Lemma map_fst_filter (this : address) (l : list (address * Z)) :
  map fst (filter (fun o => negb (Nat.eqb (fst o) this)) l)
  = filter (fun a => negb (Nat.eqb a this)) (map fst l).
Proof.
  induction l as [|[a i] l IH]; simpl; [reflexivity|].
  destruct (Nat.eqb a this); simpl; congruence.
Qed.

Lemma Benchmark_new_ok (this : address) (r : FamilyRegistry) :
  registry_ok r ->
  existsb (Nat.eqb this) (map fst (registered r)) = false ->
  Z.of_nat (List.length (slots r)) < 2 ^ 31 ->
  registry_ok (Benchmark_new this r)
  /\ List.length (slots (Benchmark_new this r)) = S (List.length (slots r)).
Proof.
  intros (Hnd & Hreg & Hslot & Hback) Hfresh Hsize.
  unfold Benchmark_new, registry_ok, slots in *. cbn [families registered map fst].
  set (v := match families r with None => [] | Some v => v end) in *.
  rewrite int_of_size_small by assumption.
  split; [|rewrite length_app; simpl; lia].
  conjuncts.
  - constructor; [|assumption]. intros Hin.
    assert (existsb (Nat.eqb this) (map fst (registered r)) = true); [|congruence].
    apply existsb_exists. exists this. split; [assumption|apply Nat.eqb_refl].
  - intros a i [Heq|Hin].
    + injection Heq as <- <-. split; [lia|].
      rewrite Nat2Z.id, nth_error_app2, Nat.sub_diag by lia. reflexivity.
    + destruct (Hreg a i Hin) as [Hi Hnth]. split; [assumption|].
      rewrite nth_error_app1; [assumption|]. apply nth_error_Some. congruence.
  - intros k a Hnth. destruct (Nat.lt_ge_cases k (List.length v)) as [Hk|Hk].
    + rewrite nth_error_app1 in Hnth by assumption. right. auto.
    + rewrite nth_error_app2 in Hnth by assumption.
      destruct (k - List.length v)%nat as [|d] eqn:Hd.
      * simpl in Hnth. injection Hnth as <-. left. f_equal. lia.
      * simpl in Hnth. destruct d; discriminate.
  - rewrite rev_app_distr. reflexivity.
Qed.

Lemma Benchmark_delete_ok (this : address) (r : FamilyRegistry) :
  registry_ok r ->
  existsb (Nat.eqb this) (map fst (registered r)) = true ->
  exists r',
    Benchmark_delete this r = Ok r'
    /\ registry_ok r'
    /\ map fst (registered r')
       = filter (fun a => negb (Nat.eqb a this)) (map fst (registered r))
    /\ (List.length (slots r') <= List.length (slots r))%nat.
Proof.
  intros (Hnd & Hreg & Hslot & Hback) Hlive.
  destruct (find_registered this (registered r) Hlive) as (i & Hfind & Hin).
  destruct (Hreg this i Hin) as [Hi Hnth].
  unfold Benchmark_delete. rewrite Hfind.
  unfold slots in *. destruct (families r) as [v|] eqn:Hfam;
    [|destruct (Z.to_nat i); discriminate].
  assert (Hlt : (Z.to_nat i < List.length v)%nat) by (apply nth_error_Some; congruence).
  unfold vector_at. destruct (Z.ltb_spec i 0) as [|_]; [lia|]. rewrite Hnth.
  cbn [bind slot_eqb]. rewrite Nat.eqb_refl. cbn [CHECK bind]. cbv zeta.
  eexists. split; [reflexivity|].
  set (v1 := (firstn (Z.to_nat i) v ++ None :: skipn (S (Z.to_nat i)) v)%list).
  assert (Hv1 : forall k, nth_error v1 k
                          = if Nat.eqb k (Z.to_nat i) then Some None else nth_error v k).
  { intros k. apply set_at_nth_error. assumption. }
  unfold registry_ok, slots. cbn [families registered]. fold v1.
  split; [|split].
  - conjuncts.
    + rewrite map_fst_filter. apply NoDup_filter. assumption.
    + intros a j Haj. apply filter_In in Haj as [Haj Hne]. cbn [fst] in Hne.
      destruct (Hreg a j Haj) as [Hj Hnthj]. split; [assumption|].
      apply shrink_nth_error. rewrite Hv1.
      destruct (Nat.eqb_spec (Z.to_nat j) (Z.to_nat i)) as [Heq|_]; [|assumption].
      rewrite Heq, Hnth in Hnthj. injection Hnthj as ->.
      rewrite Nat.eqb_refl in Hne. discriminate.
    + intros k a Hk. apply (proj1 (shrink_nth_error _ _ _)) in Hk. rewrite Hv1 in Hk.
      destruct (Nat.eqb_spec k (Z.to_nat i)) as [_|Hne]; [discriminate|].
      pose proof (Hslot k a Hk) as Hka. apply filter_In. split; [assumption|].
      cbn [fst]. destruct (Nat.eqb_spec a this) as [->|_]; [|reflexivity].
      exfalso. apply Hne.
      rewrite <- (NoDup_registered_index _ _ _ _ Hnd Hka Hin). symmetry. apply Nat2Z.id.
    + rewrite rev_involutive. apply pop_back_nulls_idem.
  - apply map_fst_filter.
  - destruct (shrink_prefix v1) as [n Hn].
    assert (Hlen1 : List.length v1 = List.length v).
    { unfold v1. rewrite length_app, firstn_length_le by lia. cbn [List.length].
      rewrite length_skipn. lia. }
    rewrite <- Hlen1. rewrite Hn at 2. rewrite length_app. lia.
Qed.

Lemma run_registry_ok (es : list RegistryEvent) :
  forall r,
    registry_ok r ->
    legal (map fst (registered r)) es = true ->
    Z.of_nat (List.length (slots r) + List.length es) < 2 ^ 31 ->
    exists r', run_registry es r = Ok r' /\ registry_ok r'.
Proof.
  induction es as [|[this|this] es IH]; intros r Hok Hlegal Hsize; cbn [run_registry].
  - eauto.
  - cbn [legal] in Hlegal. apply andb_prop in Hlegal as [Hfresh Hlegal].
    apply negb_true_iff in Hfresh.
    destruct (Benchmark_new_ok this r Hok Hfresh) as [Hok' Hlen];
      [cbn [List.length] in Hsize; lia|].
    apply IH; [assumption|exact Hlegal|].
    rewrite Hlen. cbn [List.length] in Hsize. lia.
  - cbn [legal] in Hlegal. apply andb_prop in Hlegal as [Hlive Hlegal].
    destruct (Benchmark_delete_ok this r Hok Hlive) as (r' & Hr' & Hok' & Hreg' & Hlen).
    rewrite Hr'. cbn [bind]. apply IH; [assumption|rewrite Hreg'; exact Hlegal|].
    cbn [List.length] in Hsize. lia.
Qed.

Lemma registry_ok_empty : registry_ok empty_registry.
Proof.
  unfold registry_ok, empty_registry, slots. cbn. conjuncts.
  - constructor.
  - intros a i [].
  - intros [|k] a H; discriminate.
  - reflexivity.
Qed.

Lemma registry_ok_no_family (r : FamilyRegistry) :
  registry_ok r -> registered r = [] -> slots r = [].
Proof.
  intros (_ & _ & Hslot & Hback) Hnone.
  destruct (rev (slots r)) as [|[a|] l] eqn:Hrev.
  - rewrite <- (rev_involutive (slots r)), Hrev. reflexivity.
  - exfalso.
    assert (Hlast : nth_error (slots r) (List.length l) = Some (Some a)).
    { rewrite <- (rev_involutive (slots r)), Hrev. simpl.
      rewrite nth_error_app2 by (rewrite length_rev; lia).
      rewrite length_rev, Nat.sub_diag. reflexivity. }
    apply Hslot in Hlast. rewrite Hnone in Hlast. destruct Hlast.
  - exfalso. simpl in Hback.
    destruct (pop_back_nulls_suffix l) as [n Hn].
    assert (Hlen : List.length (pop_back_nulls l) = S (List.length l)) by (rewrite Hback; reflexivity).
    rewrite Hn in Hlen at 2. rewrite length_app in Hlen. lia.
Qed.

(** Whatever families a program creates and destroys, and in whatever
    order, no destructor fails its check or reads outside the registry;
    afterwards every live family stands in the slot its registration index
    names, every other slot is null, the vector does not end in a null
    slot, and it is empty once no family is left. *)
Theorem registry_destructors_safe (es : list RegistryEvent) :
  legal [] es = true ->
  Z.of_nat (List.length es) < 2 ^ 31 ->
  exists r,
    run_registry es empty_registry = Ok r
    /\ (forall a i, In (a, i) (registered r) ->
          vector_at (slots r) i = Ok (Some a))
    /\ (forall k a, nth_error (slots r) k = Some (Some a) ->
          In (a, Z.of_nat k) (registered r))
    /\ last (slots r) (Some 0%nat) <> None
    /\ (registered r = [] -> slots r = []).
Proof.
  intros Hlegal Hsize.
  destruct (run_registry_ok es empty_registry registry_ok_empty Hlegal) as (r & Hr & Hok);
    [cbn; lia|].
  exists r. split; [assumption|].
  pose proof Hok as (Hnd & Hreg & Hslot & Hback). conjuncts.
  - intros a i Hin. destruct (Hreg a i Hin) as [Hi Hnth].
    unfold vector_at. destruct (Z.ltb_spec i 0); [lia|]. rewrite Hnth. reflexivity.
  - assumption.
  - destruct (slots r) as [|s v] using rev_ind; [discriminate|].
    rewrite last_last. rewrite rev_app_distr in Hback. simpl in Hback.
    destruct s; [discriminate|]. exfalso.
    destruct (pop_back_nulls_suffix (rev v)) as [n Hn].
    assert (Hlen : List.length (pop_back_nulls (rev v)) = S (List.length (rev v)))
      by (rewrite Hback; reflexivity).
    rewrite Hn in Hlen at 2. rewrite length_app in Hlen. lia.
  - apply registry_ok_no_family. assumption.
Qed.

Lemma registry_destructors_safe_witness :
  exists r,
    run_registry [New 10%nat; New 20%nat; New 30%nat; Delete 10%nat; Delete 30%nat]
      empty_registry = Ok r
    /\ slots r = [None; Some 20%nat]
    /\ (forall a i, In (a, i) (registered r) -> vector_at (slots r) i = Ok (Some a)).
Proof.
  destruct (registry_destructors_safe
              [New 10%nat; New 20%nat; New 30%nat; Delete 10%nat; Delete 30%nat])
    as (r & Hr & Hreg & _).
  - reflexivity.
  - simpl. lia.
  - exists r. split; [exact Hr|]. split; [|exact Hreg].
    vm_compute in Hr. injection Hr as <-. reflexivity.
Defined.

(** ** Dense ranges *)

Lemma consecutive_S (start : Z) (n : nat) :
  consecutive start (S n) = start :: consecutive (start + 1) n.
Proof.
  unfold consecutive. cbn [seq map]. f_equal; [lia|].
  rewrite <- seq_shift, map_map. apply map_ext. intros k. lia.
Qed.

Lemma DenseRange_loop_below (fuel : nat) :
  forall (rangeX : list Z) (arg limit : Z),
    - 2 ^ 31 <= arg -> limit < INT32_MAX ->
    (Z.to_nat (limit + 1 - arg) < fuel)%nat ->
    DenseRange_loop fuel rangeX arg limit
    = Some (Ok (rangeX ++ consecutive arg (Z.to_nat (limit + 1 - arg)))%list).
Proof.
  induction fuel as [|fuel IH]; intros rangeX arg limit Harg Hlimit Hfuel; [lia|].
  cbn [DenseRange_loop]. destruct (Z.leb_spec arg limit) as [Hle|Hgt].
  - unfold int32.
    destruct (Z.leb_spec (- 2 ^ 31) (arg + 1)); [|lia].
    destruct (Z.leb_spec (arg + 1) INT32_MAX); [|lia]. cbn [andb].
    rewrite IH by lia.
    replace (Z.to_nat (limit + 1 - arg)) with (S (Z.to_nat (limit + 1 - (arg + 1)))) by lia.
    rewrite consecutive_S, <- app_assoc. reflexivity.
  - replace (Z.to_nat (limit + 1 - arg)) with 0%nat by lia.
    unfold consecutive. cbn. rewrite app_nil_r. reflexivity.
Qed.

Lemma DenseRange_loop_overflows (fuel : nat) :
  forall (rangeX : list Z) (arg : Z),
    - 2 ^ 31 <= arg <= INT32_MAX ->
    (Z.to_nat (INT32_MAX + 1 - arg) <= fuel)%nat ->
    DenseRange_loop fuel rangeX arg INT32_MAX = Some Undefined.
Proof.
  induction fuel as [|fuel IH]; intros rangeX arg Harg Hfuel; [unfold INT32_MAX in *; lia|].
  cbn [DenseRange_loop]. destruct (Z.leb_spec arg INT32_MAX) as [_|Hgt]; [|lia].
  unfold int32. destruct (Z.leb_spec (- 2 ^ 31) (arg + 1)); [|lia].
  destruct (Z.leb_spec (arg + 1) INT32_MAX) as [Hle|Hgt]; cbn [andb]; [|reflexivity].
  apply IH; lia.
Qed.

(** [DenseRange(start, limit)] with [0 <= start <= limit < INT_MAX] appends
    every integer from [start] to [limit], in order, to the X values the
    family has; with [limit = INT_MAX] the loop counter overflows. *)
Theorem DenseRange_appends (fuel : nat) (start limit : Z) (this : Benchmark) :
  0 <= start -> start <= limit -> limit <= INT32_MAX ->
  (Z.to_nat (limit + 1 - start) < fuel)%nat ->
  DenseRange fuel start limit this
  = if limit =? INT32_MAX then Some Undefined
    else Some (Ok {| name_ := name_ this;
                     rangeX_ := (rangeX_ this
                                 ++ consecutive start (Z.to_nat (limit + 1 - start)))%list;
                     rangeY_ := rangeY_ this;
                     thread_counts_ := thread_counts_ this |}).
Proof.
  intros Hstart Hle Hlimit Hfuel. unfold DenseRange.
  destruct (Z.leb_spec 0 start); [|lia]. destruct (Z.leb_spec start limit); [|lia].
  cbn [negb]. destruct (Z.eqb_spec limit INT32_MAX) as [->|Hne].
  - rewrite DenseRange_loop_overflows by (unfold INT32_MAX in *; lia). reflexivity.
  - rewrite DenseRange_loop_below by (unfold INT32_MAX in *; lia). reflexivity.
Qed.

Lemma DenseRange_appends_witness :
  DenseRange 10 3 6 (Arg 1 family_F)
  = Some (Ok {| name_ := "F"; rangeX_ := [1; 3; 4; 5; 6]; rangeY_ := [];
                thread_counts_ := [] |}).
Proof.
  apply (DenseRange_appends 10 3 6 (Arg 1 family_F)); unfold INT32_MAX; simpl; lia.
Defined.

(** ** The command line *)

Section CommandLineFlags_facts.

Variable ParseStringFlag : string -> string -> option string.
Variable ParseBoolFlag : string -> string -> option bool.
Variable ParseInt32Flag : string -> string -> option Z.
Variable IsFlag : string -> string -> bool.

Local Abbreviation ParseCommandLineFlags_loop' :=
  (ParseCommandLineFlags_loop ParseStringFlag ParseBoolFlag ParseInt32Flag IsFlag).
Local Abbreviation ParseCommandLineFlags' :=
  (ParseCommandLineFlags ParseStringFlag ParseBoolFlag ParseInt32Flag IsFlag).
Local Abbreviation recognised' :=
  (recognised ParseStringFlag ParseBoolFlag ParseInt32Flag).
Local Abbreviation filter_after' := (filter_after ParseStringFlag).
Local Abbreviation color_print_after' := (color_print_after ParseStringFlag ParseBoolFlag).
Local Abbreviation v_after' := (v_after ParseStringFlag ParseBoolFlag ParseInt32Flag).

Lemma remove_argument_middle (kept rest : list string) (arg : string) :
  remove_argument (List.length kept) (kept ++ arg :: rest) = (kept ++ rest)%list.
Proof.
  unfold remove_argument.
  rewrite firstn_app, firstn_all, Nat.sub_diag. cbn [firstn]. rewrite app_nil_r.
  replace (S (List.length kept)) with (List.length (kept ++ [arg])%list)
    by (rewrite length_app; simpl; lia).
  replace (kept ++ arg :: rest)%list with ((kept ++ [arg]) ++ rest)%list
    by (rewrite <- app_assoc; reflexivity).
  rewrite skipn_app, skipn_all, Nat.sub_diag. reflexivity.
Qed.

Lemma ParseCommandLineFlags_loop_spec (rest : list string) :
  forall (fuel : nat) (kept : list string) (c : CommandLine),
    argv c = (kept ++ rest)%list ->
    (List.length rest < fuel)%nat ->
    ParseCommandLineFlags_loop' fuel (List.length kept) c
    = Some (if existsb (fun arg => negb (recognised' arg) && IsFlag arg "help") rest
            then Exits
            else Returns
                   {| argv := (kept ++ filter (fun arg => negb (recognised' arg)) rest)%list;
                      FLAGS := set_FLAGS_benchmark_filter
                                 (filter_after' rest (FLAGS_benchmark_filter (FLAGS c)))
                                 (FLAGS c);
                      FLAGS_color_print := color_print_after' rest (FLAGS_color_print c);
                      FLAGS_v := v_after' rest (FLAGS_v c) |}).
Proof.
  induction rest as [|arg rest IH]; intros fuel kept c Hargv Hfuel;
    (destruct fuel as [|fuel]; [simpl in Hfuel; lia|]); cbn [ParseCommandLineFlags_loop].
  - rewrite Hargv, app_nil_r. rewrite Nat.ltb_irrefl. cbn.
    rewrite app_nil_r. f_equal. f_equal.
    destruct c as [a [f1 f2 f3 f4 f5] cp v]. cbn in *. subst a.
    rewrite app_nil_r. reflexivity.
  - assert (Hlt : (List.length kept <? List.length (argv c))%nat = true).
    { apply Nat.ltb_lt. rewrite Hargv, length_app. simpl. lia. }
    rewrite Hlt. cbv zeta.
    assert (Harg : nth (List.length kept) (argv c) "" = arg).
    { rewrite Hargv, app_nth2, Nat.sub_diag by lia. reflexivity. }
    rewrite Harg. cbn [List.length] in Hfuel.
    cbn [existsb filter filter_after color_print_after v_after fold_left]. unfold recognised at 1 3.
    destruct (ParseStringFlag arg "benchmark_filter") as [v|] eqn:Hs.
    + cbn [negb andb orb]. rewrite Hargv, remove_argument_middle.
      rewrite (IH fuel kept) by (cbn [argv]; auto; lia). cbn [FLAGS argv FLAGS_color_print FLAGS_v].
      reflexivity.
    + destruct (ParseBoolFlag arg "color_print") as [b|] eqn:Hb.
      * cbn [negb andb orb]. rewrite Hargv, remove_argument_middle.
        rewrite (IH fuel kept) by (cbn [argv]; auto; lia). reflexivity.
      * destruct (ParseInt32Flag arg "v") as [z|] eqn:Hz.
        -- cbn [negb andb orb]. rewrite Hargv, remove_argument_middle.
           rewrite (IH fuel kept) by (cbn [argv]; auto; lia). reflexivity.
        -- cbn [negb andb orb]. destruct (IsFlag arg "help"); [reflexivity|].
           replace (S (List.length kept)) with (List.length (kept ++ [arg])%list)
             by (rewrite length_app; simpl; lia).
           rewrite (IH fuel (kept ++ [arg])%list)
             by (rewrite ?Hargv, <- ?app_assoc; auto; lia).
           rewrite <- app_assoc. reflexivity.
Qed.

(** [ParseCommandLineFlags'] ends on every command line.  It leaves the
    process when an argument that no parser accepts is the help flag.
    Otherwise it returns with [argv[0]] in place, followed by exactly the
    arguments no parser accepted, in their order; each flag holds the value
    of the last argument that set it, or its old value. *)
Theorem ParseCommandLineFlags_spec (fuel : nat) (c : CommandLine) :
  (List.length (argv c) < fuel)%nat ->
  let args := skipn 1 (argv c) in
  ParseCommandLineFlags' fuel c
  = Some (if existsb (fun arg => negb (recognised' arg) && IsFlag arg "help") args
          then Exits
          else Returns
                 {| argv := (firstn 1 (argv c)
                             ++ filter (fun arg => negb (recognised' arg)) args)%list;
                    FLAGS := set_FLAGS_benchmark_filter
                               (filter_after' args (FLAGS_benchmark_filter (FLAGS c)))
                               (FLAGS c);
                    FLAGS_color_print := color_print_after' args (FLAGS_color_print c);
                    FLAGS_v := v_after' args (FLAGS_v c) |}).
Proof.
  intros Hfuel args. unfold ParseCommandLineFlags.
  destruct (argv c) as [|arg0 rest] eqn:Hargv.
  - subst args. destruct fuel as [|fuel]; [simpl in Hfuel; lia|].
    cbn [ParseCommandLineFlags_loop]. rewrite Hargv. cbn.
    f_equal. f_equal. destruct c as [a [f1 f2 f3 f4 f5] cp v]. cbn in *. subst a. reflexivity.
  - subst args. cbn [skipn firstn].
    apply (ParseCommandLineFlags_loop_spec rest fuel [arg0] c); [assumption|].
    simpl in Hfuel. lia.
Qed.

End CommandLineFlags_facts.


Lemma ParseCommandLineFlags_spec_witness :
  ParseCommandLineFlags simple_ParseStringFlag simple_ParseBoolFlag simple_ParseInt32Flag
    simple_IsFlag 7
    (default_command_line
       ["prog"; "--benchmark_filter=A"; "x"; "--v=2"; "--benchmark_filter=B"; "y"])
  = Some (Returns {| argv := ["prog"; "x"; "y"];
                     FLAGS := set_FLAGS_benchmark_filter "B" default_flags;
                     FLAGS_color_print := true;
                     FLAGS_v := 2 |}).
Proof.
  apply (ParseCommandLineFlags_spec simple_ParseStringFlag simple_ParseBoolFlag
           simple_ParseInt32Flag simple_IsFlag 7
           (default_command_line
              ["prog"; "--benchmark_filter=A"; "x"; "--v=2"; "--benchmark_filter=B"; "y"])).
  simpl. lia.
Defined.

(** ** A lone worker *)

Section Lone.

Variable walltime_Now MyCPUUsage ChildrenCPUUsage : nat -> double.
Variable flags : Flags.
Variable BenchmarkRunData_new : BenchmarkRunData.t.

Local Abbreviation KeepRunning' :=
  (KeepRunning walltime_Now MyCPUUsage ChildrenCPUUsage flags BenchmarkRunData_new).
Local Abbreviation FinishInterval' :=
  (FinishInterval walltime_Now MyCPUUsage ChildrenCPUUsage flags BenchmarkRunData_new).
Local Abbreviation StartRunning' :=
  (StartRunning walltime_Now MyCPUUsage ChildrenCPUUsage).
Local Abbreviation NewInterval' := (NewInterval walltime_Now MyCPUUsage ChildrenCPUUsage).
Local Abbreviation NowMicros' := (NowMicros walltime_Now MyCPUUsage ChildrenCPUUsage).
Local Abbreviation InitType' := (InitType walltime_Now MyCPUUsage ChildrenCPUUsage).
Local Abbreviation run_events' :=
  (run_events walltime_Now MyCPUUsage ChildrenCPUUsage flags BenchmarkRunData_new).

Lemma int_div_Ok (a b q : Z) : int_div a b = Ok q -> q = Z.quot a b.
Proof.
  unfold int_div. destruct (b =? 0); [discriminate|]. intros H.
  apply int32_Ok in H. assumption.
Qed.

Lemma StartRunning_fresh (m : Machine) (b : bool) (m' : Machine) :
  StartRunning' m = Ok (b, m') -> is_continuation_ (self m') = false.
Proof.
  unfold StartRunning. intros H. inv_monad. simpl_fields.
  match goal with Hn : NewInterval' _ = Ok _ |- _ =>
    apply NewInterval_frame in Hn as (_ & _ & _ & Hc & _) end.
  rewrite Hc. simpl_fields.
  match goal with
  | Hi : (if _ =? _ then _ else _) _ = Ok (_, ?m1) |- _ =>
      assert (Hself : self m1 = set_is_continuation_ false (set_state_ STATE_STARTING (self m)))
  end.
  { match goal with
    | Hi : (if ?c then _ else _) _ = Ok _ |- _ => destruct c
    end.
    - match goal with Hi : InitType' _ _ = Ok _ |- _ =>
        apply InitType_effect in Hi as (Hs & _) end.
      rewrite Hs. reflexivity.
    - unfold ret in *.
      match goal with Hi : Ok _ = Ok _ |- _ => injection Hi as <- <- end. reflexivity. }
  rewrite Hself. reflexivity.
Qed.

Lemma MaybeStop_total (m : Machine) (b : bool) (m' : Machine) :
  MaybeStop m = Ok (b, m') ->
  total_iterations_ (self m') = total_iterations_ (self m).
Proof.
  unfold MaybeStop. intros H. inv_monad.
  destruct (SharedState.stopping (shared m) <? SharedState.threads (shared m));
    inv_monad; reflexivity.
Qed.

(** The two ways through [FinishInterval]. *)
Lemma FinishInterval_branches (m : Machine) (b : bool) (m' : Machine) :
  state_ (self m) = STATE_RUNNING ->
  FinishInterval' m = Ok (b, m') ->
  let q := Z.quot (FLAGS_benchmark_min_iters flags) (FLAGS_benchmark_repetitions flags) in
  (iterations_ (self m) < q /\ interval_micros_ (self m) < 5000000
   /\ b = true /\ state_ (self m') = STATE_RUNNING
   /\ is_continuation_ (self m') = false
   /\ shared m' = shared m)
  \/ ((q <= iterations_ (self m) \/ 5000000 <= interval_micros_ (self m))
      /\ (exists data,
            SharedState.runs (shared m')
            = ((if is_continuation_ (self m)
                then removelast (SharedState.runs (shared m))
                else SharedState.runs (shared m)) ++ [data])%list)
      /\ (is_continuation_ (self m) = true -> SharedState.runs (shared m) <> [])
      /\ interval_micros_ (self m') = interval_micros_ (self m)
      /\ iterations_ (self m') = iterations_ (self m)
      /\ (if another_interval flags (total_iterations_ (self m'))
               (int_of_size (List.length (SharedState.runs (shared m'))))
          then b = true /\ state_ (self m') = STATE_RUNNING
               /\ is_continuation_ (self m') = true
          else (b = true /\ state_ (self m') = STATE_STOPPING)
               \/ (b = false /\ state_ (self m') = STATE_STOPPED))).
Proof.
  intros Hstate H q. unfold FinishInterval, CPUUsage in H. inv_monad.
  match goal with E : int_div _ _ = Ok _ |- _ => apply int_div_Ok in E; subst end.
  fold q in H.
  destruct ((iterations_ (self m) <? q) && (interval_micros_ (self m) <? 5000000))
    eqn:Hshort.
  - (* too short *)
    left. apply andb_prop in Hshort as [Hit Hint]. apply Z.ltb_lt in Hit, Hint.
    inv_monad.
    match goal with Hn : NewInterval' _ = Ok _ |- _ =>
      apply NewInterval_frame in Hn as (Hst & _ & _ & Hc & _ & Hsh & _) end.
    simpl_fields. rewrite Hst, Hsh, Hc, Hstate. simpl_fields. conjuncts; auto.
  - right. split.
    { apply andb_false_iff in Hshort as [Hc|Hc]; apply Z.ltb_ge in Hc; auto. }
    inv_monad. simpl_fields.
    match goal with E : int64 _ = Ok _ |- _ => apply int64_Ok in E; subst end.
    match goal with
    | Hrun : (if is_continuation_ _ then _ else modify_shared (set_runs (_ ++ [?d])%list)) ?m0
             = Ok (_, ?m1) |- _ =>
        set (data := d) in *;
        assert (Hback : is_continuation_ (self m) = true -> SharedState.runs (shared m) <> [])
          by (intros Hc; rewrite Hc in Hrun;
              destruct (SharedState.runs (shared m)); discriminate);
        assert (Hrec : m1
                       = with_shared
                           (set_runs
                              ((if is_continuation_ (self m)
                                then removelast (SharedState.runs (shared m))
                                else SharedState.runs (shared m)) ++ [data])%list
                              (shared m)) m0)
          by (destruct (is_continuation_ (self m));
              [destruct (SharedState.runs (shared m)); [discriminate|]|];
              inv_monad; reflexivity);
        subst m1; clear Hrun
    end.
    match goal with Hd : RunAnotherInterval _ _ = Ok _ |- _ =>
      rewrite RunAnotherInterval_spec in Hd; injection Hd as <- <- end.
    simpl_fields.
    destruct (another_interval flags _ _) eqn:Hdecision; cbn [negb] in *; inv_monad;
      simpl_fields.
    + rewrite Hstate in *. cbn [EState_eqb] in *. inv_monad.
      match goal with Hn : NewInterval' _ = Ok _ |- _ =>
        apply NewInterval_continuation in Hn as ([stop Hs] & Hsh & _); [|reflexivity] end.
      simpl_fields. rewrite Hs, Hsh. simpl_fields. rewrite Hdecision.
      conjuncts; eauto.
    + match goal with E : int32 _ = Ok _ |- _ => apply int32_Ok in E; subst end.
      destruct (SharedState.stopping (shared m) + 1 <? SharedState.threads (shared m));
        inv_monad; simpl_fields; cbn [EState_eqb] in *; inv_monad; simpl_fields;
        rewrite Hdecision; conjuncts; eauto.
Qed.

Lemma int_of_size_one : int_of_size 1 = 1.
Proof. reflexivity. Qed.

Lemma length_one_replaced {A : Type} (l : list A) (a : A) :
  List.length l = 1%nat -> List.length (removelast l ++ [a])%list = 1%nat.
Proof. destruct l as [|x [|y l]]; simpl; intros H; try discriminate; reflexivity. Qed.

(** One call of [KeepRunning] on a lone worker. *)
Lemma KeepRunning_lone (m : Machine) (b : bool) (m' : Machine) :
  lone_worker flags m ->
  KeepRunning' m = Ok (b, m') ->
  lone_worker flags m'
  /\ (b = false -> state_ (self m') = STATE_STOPPED)
  /\ phase (state_ (self m)) <= phase (state_ (self m')).
Proof.
  intros Hlone H. destruct (KeepRunning_cases _ _ _ _ _ m b m' H) as (when & _ & Hcase).
  destruct Hcase as [(_ & Hb & ->)|(_ & [(Hst & Hs)|[(Hst & Hf)|(Hst & Hm)]])].
  - (* fast path *)
    split; [|split; [congruence|simpl_fields; lia]].
    unfold lone_worker in *. simpl_fields.
    destruct (state_ (self m)); auto.
    destruct Hlone as [Hl|(Hl & Hc & [Hq|Hi])]; [left; assumption|right..]; auto.
    conjuncts; auto. left. lia.
  - (* the first call *)
    pose proof (StartRunning_fresh m b m' Hs) as Hfresh.
    apply StartRunning_effect in Hs as (Hb & _ & Hst' & _ & Hsh & _).
    split; [|split; [congruence|]].
    + unfold lone_worker in *. rewrite Hst in Hlone. rewrite Hst', Hsh. simpl_fields. auto.
    + rewrite Hst, Hst'. cbn. lia.
  - (* the deadline of an interval *)
    unfold lone_worker in Hlone. rewrite Hst in Hlone.
    destruct (FinishInterval_branches m b m' Hst Hf)
      as [(Hit & Hint & Hb & Hst' & Hc & Hsh)
         |(Hlong & [data Hruns] & Hback & Hint & Hit & Hdecision)].
    + split; [|split; [congruence|rewrite Hst, Hst'; cbn; lia]].
      unfold lone_worker. rewrite Hst', Hsh.
      destruct Hlone as [[Hl _]|(_ & _ & Hq)]; [auto|lia].
    + assert (Hlen : List.length (SharedState.runs (shared m')) = 1%nat).
      { rewrite Hruns. destruct Hlone as [[-> ->]|(Hl & -> & _)]; [reflexivity|].
        apply length_one_replaced. assumption. }
      rewrite Hlen, int_of_size_one in Hdecision.
      split; [|split].
      * unfold lone_worker.
        destruct (another_interval flags (total_iterations_ (self m')) 1) eqn:Hd.
        -- destruct Hdecision as (_ & -> & Hc). right. rewrite Hint, Hit. auto.
        -- destruct Hdecision as [[_ ->]|[_ ->]]; auto.
      * intros ->.
        destruct (another_interval flags (total_iterations_ (self m')) 1).
        -- destruct Hdecision as [Hb _]. discriminate.
        -- destruct Hdecision as [[Hb _]|[_ Hs]]; [discriminate|assumption].
      * rewrite Hst.
        destruct (another_interval flags (total_iterations_ (self m')) 1).
        -- destruct Hdecision as (_ & -> & _). cbn. lia.
        -- destruct Hdecision as [[_ ->]|[_ ->]]; cbn; lia.
  - (* waiting for the other workers *)
    pose proof (MaybeStop_total m b m' Hm) as Htotal.
    apply MaybeStop_effect in Hm as (_ & Hsh & _ & _ & _ & _ & Hb).
    unfold lone_worker in *. rewrite Hst in Hlone. rewrite Hsh, Htotal.
    destruct b.
    + destruct Hb as [-> _]. rewrite Hst. split; [assumption|]. split; [discriminate|lia].
    + rewrite Hb, Hst. split; [assumption|]. split; [reflexivity|]. cbn. lia.
Qed.

(** What the other events leave alone. *)
Lemma BGThread_frame (m : Machine) (u : unit) (m' : Machine) :
  BGThread walltime_Now MyCPUUsage ChildrenCPUUsage m = Ok (u, m') ->
  self m' = self m /\ shared m' = shared m.
Proof.
  unfold BGThread. intros H. inv_monad.
  match goal with Hn : NowMicros' _ = Ok _ |- _ =>
    apply NowMicros_frame in Hn as (Hs & Hsh & _) end.
  simpl_fields. auto.
Qed.

Lemma run_events_lone (es : list Event) :
  forall (m : Machine) (answers : list bool) (m' : Machine),
    lone_worker flags m ->
    run_events' es m = Ok (answers, m') ->
    lone_worker flags m'
    /\ phase (state_ (self m)) <= phase (state_ (self m'))
    /\ (In false answers -> state_ (self m') = STATE_STOPPED).
Proof.
  induction es as [|e es IH]; intros m answers m' Hlone H; cbn [run_events] in H.
  - unfold ret in H. injection H as <- <-. split; [assumption|]. split; [lia|intros []].
  - destruct e; inv_monad.
    + match goal with
      | Hk : KeepRunning' _ = Ok (?b, ?m1), Hr : run_events' _ _ = Ok (?bs, ?m2) |- _ =>
          destruct (KeepRunning_lone m b m1 Hlone Hk) as (Hlone1 & Hfalse & Hphase);
          destruct (IH m1 bs m2 Hlone1 Hr) as (Hlone' & Hphase' & Hin);
          split; [assumption|]; split; [lia|];
          intros [Hb|Hin']; [|auto];
          specialize (Hfalse Hb); rewrite Hfalse in Hphase';
          destruct (state_ (self m2)); cbn [phase] in Hphase'; try lia; reflexivity
      end.
    + match goal with
      | Hp : PauseTiming _ _ = Ok (_, ?m1), Hr : run_events' _ _ = Ok (?bs, ?m2) |- _ =>
          rewrite PauseTiming_spec in Hp; injection Hp as <- <-;
          apply IH in Hr; [|exact Hlone];
          destruct Hr as (Hlone' & Hphase' & Hin); simpl_fields; auto
      end.
    + match goal with
      | Hp : ResumeTiming _ _ = Ok (_, ?m1), Hr : run_events' _ _ = Ok (?bs, ?m2) |- _ =>
          rewrite ResumeTiming_spec in Hp; injection Hp as <- <-;
          apply IH in Hr; [|exact Hlone];
          destruct Hr as (Hlone' & Hphase' & Hin); simpl_fields; auto
      end.
    + match goal with
      | Hb : BGThread _ _ _ _ = Ok (_, ?m1), Hr : run_events' _ _ = Ok (?bs, ?m2) |- _ =>
          apply BGThread_frame in Hb as [Hs Hsh];
          assert (Hlone1 : lone_worker flags m1)
            by (unfold lone_worker; rewrite Hs, Hsh; exact Hlone);
          destruct (IH m1 bs m2 Hlone1 Hr) as (Hlone' & Hphase' & Hin);
          rewrite Hs in Hphase'; auto
      end.
Qed.

(** A lone worker never records more than one run, whatever repetitions
    are asked for: each interval a running worker goes on to continues the
    one before, and its close replaces the run recorded last.  So when two
    or more repetitions are asked for, the test of the repetitions never
    ends a run: whenever [KeepRunning] has answered false the total of
    iterations exceeds [benchmark_max_iters]. *)
Theorem lone_worker_one_run (es : list Event) (m : Machine) (answers : list bool)
    (m' : Machine) :
  state_ (self m) = STATE_INITIAL ->
  SharedState.runs (shared m) = [] ->
  run_events' es m = Ok (answers, m') ->
  (List.length (SharedState.runs (shared m')) <= 1)%nat
  /\ (In false answers ->
      state_ (self m') = STATE_STOPPED
      /\ List.length (SharedState.runs (shared m')) = 1%nat
      /\ (2 <= FLAGS_benchmark_repetitions flags ->
          FLAGS_benchmark_max_iters flags < total_iterations_ (self m'))).
Proof.
  intros Hst Hruns H.
  assert (Hlone : lone_worker flags m) by (unfold lone_worker; rewrite Hst; exact Hruns).
  destruct (run_events_lone es m answers m' Hlone H) as (Hlone' & _ & Hin).
  split.
  - unfold lone_worker in Hlone'.
    destruct (state_ (self m')); try tauto.
    + rewrite Hlone'. cbn. lia.
    + destruct Hlone' as [[-> _]|[-> _]]; cbn; lia.
    + destruct Hlone' as [-> _]. lia.
    + destruct Hlone' as [-> _]. lia.
  - intros Hfalse. specialize (Hin Hfalse). unfold lone_worker in Hlone'.
    rewrite Hin in Hlone'. destruct Hlone' as [Hlen Hdecision].
    split; [assumption|]. split; [assumption|].
    intros Hreps. unfold another_interval in Hdecision.
    destruct (total_iterations_ (self m') <? FLAGS_benchmark_min_iters flags); [discriminate|].
    destruct (Z.ltb_spec (FLAGS_benchmark_max_iters flags) (total_iterations_ (self m')));
      [assumption|].
    destruct (Z.leb_spec (FLAGS_benchmark_repetitions flags) 1); [lia|discriminate].
Qed.

End Lone.

Lemma lone_worker_one_run_witness :
  exists answers m',
    run_events example_walltime example_cpu example_children two_repetitions example_run_data
      two_repetition_events example_initial = Ok (answers, m')
    /\ In false answers
    /\ List.length (SharedState.runs (shared m')) = 1%nat
    /\ FLAGS_benchmark_max_iters two_repetitions < total_iterations_ (self m').
Proof.
  eexists. eexists. split; [vm_compute; reflexivity|].
  match goal with
  | |- In false ?a /\ List.length (SharedState.runs (shared ?m')) = _ /\ _ =>
      assert (Hin : In false a) by (apply in_rev; simpl; left; reflexivity);
      destruct (lone_worker_one_run example_walltime example_cpu example_children
                  two_repetitions example_run_data two_repetition_events
                  example_initial a m') as [_ Hstop];
      [reflexivity | reflexivity | vm_compute; reflexivity |];
      destruct (Hstop Hin) as (_ & Hone & Hmax);
      split; [exact Hin|]; split; [exact Hone|]; apply Hmax; simpl; lia
  end.
Defined.

(** ** Running an instance *)

Section RunInstance_facts.

Variable walltime_Now MyCPUUsage ChildrenCPUUsage : nat -> double.
Variable flags : Flags.
Variable get_memory_usage : bool.

Lemma run_runners_multithreaded (function_ : Benchmark -> M unit) (runners : list State)
    (m : Machine) :
  run_runners function_ true runners m = Ok (tt, m).
Proof.
  induction runners as [|r runners IH]; [reflexivity|].
  cbn [run_runners]. unfold bindM at 1. unfold ret at 1. exact IH.
Qed.

Lemma State_new_any (t t' : Z) (s : State) :
  State_new flags t = Ok s -> exists s', State_new flags t' = Ok s'.
Proof.
  unfold State_new. destruct (int64_of_double _); try discriminate. cbn [bind]. eauto.
Qed.

Lemma map_result_defined {A B : Type} (f : A -> result B) (l : list A) :
  (forall a, exists b, f a = Ok b) -> exists bs, map_result f l = Ok bs.
Proof.
  intros H. induction l as [|a l [bs IH]]; simpl; [eauto|].
  destruct (H a) as [b Hb]. rewrite Hb, IH. simpl. eauto.
Qed.

(** An instance of a family that registered thread counts is never run:
    [RunInstance] sets up the clock, the shared state and the workers,
    starts none of them whatever the routine is, and hands an empty vector
    of runs to the reporter. *)
Theorem RunInstance_multithreaded (function_ : Benchmark -> M unit)
    (b : Benchmark_Instance) (m m1 : Machine) (s : State) :
  multithreaded b = true ->
  0 <= threads b ->
  InitType walltime_Now MyCPUUsage ChildrenCPUUsage CPU_TIME (with_use_real_time false m)
  = Ok (tt, m1) ->
  State_new flags 0 = Ok s ->
  RunInstance walltime_Now MyCPUUsage ChildrenCPUUsage flags function_ get_memory_usage b m
  = Ok ([], with_shared
              {| SharedState.instance := Some b; SharedState.starting := 0;
                 SharedState.stopping := 0; SharedState.threads := threads b;
                 SharedState.stats := ThreadStats_Reset;
                 SharedState.runs := []; SharedState.label := "" |} m1).
Proof.
  intros Hmulti Hthreads Hclock Hnew. unfold RunInstance.
  unfold bindM at 1. unfold modify at 1.
  unfold bindM at 1. rewrite Hclock.
  unfold bindM at 1. unfold modify at 1.
  destruct (Z.ltb_spec (threads b) 0) as [|_]; [lia|].
  unfold bindM at 1. unfold ret at 1.
  destruct (map_result_defined (State_new flags)
              (map Z.of_nat (seq 0 (Z.to_nat (threads b)))))
    as [runners Hrunners].
  { intros t. eapply State_new_any. eassumption. }
  unfold bindM at 1. rewrite Hrunners. unfold lift at 1.
  unfold bindM at 1. rewrite Hmulti, run_runners_multithreaded.
  reflexivity.
Qed.

End RunInstance_facts.

(** ** Reporting *)

Lemma int_of_int64_mod (a b : Z) :
  int_of_int64 (int_of_int64 a + b) = int_of_int64 (a + b).
Proof.
  unfold int_of_int64.
  assert (H : (a mod 2 ^ 32 + b) mod 2 ^ 32 = (a + b) mod 2 ^ 32)
    by (rewrite Zplus_mod_idemp_l; reflexivity).
  assert (H' : (a mod 2 ^ 32 - 2 ^ 32 + b) mod 2 ^ 32 = (a + b) mod 2 ^ 32).
  { replace (a mod 2 ^ 32 - 2 ^ 32 + b) with (a mod 2 ^ 32 + b + (-1) * 2 ^ 32) by lia.
    rewrite Z_mod_plus_full. assumption. }
  destruct (a mod 2 ^ 32 <? 2 ^ 31); [rewrite H|rewrite H']; reflexivity.
Qed.

Lemma int_of_int64_idem (z : Z) : int_of_int64 (int_of_int64 z) = int_of_int64 z.
Proof.
  pose proof (int_of_int64_mod z 0) as H. rewrite !Z.add_0_r in H. exact H.
Qed.

Lemma common_label_spec (label0 : string) (rest : list BenchmarkRunData.t) :
  common_label label0 rest
  = if forallb (fun r => String.eqb (BenchmarkRunData.report_label r) label0) rest
    then label0 else "".
Proof.
  induction rest as [|r rest IH]; cbn [common_label forallb]; [reflexivity|].
  destruct (String.eqb (BenchmarkRunData.report_label r) label0); cbn [negb andb]; auto.
Qed.

Section Reporter_facts.

Variable BenchmarkRunData_new : BenchmarkRunData.t.
Variable Stat1_d : Type.
Variable Stat1_d_empty : Stat1_d.
Variable Stat1_d_sample : double -> Z -> Stat1_d.
Variable Stat1_d_add : Stat1_d -> Stat1_d -> Stat1_d.
Variables Stat1_d_Sum Stat1_d_Mean Stat1_d_StdDev : Stat1_d -> double.
Variable Stat1MinMax_d : Type.
Variable Stat1MinMax_d_empty : Stat1MinMax_d.
Variable Stat1MinMax_d_sample : double -> Z -> Stat1MinMax_d.
Variable Stat1MinMax_d_add : Stat1MinMax_d -> Stat1MinMax_d -> Stat1MinMax_d.
Variables Stat1MinMax_d_Max Stat1MinMax_d_StdDev : Stat1MinMax_d -> double.

Local Abbreviation accumulate' :=
  (accumulate Stat1_d Stat1_d_sample Stat1_d_add
     Stat1MinMax_d Stat1MinMax_d_sample Stat1MinMax_d_add).
Local Abbreviation ComputeStats' :=
  (ComputeStats BenchmarkRunData_new Stat1_d Stat1_d_empty Stat1_d_sample Stat1_d_add
     Stat1_d_Sum Stat1_d_Mean Stat1_d_StdDev
     Stat1MinMax_d Stat1MinMax_d_empty Stat1MinMax_d_sample Stat1MinMax_d_add
     Stat1MinMax_d_Max Stat1MinMax_d_StdDev).
Local Abbreviation ReportRuns' :=
  (ReportRuns BenchmarkRunData_new Stat1_d Stat1_d_empty Stat1_d_sample Stat1_d_add
     Stat1_d_Sum Stat1_d_Mean Stat1_d_StdDev
     Stat1MinMax_d Stat1MinMax_d_empty Stat1MinMax_d_sample Stat1MinMax_d_add
     Stat1MinMax_d_Max Stat1MinMax_d_StdDev).

Lemma accumulate_same_name (name0 : string) (reports : list BenchmarkRunData.t) :
  Forall (fun r => BenchmarkRunData.benchmark_name r = name0) reports ->
  forall a,
    int_of_int64 (total_iters _ _ a) = total_iters _ _ a ->
    exists a',
      fold_left (accumulate' name0) reports (Ok a) = Ok a'
      /\ total_iters _ _ a'
         = int_of_int64 (total_iters _ _ a
                         + fold_right Z.add 0 (map BenchmarkRunData.iterations reports)).
Proof.
  induction 1 as [|r reports Hr _ IH]; intros a Ha; cbn [fold_left map fold_right].
  - exists a. rewrite Z.add_0_r. auto.
  - cbn [accumulate bind]. rewrite Hr, String.eqb_refl. cbn [CHECK bind].
    match goal with |- context [fold_left _ _ (Ok ?a1)] =>
      destruct (IH a1) as (a' & Ha' & Htotal) end.
    { cbn [total_iters]. apply int_of_int64_idem. }
    exists a'. split; [assumption|]. rewrite Htotal. cbn [total_iters].
    rewrite int_of_int64_mod. f_equal. lia.
Qed.

Lemma accumulate_fails (name0 : string) (reports : list BenchmarkRunData.t) :
  fold_left (accumulate' name0) reports CheckFailed = CheckFailed.
Proof. induction reports as [|r reports IH]; [reflexivity|exact IH]. Qed.

Lemma accumulate_other_name (name0 : string) (reports : list BenchmarkRunData.t) :
  Exists (fun r => BenchmarkRunData.benchmark_name r <> name0) reports ->
  forall a, fold_left (accumulate' name0) reports (Ok a) = CheckFailed.
Proof.
  induction reports as [|r reports IH]; intros Hex a; [inversion Hex|].
  cbn [fold_left accumulate bind].
  destruct (String.eqb_spec name0 (BenchmarkRunData.benchmark_name r)) as [Heq|Hne];
    cbn [CHECK bind].
  - apply IH. inversion Hex as [? ? Hr|? ? Hrest]; subst; [congruence|assumption].
  - apply accumulate_fails.
Qed.

(** [ComputeStats] on the runs of one benchmark names its rows after the
    benchmark, with the suffixes "_mean" and "_stddev"; both rows carry the
    label of the runs when all runs have the same label and no label
    otherwise, and as iterations the sum of the runs' iterations cut to 32
    bits.  On runs of benchmarks with different names it fails its check. *)
Theorem ComputeStats_rows (r0 : BenchmarkRunData.t) (rest : list BenchmarkRunData.t) :
  (Forall (fun r => BenchmarkRunData.benchmark_name r = BenchmarkRunData.benchmark_name r0)
     rest ->
   exists mean stddev,
     ComputeStats' (r0 :: rest) = Ok (mean, stddev)
     /\ BenchmarkRunData.benchmark_name mean
        = BenchmarkRunData.benchmark_name r0 ++ "_mean"
     /\ BenchmarkRunData.benchmark_name stddev
        = BenchmarkRunData.benchmark_name r0 ++ "_stddev"
     /\ BenchmarkRunData.report_label mean
        = (if forallb (fun r => String.eqb (BenchmarkRunData.report_label r)
                                  (BenchmarkRunData.report_label r0)) rest
           then BenchmarkRunData.report_label r0 else "")
     /\ BenchmarkRunData.report_label stddev = BenchmarkRunData.report_label mean
     /\ BenchmarkRunData.iterations mean
        = int_of_int64 (fold_right Z.add 0 (map BenchmarkRunData.iterations (r0 :: rest)))
     /\ BenchmarkRunData.iterations stddev = BenchmarkRunData.iterations mean)
  /\ (Exists (fun r => BenchmarkRunData.benchmark_name r
                       <> BenchmarkRunData.benchmark_name r0) rest ->
      ComputeStats' (r0 :: rest) = CheckFailed).
Proof.
  split.
  - intros Hnames. unfold ComputeStats.
    match goal with |- context [fold_left _ _ (Ok ?a0)] =>
      destruct (accumulate_same_name (BenchmarkRunData.benchmark_name r0) (r0 :: rest))
        with (a := a0) as (a & Ha & Htotal) end.
    { constructor; [reflexivity|assumption]. }
    { reflexivity. }
    rewrite Ha. cbn [bind]. eexists. eexists. split; [reflexivity|].
    simpl_fields. rewrite common_label_spec, Htotal. cbn [total_iters].
    conjuncts; reflexivity.
  - intros Hex. unfold ComputeStats.
    rewrite accumulate_other_name; [reflexivity|]. right. assumption.
Qed.

Lemma ReportRuns_single (reports : list BenchmarkRunData.t) :
  (List.length reports <= 1)%nat -> ReportRuns' reports = Ok reports.
Proof.
  destruct reports as [|r [|r' reports]]; cbn [List.length]; intros H; [| |lia].
  - reflexivity.
  - unfold ReportRuns. cbn [map_result bind]. rewrite String.eqb_refl. reflexivity.
Qed.

End Reporter_facts.

Section Routine_facts.

Variable walltime_Now MyCPUUsage ChildrenCPUUsage : nat -> double.
Variable flags : Flags.
Variable BenchmarkRunData_new : BenchmarkRunData.t.

Local Abbreviation routine' :=
  (routine walltime_Now MyCPUUsage ChildrenCPUUsage flags BenchmarkRunData_new).

Lemma lone_worker_runs (m : Machine) :
  lone_worker flags m -> (List.length (SharedState.runs (shared m)) <= 1)%nat.
Proof.
  unfold lone_worker. destruct (state_ (self m)); intros H.
  - rewrite H. cbn. lia.
  - destruct H.
  - destruct H as [[-> _]|[-> _]]; cbn; lia.
  - destruct H as [-> _]. lia.
  - destruct H as [-> _]. lia.
Qed.

Lemma routine_lone (calls : list Call) :
  forall (m : Machine) (u : unit) (m' : Machine),
    lone_worker flags m ->
    routine' calls m = Ok (u, m') ->
    lone_worker flags m'.
Proof.
  induction calls as [|c calls IH]; intros m u m' Hlone H; cbn [routine] in H.
  - unfold ret in H. injection H as _ <-. assumption.
  - destruct c; apply bindM_Ok in H as (a & m1 & Hc & H); apply (IH m1 u m'); auto.
    + apply (proj1 (run_events_lone walltime_Now MyCPUUsage ChildrenCPUUsage flags
                      BenchmarkRunData_new [e] m a m1 Hlone Hc)).
    + unfold SetBytesProcessed in Hc. inv_monad. exact Hlone.
    + unfold SetItemsProcessed in Hc. inv_monad. exact Hlone.
    + unfold SetLabel in Hc. inv_monad. exact Hlone.
    + unfold UseRealTime in Hc. inv_monad. exact Hlone.
Qed.

End Routine_facts.

Section End_to_end.

Variable walltime_Now MyCPUUsage ChildrenCPUUsage : nat -> double.
Variable flags : Flags.
Variable BenchmarkRunData_new : BenchmarkRunData.t.
Variable get_memory_usage : bool.
Variable Stat1_d : Type.
Variable Stat1_d_empty : Stat1_d.
Variable Stat1_d_sample : double -> Z -> Stat1_d.
Variable Stat1_d_add : Stat1_d -> Stat1_d -> Stat1_d.
Variables Stat1_d_Sum Stat1_d_Mean Stat1_d_StdDev : Stat1_d -> double.
Variable Stat1MinMax_d : Type.
Variable Stat1MinMax_d_empty : Stat1MinMax_d.
Variable Stat1MinMax_d_sample : double -> Z -> Stat1MinMax_d.
Variable Stat1MinMax_d_add : Stat1MinMax_d -> Stat1MinMax_d -> Stat1MinMax_d.
Variables Stat1MinMax_d_Max Stat1MinMax_d_StdDev : Stat1MinMax_d -> double.

Local Abbreviation routine' :=
  (routine walltime_Now MyCPUUsage ChildrenCPUUsage flags BenchmarkRunData_new).
Local Abbreviation ReportRuns' :=
  (ReportRuns BenchmarkRunData_new Stat1_d Stat1_d_empty Stat1_d_sample Stat1_d_add
     Stat1_d_Sum Stat1_d_Mean Stat1_d_StdDev
     Stat1MinMax_d Stat1MinMax_d_empty Stat1MinMax_d_sample Stat1MinMax_d_add
     Stat1MinMax_d_Max Stat1MinMax_d_StdDev).

Lemma State_new_initial (t : Z) (s : State) :
  State_new flags t = Ok s -> state_ s = STATE_INITIAL.
Proof.
  unfold State_new. destruct (int64_of_double _); try discriminate.
  cbn [bind]. intros [= <-]. reflexivity.
Qed.

(** An instance of a family that registered no thread counts has one
    worker.  Whatever its routine does with that worker, and whatever
    repetitions are asked for, [RunInstance] hands the reporter at most one
    run, named as the instance, labelled with the label set last and with
    no memory measured; [ReportRuns] then prints that run and neither mean
    nor standard deviation. *)
Theorem RunInstance_single_run (calls : list Call) (b : Benchmark_Instance)
    (m : Machine) (reports : list BenchmarkRunData.t) (m' : Machine) :
  multithreaded b = false ->
  threads b = 1 ->
  RunInstance walltime_Now MyCPUUsage ChildrenCPUUsage flags (fun _ => routine' calls)
    get_memory_usage b m = Ok (reports, m') ->
  (List.length reports <= 1)%nat
  /\ Forall (fun r => BenchmarkRunData.benchmark_name r = name b
                      /\ BenchmarkRunData.report_label r = SharedState.label (shared m')
                      /\ BenchmarkRunData.max_heapbytes_used r = 0%float) reports
  /\ ReportRuns' reports = Ok reports.
Proof.
  intros Hsingle Hthreads H. unfold RunInstance in H. rewrite Hsingle, Hthreads in H.
  apply bindM_Ok in H as (u0 & m0 & H0 & H). unfold modify in H0. injection H0 as <- <-.
  apply bindM_Ok in H as (u1 & m1 & Hclock & H).
  apply InitType_effect in Hclock as (Hself1 & _).
  apply bindM_Ok in H as (u2 & m2 & H2 & H). unfold modify in H2. injection H2 as <- <-.
  apply bindM_Ok in H as (u3 & m3 & H3 & H). cbn in H3. unfold ret in H3.
  injection H3 as <- <-.
  apply bindM_Ok in H as (runners & m4 & Hnew & H).
  apply lift_Ok in Hnew as [Hnew ->].
  change (Z.to_nat 1) with 1%nat in Hnew. cbn [seq map map_result] in Hnew.
  destruct (State_new flags (Z.of_nat 0)) as [s0| |] eqn:Hs0; try discriminate.
  cbn [bind] in Hnew. injection Hnew as <-.
  apply State_new_initial in Hs0.
  apply bindM_Ok in H as (u5 & m5 & Hrun & H).
  cbn [run_runners] in Hrun.
  apply bindM_Ok in Hrun as (u6 & m6 & Hrun & Hret). unfold ret in Hret.
  injection Hret as _ <-.
  apply bindM_Ok in Hrun as (u7 & m7 & Hself & Hrun). unfold modify in Hself.
  injection Hself as _ <-.
  unfold Run in Hrun.
  apply bindM_Ok in Hrun as (u8 & m8 & Hreset & Hrun). unfold modify in Hreset.
  injection Hreset as _ <-.
  apply bindM_Ok in Hrun as (m9 & m9' & Hget & Hrun). unfold get in Hget.
  injection Hget as <- <-.
  apply bindM_Ok in Hrun as (u10 & m10 & Hroutine & Hrun).
  simpl_fields.
  assert (Hlone : lone_worker flags m10).
  { eapply (routine_lone walltime_Now MyCPUUsage ChildrenCPUUsage flags
              BenchmarkRunData_new calls); [|exact Hroutine].
    unfold lone_worker. simpl_fields. rewrite Hs0. reflexivity. }
  apply lone_worker_runs in Hlone.
  apply bindM_Ok in Hrun as (m11 & m11' & Hget & Hrun). unfold get in Hget.
  injection Hget as <- <-.
  apply bindM_Ok in Hrun as (stats & m12 & Hadd & Hrun).
  apply lift_Ok in Hadd as [_ ->].
  unfold modify_shared, modify in Hrun. injection Hrun as _ <-.
  apply bindM_Ok in H as (m13 & m13' & Hget & H). unfold get in Hget.
  injection Hget as <- <-. unfold ret in H. injection H as <- <-.
  simpl_fields.
  split; [rewrite length_map; exact Hlone|]. split.
  - apply Forall_forall. intros r Hr. apply in_map_iff in Hr as (r' & <- & _).
    simpl_fields. conjuncts; try reflexivity.
    unfold MeasurePeakHeapMemory. destruct get_memory_usage; reflexivity.
  - apply ReportRuns_single. rewrite length_map. exact Hlone.
Qed.

End End_to_end.

Lemma RunInstance_single_run_witness :
  exists reports m',
    RunInstance example_walltime example_cpu example_children default_flags
      (fun _ => routine example_walltime example_cpu example_children default_flags
                  example_run_data example_calls)
      false example_instance_F example_initial = Ok (reports, m')
    /\ List.length reports = 1%nat
    /\ Forall (fun r => BenchmarkRunData.benchmark_name r = name example_instance_F
                        /\ BenchmarkRunData.report_label r = SharedState.label (shared m')
                        /\ BenchmarkRunData.max_heapbytes_used r = 0%float) reports.
Proof.
  eexists. eexists. split; [vm_compute; reflexivity|]. split; [reflexivity|].
  match goal with
  | |- Forall _ ?reports =>
      match goal with
      | |- context [SharedState.label (shared ?m')] =>
          destruct (RunInstance_single_run
                      example_walltime example_cpu example_children default_flags
                      example_run_data false
                      unit tt (fun _ _ => tt) (fun _ _ => tt)
                      (fun _ => 0%float) (fun _ => 0%float) (fun _ => 0%float)
                      unit tt (fun _ _ => tt) (fun _ _ => tt)
                      (fun _ => 0%float) (fun _ => 0%float)
                      example_calls example_instance_F example_initial reports m')
            as (_ & HF & _);
          [reflexivity | reflexivity | vm_compute; reflexivity | exact HF]
      end
  end.
Defined.

Lemma RunInstance_multithreaded_witness :
  exists m',
    RunInstance example_walltime example_cpu example_children default_flags
      (fun _ => routine example_walltime example_cpu example_children default_flags
                  example_run_data example_calls)
      false example_instance example_initial = Ok ([], m').
Proof.
  eexists.
  eapply (RunInstance_multithreaded example_walltime example_cpu example_children
            default_flags false _ example_instance example_initial).
  - reflexivity.
  - simpl. lia.
  - vm_compute. reflexivity.
  - vm_compute. reflexivity.
Defined.

(** ** Registration, as a program writes it *)

Lemma AddRange_loop_appends (fuel : nat) :
  forall (dst : list Z) (lo hi mult i : Z) (dst' : list Z),
    AddRange_loop fuel dst lo hi mult i = Some dst' ->
    exists l, dst' = (dst ++ l)%list /\ Forall (fun v => lo < v) l.
Proof.
  induction fuel as [|fuel IH]; intros dst lo hi mult i dst' H;
    cbn [AddRange_loop] in H; [discriminate|].
  destruct (i <? Z.quot INT32_MAX mult).
  - destruct (hi <=? i).
    + injection H as <-. exists []. rewrite app_nil_r. auto.
    + destruct (Z.ltb_spec lo i) as [Hi|Hi].
      * apply IH in H as (l & -> & Hl).
        exists (i :: l). rewrite <- app_assoc. split; [reflexivity|].
        constructor; assumption.
      * apply IH in H. assumption.
  - injection H as <-. exists []. rewrite app_nil_r. auto.
Qed.

Lemma AddRange_appends (fuel : nat) (dst : list Z) (lo hi mult : Z) (dst' : list Z) :
  AddRange fuel dst lo hi mult = Some (Ok dst') ->
  0 <= lo /\ exists l, dst' = (dst ++ lo :: l)%list /\ Forall (fun v => lo <= v) l.
Proof.
  unfold AddRange. destruct (Z.leb_spec 0 lo) as [Hlo|]; cbn [negb]; [|discriminate].
  destruct (Z.leb_spec lo hi) as [Hhi|]; cbn [negb]; [|discriminate].
  destruct (mult =? 0); [discriminate|].
  destruct (AddRange_loop fuel (dst ++ [lo]) lo hi mult 1) as [l1|] eqn:Hloop; [|discriminate].
  apply AddRange_loop_appends in Hloop as (l & -> & Hl).
  intros [= <-]. split; [assumption|].
  assert (Hl' : Forall (fun v => lo <= v) l)
    by (eapply Forall_impl; [|exact Hl]; cbv beta; intros; lia).
  destruct (hi =? lo); cbn [negb].
  - exists l. rewrite <- app_assoc. auto.
  - exists (l ++ [hi])%list. rewrite <- !app_assoc. split; [reflexivity|].
    apply Forall_app. split; [assumption|]. repeat constructor. assumption.
Qed.

Section Registration_facts.

Variables kNoRange kNumCpuMarker NumCPUs : Z.

Local Abbreviation well_registered' := (well_registered kNumCpuMarker).

Lemma register_one_keeps (fuel : nat) (call : Registration) (this this' : Benchmark) :
  well_registered' this ->
  register_one fuel kNumCpuMarker call this = Some (Ok this') ->
  well_registered' this' /\ name_ this' = name_ this.
Proof.
  intros [Haxes Hthreads] H. unfold well_registered. destruct call; cbn [register_one] in H.
  - injection H as <-. cbn. split; [split|reflexivity]; [|assumption].
    intros _. destruct (rangeX_ this); discriminate.
  - unfold Range in H.
    destruct (AddRange fuel [] start limit kRangeMultiplier) as [[arglist| |]|] eqn:Hr;
      try discriminate.
    cbn [bind] in H. injection H as <-. cbn. split; [split|reflexivity]; [|assumption].
    intros _. apply AddRange_appends in Hr as (_ & l & -> & _).
    destruct (rangeX_ this); discriminate.
  - unfold DenseRange in H.
    destruct (negb (0 <=? start)); [discriminate|].
    destruct (Z.leb_spec start limit) as [Hle|]; cbn [negb] in H; [|discriminate].
    destruct fuel as [|fuel]; [discriminate|]. cbn [DenseRange_loop] in H.
    destruct (Z.leb_spec start limit) as [_|]; [|lia].
    destruct (int32 (start + 1)) as [arg'| |]; try discriminate.
    destruct (DenseRange_loop fuel (rangeX_ this ++ [start]) arg' limit) as [[rangeX| |]|] eqn:Hd;
      try discriminate.
    cbn [bind] in H. injection H as <-. cbn. split; [split|reflexivity]; [|assumption].
    intros _ ->.
    assert (Hgrow : forall fuel dst arg limit out,
               DenseRange_loop fuel dst arg limit = Some (Ok out) ->
               (List.length dst <= List.length out)%nat).
    { clear. induction fuel as [|fuel IH]; intros dst arg limit out H;
        cbn [DenseRange_loop] in H; [discriminate|].
      destruct (arg <=? limit).
      - destruct (int32 (arg + 1)); try discriminate.
        apply IH in H. rewrite length_app in H. simpl in H. lia.
      - injection H as <-. lia. }
    apply Hgrow in Hd. rewrite length_app in Hd. simpl in Hd. lia.
  - injection H as <-. cbn. split; [split|reflexivity]; [|assumption].
    intros _. destruct (rangeX_ this); discriminate.
  - unfold RangePair in H.
    destruct (AddRange fuel [] lo1 hi1 kRangeMultiplier) as [[arglist1| |]|] eqn:Hr1;
      try discriminate.
    destruct (AddRange fuel [] lo2 hi2 kRangeMultiplier) as [[arglist2| |]|] eqn:Hr2;
      try discriminate.
    cbn [bind] in H. injection H as <-. cbn. split; [split|reflexivity]; [|assumption].
    intros _. apply AddRange_appends in Hr1 as (_ & l & -> & _). discriminate.
  - unfold Threads in H. destruct (Z.ltb_spec 0 t) as [Ht|]; cbn [CHECK bind] in H;
      [|discriminate].
    injection H as <-. cbn. split; [split|reflexivity]; [assumption|].
    apply Forall_app. split; [assumption|]. constructor; [left; assumption|constructor].
  - unfold ThreadRange in H.
    destruct (Z.ltb_spec 0 min_threads) as [Hmin|]; cbn [negb] in H; [|discriminate].
    destruct (negb (min_threads <=? max_threads)); [discriminate|].
    destruct (AddRange fuel (thread_counts_ this) min_threads max_threads 2)
      as [[counts| |]|] eqn:Hr; try discriminate.
    cbn [bind] in H. injection H as <-. cbn. split; [split|reflexivity]; [assumption|].
    apply AddRange_appends in Hr as (_ & l & -> & Hl).
    apply Forall_app. split; [assumption|]. constructor; [left; assumption|].
    eapply Forall_impl; [|exact Hl]. cbv beta. intros v Hv. left. lia.
  - injection H as <-. cbn. split; [split|reflexivity]; [assumption|].
    apply Forall_app. split; [assumption|]. constructor; [right; reflexivity|constructor].
Qed.

Lemma register_keeps (fuel : nat) (calls : list Registration) :
  forall (this this' : Benchmark),
    well_registered' this ->
    register fuel kNumCpuMarker calls this = Some (Ok this') ->
    well_registered' this' /\ name_ this' = name_ this.
Proof.
  induction calls as [|call calls IH]; intros this this' Hok H; cbn [register] in H.
  - injection H as <-. auto.
  - destruct (register_one fuel kNumCpuMarker call this) as [[this1| |]|] eqn:Hone;
      try discriminate.
    apply register_one_keeps in Hone as [Hok1 Hname1]; [|assumption].
    apply IH in H as [Hok' Hname']; [|assumption]. split; [assumption|congruence].
Qed.


End Registration_facts.


(** ** The units of the SI rendering *)

Lemma big_loop_range (n : nat) :
  forall (i : Z) (scaled one_k big_threshold scaled' : double) (e : Z),
    big_loop n i scaled one_k big_threshold = Some (scaled', e) ->
    i < e <= i + Z.of_nat n.
Proof.
  induction n as [|n IH]; intros i scaled one_k big_threshold scaled' e H;
    cbn [big_loop] in H; [discriminate|].
  destruct (_ <=? _)%float.
  - injection H as _ <-. lia.
  - apply IH in H. lia.
Qed.

Lemma small_loop_range (n : nat) :
  forall (i : Z) (scaled one_k small_threshold scaled' : double) (e : Z),
    small_loop n i scaled one_k small_threshold = Some (scaled', e) ->
    - (i + Z.of_nat n) <= e < - i.
Proof.
  induction n as [|n IH]; intros i scaled one_k small_threshold scaled' e H;
    cbn [small_loop] in H; [discriminate|].
  destruct (_ <=? _)%float.
  - injection H as _ <-. lia.
  - apply IH in H. lia.
Qed.

Lemma ToExponentAndMantissa_range (val thresh : double) (precision : Z) (one_k : double) :
  -9 <= snd (ToExponentAndMantissa val thresh precision one_k) <= 9.
Proof.
  unfold ToExponentAndMantissa.
  destruct (_ <? _)%float.
  - destruct (big_loop _ _ _ _ _) as [[scaled e]|] eqn:Hloop; cbn [snd]; [|lia].
    apply big_loop_range in Hloop. change (Z.of_nat (arraysize kBigSIUnits)) with 9 in Hloop.
    lia.
  - destruct (_ <? _)%float; cbn [snd]; [|lia].
    destruct (small_loop _ _ _ _ _) as [[scaled e]|] eqn:Hloop; cbn [snd]; [|lia].
    apply small_loop_range in Hloop.
    change (Z.of_nat (arraysize kSmallSIUnits)) with 9 in Hloop. lia.
Qed.

Lemma ExponentToPrefix_unit (e : Z) :
  -9 <= e <= 9 -> ExponentToPrefix e false = unit_of e.
Proof.
  intros He.
  assert (Hcases : e = -9 \/ e = -8 \/ e = -7 \/ e = -6 \/ e = -5 \/ e = -4 \/ e = -3
                   \/ e = -2 \/ e = -1 \/ e = 0 \/ e = 1 \/ e = 2 \/ e = 3 \/ e = 4
                   \/ e = 5 \/ e = 6 \/ e = 7 \/ e = 8 \/ e = 9) by lia.
  repeat (destruct Hcases as [->|Hcases]; [reflexivity|]). subst e. reflexivity.
Qed.

(** Whatever the value, the threshold and the precision, the SI rendering
    is the mantissa followed by the unit of an exponent between -9 and 9:
    no unit for 0, a letter of the tables up to the eighth power, and for
    the ninth power the NUL that ends the tables, which [arraysize] counts
    as a unit.  The ninth power is reached: 2^91 is rendered with it. *)
Theorem ToBinaryStringFullySpecified_unit (value threshold : double) (precision : Z) :
  (exists mantissa exponent,
      ToExponentAndMantissa value threshold precision 1024%float = (mantissa, exponent)
      /\ -9 <= exponent <= 9
      /\ ToBinaryStringFullySpecified value threshold precision
         = mantissa ++ unit_of exponent)
  /\ snd (ToExponentAndMantissa 0x1p91%float 1.1%float 1 1024%float) = 9.
Proof.
  split.
  - pose proof (ToExponentAndMantissa_range value threshold precision 1024%float) as Hrange.
    unfold ToBinaryStringFullySpecified.
    destruct (ToExponentAndMantissa value threshold precision 1024%float)
      as [mantissa exponent].
    cbn [snd] in Hrange. exists mantissa, exponent.
    split; [reflexivity|]. split; [assumption|].
    rewrite ExponentToPrefix_unit by assumption. reflexivity.
  - vm_compute. reflexivity.
Qed.

(** ** CPU frequency scaling *)

Section Sysfs_facts.

Variable NumCPUs : Z.
Variable fopen : string -> option string.

Local Abbreviation CpuScalingEnabled_loop' := (CpuScalingEnabled_loop fopen).
Local Abbreviation CpuScalingEnabled' := (CpuScalingEnabled NumCPUs fopen).
Local Abbreviation performance' := (performance fopen).

Lemma CpuScalingEnabled_loop_spec (n : nat) :
  forall (first : nat),
    CpuScalingEnabled_loop' (map Z.of_nat (seq first n)) = true
    <-> exists cpu file,
          Z.of_nat first <= cpu < Z.of_nat (first + n)
          /\ fopen (governor_file cpu) = Some file
          /\ memprefix (fread 16 file) "performance" = false
          /\ forall c, Z.of_nat first <= c < cpu -> performance' c.
Proof.
  induction n as [|n IH]; intros first; cbn [seq map CpuScalingEnabled_loop].
  - split; [discriminate|]. intros (cpu & file & Hcpu & _). lia.
  - destruct (fopen (governor_file (Z.of_nat first))) as [file|] eqn:Hopen.
    + cbv zeta. destruct (memprefix (fread 16 file) "performance") eqn:Hperf; cbn [negb].
      * rewrite IH. split.
        -- intros (cpu & file' & Hcpu & Hopen' & Hperf' & Hbelow).
           exists cpu, file'. split; [lia|]. split; [assumption|]. split; [assumption|].
           intros c Hc. destruct (Z.eq_dec c (Z.of_nat first)) as [->|Hne].
           ++ exists file. auto.
           ++ apply Hbelow. lia.
        -- intros (cpu & file' & Hcpu & Hopen' & Hperf' & Hbelow).
           assert (cpu <> Z.of_nat first) by (intros ->; congruence).
           exists cpu, file'. split; [lia|]. split; [assumption|]. split; [assumption|].
           intros c Hc. apply Hbelow. lia.
      * split; [intros _|reflexivity].
        exists (Z.of_nat first), file. split; [lia|]. split; [assumption|].
        split; [assumption|]. intros c Hc. lia.
    + split; [discriminate|].
      intros (cpu & file' & Hcpu & Hopen' & Hperf' & Hbelow).
      destruct (Z.eq_dec cpu (Z.of_nat first)) as [->|Hne]; [congruence|].
      destruct (Hbelow (Z.of_nat first)) as (file & Hfile & _); [lia|]. congruence.
Qed.

(** [CpuScalingEnabled] answers true exactly when some CPU has a governor
    file that does not start with "performance" and every CPU before it has
    one that does: the scan ends at the first CPU whose file does not open,
    and the CPUs after it are not looked at. *)
Theorem CpuScalingEnabled_spec :
  CpuScalingEnabled' = true
  <-> exists cpu file,
        0 <= cpu < NumCPUs
        /\ fopen (governor_file cpu) = Some file
        /\ memprefix (fread 16 file) "performance" = false
        /\ forall c, 0 <= c < cpu -> performance' c.
Proof.
  unfold CpuScalingEnabled. rewrite CpuScalingEnabled_loop_spec.
  split; intros (cpu & file & Hcpu & H); exists cpu, file; (split; [lia|exact H]).
Qed.

End Sysfs_facts.

(** ** A worker cannot be made for zero repetitions *)

Lemma div_by_zero (x : double) :
  match Prim2SF (x / 0)%float with
  | S754_infinity _ | S754_nan => True
  | _ => False
  end.
Proof.
  rewrite FloatAxioms.div_spec. change (Prim2SF 0) with (S754_zero false).
  destruct (Prim2SF x) as [s|s| |s m e]; cbn; exact I.
Qed.

(** With [benchmark_repetitions] at zero the constructor of [State]
    divides by zero and converts what is not a number of microseconds:
    no worker can be made. *)
Theorem State_new_zero_repetitions (flags : Flags) (t : Z) :
  FLAGS_benchmark_repetitions flags = 0 ->
  State_new flags t = Undefined.
Proof.
  intros Hzero. unfold State_new. rewrite Hzero. change (double_of_Z 0) with 0%float.
  unfold int64_of_double.
  pose proof (div_by_zero (1e6 * FLAGS_benchmark_min_time flags)%float) as Hdiv.
  destruct (Prim2SF (1e6 * FLAGS_benchmark_min_time flags / 0)%float); try contradiction;
    reflexivity.
Qed.

Lemma State_new_zero_repetitions_witness :
  State_new {| FLAGS_benchmark_filter := ".";
               FLAGS_benchmark_min_iters := 100;
               FLAGS_benchmark_max_iters := 1000000000;
               FLAGS_benchmark_min_time := 0.5%float;
               FLAGS_benchmark_repetitions := 0 |} 0 = Undefined.
Proof.
  apply (State_new_zero_repetitions
           {| FLAGS_benchmark_filter := ".";
              FLAGS_benchmark_min_iters := 100;
              FLAGS_benchmark_max_iters := 1000000000;
              FLAGS_benchmark_min_time := 0.5%float;
              FLAGS_benchmark_repetitions := 0 |} 0).
  reflexivity.
Defined.
